(** * osrs_vlm_agent: the perception-action control core, embedded in Rocq

    A shallow embedding of the Python sources

      - config.py           (module [Config])
      - logger.py           (module [Logger])
      - window_manager.py   (modules [Region] and [WindowManager])
      - screen_capture.py   (module [ScreenCapture])
      - vision.py           (module [Vision])
      - action_executor.py  (module [ActionExecutor])
      - skills.py           (module [Skills])
      - firemaking_agent.py (module [Agent])

    together with the part of the Python runtime those files lean on
    (module [Py]: str methods, [int()], exceptions, the values of a JSON
    document; module [Json]: the [json.dump]/[json.load] pair used for
    the persisted region file) and the state the program runs in
    (module [Env]).  The definitions come first; the properties proved
    of them follow, in modules of facts grouped by source file.

    Scope of the runtime model.
      - A Python [str] is a Rocq [string] whose characters are the code
        points U+0000..U+00FF (Latin-1).  python-xlib decodes a STRING
        window title that way; text beyond U+00FF is outside the model.
      - A Python [int] is a [Z].  The interpreter's configurable cap on
        the number of digits converted between [int] and [str] is not
        modelled.
      - A Python [float] never takes part in a computation the properties
        depend on; durations are recorded as rationals, and JSON numerals
        with a fraction or an exponent are outside the model.
      - Every call that leaves the process (the window system, the frame
        grabber, the perception provider, the input simulator, the random
        source) is answered by an oracle held in the [World]; the theorems
        quantify over all oracles. *)

From Stdlib Require Import ZArith List String Ascii Bool Lia QArith.
From Stdlib Require Import Decimal DecimalString DecimalZ.
From Stdlib Require DecimalFacts DecimalPos.
Import ListNotations.

#[local] Set Warnings "-register-all".

#[local] Open Scope string_scope.
#[local] Open Scope Z_scope.

(* ================================================================== *)
(** * The Python runtime *)
(* ================================================================== *)

Module Py.

(** ** Exceptions *)

(** The exception classes the sources can meet.  [External] stands for
    any [Exception] subclass raised inside a library the agent calls
    (pyautogui, mss, the provider SDK); [KeyboardInterrupt] derives from
    [BaseException] only. *)
Inductive exn : Type :=
| ValueError (msg : string)
| TypeError (msg : string)
| KeyError (key : string)
| FileNotFoundError
| JSONDecodeError
| XError
| External (msg : string)
| KeyboardInterrupt.

(** [isinstance(e, Exception)]: what [except Exception] catches. *)
Definition is_Exception (e : exn) : bool :=
  match e with
  | KeyboardInterrupt => false
  | _ => true
  end.

(** [str(e)], as it appears in the f-strings of the log calls. *)
Definition str_exn (e : exn) : string :=
  match e with
  | ValueError m | TypeError m | External m => m
  | KeyError k => "'" ++ k ++ "'"
  | FileNotFoundError => "[Errno 2] No such file or directory"
  | JSONDecodeError => "Expecting value"
  | XError => "XError"
  | KeyboardInterrupt => ""
  end.

(** The outcome of evaluating a Python expression or call. *)
Inductive res (A : Type) : Type :=
| Ok (a : A)
| Raise (e : exn).
Arguments Ok {A} a.
Arguments Raise {A} e.

(** ** str *)

Definition ord (c : ascii) : Z := Z.of_N (N_of_ascii c).

(** [c.isspace()] on U+0000..U+00FF: TAB..CR, FS..US, SPACE, NEL, NBSP. *)
Definition isspace (c : ascii) : bool :=
  let n := ord c in
  ((9 <=? n) && (n <=? 13)) || ((28 <=? n) && (n <=? 32))
  || (n =? 133) || (n =? 160).

Definition is_empty (s : string) : bool :=
  match s with EmptyString => true | _ => false end.

(** Truth value of a str: [bool(s)]. *)
Definition truthy (s : string) : bool := negb (is_empty s).

Fixpoint lstrip (s : string) : string :=
  match s with
  | String c r => if isspace c then lstrip r else s
  | EmptyString => EmptyString
  end.

Fixpoint rstrip (s : string) : string :=
  match s with
  | EmptyString => EmptyString
  | String c r =>
      let r' := rstrip r in
      if isspace c && is_empty r' then EmptyString else String c r'
  end.

(** [s.strip()] *)
Definition strip (s : string) : string := rstrip (lstrip s).

(** [c.lower()] on U+0000..U+00FF: A-Z and the capital letters
    U+00C0..U+00DE other than the multiplication sign U+00D7. *)
Definition lower_char (c : ascii) : ascii :=
  let n := ord c in
  if ((65 <=? n) && (n <=? 90))
     || ((192 <=? n) && (n <=? 222) && negb (n =? 215))
  then ascii_of_N (Z.to_N (n + 32))
  else c.

Fixpoint lower (s : string) : string :=
  match s with
  | EmptyString => EmptyString
  | String c r => String (lower_char c) (lower r)
  end.

Fixpoint startswith (p s : string) : bool :=
  match p, s with
  | EmptyString, _ => true
  | String a p', String b s' => Ascii.eqb a b && startswith p' s'
  | String _ _, EmptyString => false
  end.

(** [sub in s] *)
Fixpoint contains (sub s : string) : bool :=
  startswith sub s ||
  match s with
  | EmptyString => false
  | String _ r => contains sub r
  end.

(** [all(p(c) for c in s)] *)
Fixpoint every (p : ascii -> bool) (s : string) : bool :=
  match s with
  | EmptyString => true
  | String c r => p c && every p r
  end.

(** ** int(str) *)

Definition digit_of (c : ascii) : option Z :=
  let n := ord c in
  if (48 <=? n) && (n <=? 57) then Some (n - 48) else None.

(** The digits after the first one: each is a digit, or one underscore
    followed by a digit. *)
Fixpoint int_digits (acc : Z) (s : string) : option Z :=
  match s with
  | EmptyString => Some acc
  | String c r =>
      match digit_of c with
      | Some d => int_digits (10 * acc + d) r
      | None =>
          if Ascii.eqb c "_" then
            match r with
            | String c' r' =>
                match digit_of c' with
                | Some d => int_digits (10 * acc + d) r'
                | None => None
                end
            | EmptyString => None
            end
          else None
      end
  end.

Definition int_unsigned (s : string) : option Z :=
  match s with
  | String c r =>
      match digit_of c with
      | Some d => int_digits d r
      | None => None
      end
  | EmptyString => None
  end.

(** [int(s)] in base 10: surrounding whitespace is dropped, then an
    optional sign, then the digits.  [None] is the [ValueError]. *)
Definition parse_int (s : string) : option Z :=
  match strip s with
  | String "+" r => int_unsigned r
  | String "-" r => option_map Z.opp (int_unsigned r)
  | t => int_unsigned t
  end.

Definition int (s : string) : res Z :=
  match parse_int s with
  | Some n => Ok n
  | None => Raise (ValueError ("invalid literal for int() with base 10: '" ++ s ++ "'"))
  end.

(** [str(n)] and [repr(n)] of an int. *)
Definition str_int (n : Z) : string := NilZero.string_of_int (Z.to_int n).

(** ** Values read from and written to JSON *)

(** The Python values [json.load] can build (floats apart).  A dict is
    kept as the list of its items in insertion order, which is the
    order [json.dump] writes them in; its keys are pairwise distinct. *)
Inductive pyval : Type :=
| PNone
| PBool (b : bool)
| PInt (n : Z)
| PStr (s : string)
| PList (l : list pyval)
| PDict (d : list (string * pyval)).

(** [bool(v)], the test behind [if v:] and [not v]. *)
Definition bool_of (v : pyval) : bool :=
  match v with
  | PNone => false
  | PBool b => b
  | PInt n => negb (n =? 0)
  | PStr s => truthy s
  | PList l => match l with [] => false | _ => true end
  | PDict d => match d with [] => false | _ => true end
  end.

Fixpoint dict_get (d : list (string * pyval)) (k : string) : option pyval :=
  match d with
  | [] => None
  | (k', v) :: r => if String.eqb k' k then Some v else dict_get r k
  end.

(** [d[k] = v]: an existing key keeps its place. *)
Fixpoint dict_set (d : list (string * pyval)) (k : string) (v : pyval)
  : list (string * pyval) :=
  match d with
  | [] => [(k, v)]
  | (k', v') :: r =>
      if String.eqb k' k then (k', v) :: r else (k', v') :: dict_set r k v
  end.

(** [v[k]] for a str key. *)
Definition subscript (v : pyval) (k : string) : res pyval :=
  match v with
  | PDict d =>
      match dict_get d k with
      | Some x => Ok x
      | None => Raise (KeyError k)
      end
  | PList _ => Raise (TypeError "list indices must be integers or slices, not str")
  | PStr _ => Raise (TypeError "string indices must be integers, not 'str'")
  | _ => Raise (TypeError "object is not subscriptable")
  end.

(** [v + n] for an int [n]; [bool] is a subclass of [int]. *)
Definition add_int (v : pyval) (n : Z) : res Z :=
  match v with
  | PInt a => Ok (a + n)
  | PBool b => Ok (Z.b2z b + n)
  | _ => Raise (TypeError "unsupported operand type(s) for +")
  end.

(** [v > 0], as in the geometry filter. *)
Definition gt_zero (v : pyval) : res bool :=
  match v with
  | PInt a => Ok (0 <? a)
  | PBool b => Ok b
  | _ => Raise (TypeError "'>' not supported between instances")
  end.

End Py.

(* ================================================================== *)
(** * json: the dump/load pair of the persisted region file *)
(* ================================================================== *)

Module Json.
Import Py.

Definition dquote : ascii := Eval cbv in ascii_of_nat 34.
Definition backslash : ascii := Eval cbv in ascii_of_nat 92.

(** *** Encoder: [json.dumps(v, indent=2)] *)

Definition hex_digit (n : Z) : ascii :=
  if n <? 10 then ascii_of_N (Z.to_N (48 + n)) else ascii_of_N (Z.to_N (87 + n)).

(** The [ensure_ascii] escape of one character: the short escapes, the
    printable ASCII characters as they are, [\u00xx] for the rest. *)
Definition escape_char (c : ascii) : string :=
  let n := ord c in
  if n =? 34 then String backslash (String dquote "")
  else if n =? 92 then String backslash (String backslash "")
  else if n =? 10 then String backslash "n"
  else if n =? 13 then String backslash "r"
  else if n =? 9 then String backslash "t"
  else if n =? 8 then String backslash "b"
  else if n =? 12 then String backslash "f"
  else if (32 <=? n) && (n <=? 126) then String c ""
  else String backslash
         ("u00" ++ String (hex_digit (n / 16)) (String (hex_digit (n mod 16)) "")).

Fixpoint escape (s : string) : string :=
  match s with
  | EmptyString => EmptyString
  | String c r => escape_char c ++ escape r
  end.

Definition encode_str (s : string) : string :=
  String dquote (escape s ++ String dquote "").

Definition newline : string := Eval cbv in String (ascii_of_nat 10) "".

Fixpoint spaces (n : nat) : string :=
  match n with
  | O => ""
  | S k => String " " (spaces k)
  end.

(** A line break followed by the indentation of nesting level [lvl]. *)
Definition newline_indent (lvl : nat) : string := newline ++ spaces (2 * lvl).

Section Items.
(** How one item is written, one level down, and what separates two
    items: the comma, the line break and the indentation. *)
Variable encode_item : pyval -> string.
Variable separator : string.

Fixpoint list_items (l : list pyval) : string :=
  match l with
  | [] => ""
  | [x] => encode_item x
  | x :: r => encode_item x ++ separator ++ list_items r
  end.

Fixpoint dict_items (d : list (string * pyval)) : string :=
  match d with
  | [] => ""
  | [(k, x)] => encode_str k ++ ": " ++ encode_item x
  | (k, x) :: r => encode_str k ++ ": " ++ encode_item x ++ separator ++ dict_items r
  end.
End Items.

Fixpoint encode (lvl : nat) (v : pyval) : string :=
  match v with
  | PNone => "null"
  | PBool true => "true"
  | PBool false => "false"
  | PInt n => str_int n
  | PStr s => encode_str s
  | PList [] => "[]"
  | PList l =>
      "[" ++ newline_indent (S lvl)
      ++ list_items (encode (S lvl)) ("," ++ newline_indent (S lvl)) l
      ++ newline_indent lvl ++ "]"
  | PDict [] => "{}"
  | PDict d =>
      "{" ++ newline_indent (S lvl)
      ++ dict_items (encode (S lvl)) ("," ++ newline_indent (S lvl)) d
      ++ newline_indent lvl ++ "}"
  end.

Definition dumps (v : pyval) : string := encode 0 v.

(** *** Decoder: [json.loads(s)] *)

(** [WHITESPACE]: space, TAB, LF, CR. *)
Definition is_ws (c : ascii) : bool :=
  let n := ord c in (n =? 32) || (n =? 9) || (n =? 10) || (n =? 13).

Fixpoint skip_ws (s : string) : string :=
  match s with
  | String c r => if is_ws c then skip_ws r else s
  | EmptyString => EmptyString
  end.

Definition hex_value (c : ascii) : option Z :=
  let n := ord c in
  if (48 <=? n) && (n <=? 57) then Some (n - 48)
  else if (97 <=? n) && (n <=? 102) then Some (n - 87)
  else if (65 <=? n) && (n <=? 70) then Some (n - 55)
  else None.

(** [_decode_uXXXX]: exactly four hexadecimal digits. *)
Definition decode_uXXXX (a b c d : ascii) : option Z :=
  match hex_value a, hex_value b, hex_value c, hex_value d with
  | Some x, Some y, Some z, Some w => Some (((x * 16 + y) * 16 + z) * 16 + w)
  | _, _, _, _ => None
  end.

(** [BACKSLASH]: the one-letter escapes. *)
Definition unescape (e : ascii) : option ascii :=
  let n := ord e in
  if n =? 34 then Some dquote
  else if n =? 92 then Some backslash
  else if n =? 47 then Some "/"%char
  else if n =? 98 then Some (ascii_of_nat 8)
  else if n =? 102 then Some (ascii_of_nat 12)
  else if n =? 110 then Some (ascii_of_nat 10)
  else if n =? 114 then Some (ascii_of_nat 13)
  else if n =? 116 then Some (ascii_of_nat 9)
  else None.

Definition cons_str (c : ascii) (r : option (string * string))
  : option (string * string) :=
  match r with
  | Some (t, rest) => Some (String c t, rest)
  | None => None
  end.

(** [scanstring] in strict mode, from just after the opening quote: the
    decoded text and what follows the closing quote.  An escape that
    names a code point above U+00FF is outside the str model. *)
Fixpoint scanstring (s : string) : option (string * string) :=
  match s with
  | EmptyString => None
  | String c r =>
      if ord c =? 34 then Some ("", r)
      else if ord c =? 92 then
        match r with
        | String e r1 =>
            if ord e =? 117 then
              match r1 with
              | String h1 (String h2 (String h3 (String h4 r2))) =>
                  match decode_uXXXX h1 h2 h3 h4 with
                  | Some n =>
                      if n <? 256
                      then cons_str (ascii_of_N (Z.to_N n)) (scanstring r2)
                      else None
                  | None => None
                  end
              | _ => None
              end
            else
              match unescape e with
              | Some ch => cons_str ch (scanstring r1)
              | None => None
              end
        | EmptyString => None
        end
      else if ord c <? 32 then None
      else cons_str c (scanstring r)
  end.

Definition is_digit (c : ascii) : bool :=
  match digit_of c with Some _ => true | None => false end.

(** The longest run of decimal digits at the head of [s], and the rest. *)
Fixpoint span_digits (s : string) : string * string :=
  match s with
  | String c r =>
      if is_digit c
      then let (ds, rest) := span_digits r in (String c ds, rest)
      else ("", s)
  | EmptyString => ("", "")
  end.

(** The integer part [0|[1-9][0-9]*] of [NUMBER_RE]. *)
Definition match_integer (s : string) : option (string * string) :=
  match s with
  | String c r =>
      if ord c =? 48 then Some ("0", r)
      else if is_digit c then Some (span_digits s)
      else None
  | EmptyString => None
  end.

(** Does a fraction [\.[0-9]+] or an exponent [[eE][-+]?[0-9]+] follow? *)
Definition float_follows (s : string) : bool :=
  match s with
  | String c (String d r) =>
      if ord c =? 46 then is_digit d
      else if (ord c =? 101) || (ord c =? 69) then
        is_digit d ||
        (((ord d =? 45) || (ord d =? 43))
         && match r with String e _ => is_digit e | EmptyString => false end)
      else false
  | _ => false
  end.

(** [match_number] followed by [int(integer)]; a numeral that Python
    reads as a float is outside the model. *)
Definition scan_number (s : string) : option (pyval * string) :=
  let (neg, s1) :=
    match s with
    | String c r => if ord c =? 45 then (true, r) else (false, s)
    | EmptyString => (false, s)
    end in
  match match_integer s1 with
  | Some (ds, rest) =>
      if float_follows rest then None
      else
        match int_unsigned ds with
        | Some n => Some (PInt (if neg then - n else n), rest)
        | None => None
        end
  | None => None
  end.

Fixpoint strip_prefix (p s : string) : option string :=
  match p, s with
  | EmptyString, _ => Some s
  | String a p', String b s' => if Ascii.eqb a b then strip_prefix p' s' else None
  | String _ _, EmptyString => None
  end.

Section Containers.
(** [scan_once] of the enclosing scanner, one nesting level down. *)
Variable scan : string -> option (pyval * string).

(** The loop of [JSONObject], entered just after the opening quote of
    a key; [pairs] are the items read so far, the latest first. *)
Fixpoint object_loop (n : nat) (pairs : list (string * pyval)) (s : string)
  : option (list (string * pyval) * string) :=
  match n with
  | O => None
  | S n' =>
      match scanstring s with
      | Some (key, s1) =>
          match skip_ws s1 with
          | String c s2 =>
              if ord c =? 58 then
                match scan (skip_ws s2) with
                | Some (value, s3) =>
                    match skip_ws s3 with
                    | String d s4 =>
                        if ord d =? 125 then Some ((key, value) :: pairs, s4)
                        else if ord d =? 44 then
                          match skip_ws s4 with
                          | String q s5 =>
                              if ord q =? 34
                              then object_loop n' ((key, value) :: pairs) s5
                              else None
                          | EmptyString => None
                          end
                        else None
                    | EmptyString => None
                    end
                | None => None
                end
              else None
          | EmptyString => None
          end
      | None => None
      end
  end.

(** [dict(pairs)]: a repeated key keeps its first place and its last
    value. *)
Definition dict_of_pairs (pairs : list (string * pyval)) : list (string * pyval) :=
  fold_left (fun d kv => dict_set d (fst kv) (snd kv)) (List.rev pairs) [].

(** [JSONObject], from just after the opening brace. *)
Definition parse_object (n : nat) (s : string) : option (pyval * string) :=
  match skip_ws s with
  | String c r =>
      if ord c =? 125 then Some (PDict [], r)
      else if ord c =? 34 then
        match object_loop n [] r with
        | Some (pairs, rest) => Some (PDict (dict_of_pairs pairs), rest)
        | None => None
        end
      else None
  | EmptyString => None
  end.

(** The loop of [JSONArray]; [values] are the elements read so far,
    the latest first. *)
Fixpoint array_loop (n : nat) (values : list pyval) (s : string)
  : option (list pyval * string) :=
  match n with
  | O => None
  | S n' =>
      match scan s with
      | Some (value, s1) =>
          match skip_ws s1 with
          | String d s2 =>
              if ord d =? 93 then Some (value :: values, s2)
              else if ord d =? 44 then array_loop n' (value :: values) (skip_ws s2)
              else None
          | EmptyString => None
          end
      | None => None
      end
  end.

(** [JSONArray], from just after the opening bracket. *)
Definition parse_array (n : nat) (s : string) : option (pyval * string) :=
  match skip_ws s with
  | String c r =>
      if ord c =? 93 then Some (PList [], r)
      else
        match array_loop n [] (String c r) with
        | Some (values, rest) => Some (PList (List.rev values), rest)
        | None => None
        end
  | EmptyString => None
  end.
End Containers.

(** [scan_once]: one JSON value at the head of [s].  [fuel] bounds both
    the nesting depth and the number of items of one container. *)
Fixpoint scan_once (fuel : nat) (s : string) : option (pyval * string) :=
  match fuel with
  | O => None
  | S fuel' =>
      match s with
      | String c r =>
          if ord c =? 34 then
            match scanstring r with
            | Some (t, rest) => Some (PStr t, rest)
            | None => None
            end
          else if ord c =? 123 then parse_object (scan_once fuel') fuel' r
          else if ord c =? 91 then parse_array (scan_once fuel') fuel' r
          else
            match strip_prefix "null" s with
            | Some rest => Some (PNone, rest)
            | None =>
                match strip_prefix "true" s with
                | Some rest => Some (PBool true, rest)
                | None =>
                    match strip_prefix "false" s with
                    | Some rest => Some (PBool false, rest)
                    | None => scan_number s
                    end
                end
            end
      | EmptyString => None
      end
  end.

(** [json.loads(s)]: one value between optional whitespace and nothing
    else.  [None] is the [JSONDecodeError].  No document nests deeper,
    and no container holds more items, than the document has characters. *)
Definition loads (s : string) : option pyval :=
  match scan_once (S (String.length s)) (skip_ws s) with
  | Some (v, rest) =>
      match skip_ws rest with
      | EmptyString => Some v
      | String _ _ => None
      end
  | None => None
  end.

(** The characters that end a numeral in a dumped document: the comma
    and the line break. *)
Definition ends_number (c : ascii) : bool := (ord c =? 44) || (ord c =? 10).

Definition not_digit_first (s : string) : Prop :=
  match s with
  | String c _ => is_digit c = false
  | EmptyString => True
  end.

(** The values a region file holds. *)
Definition flat (v : pyval) : bool :=
  match v with
  | PInt _ | PStr _ => true
  | _ => false
  end.

(** A dumped top-level dict from just after the opening quote of its
    first key. *)
Fixpoint members (d : list (string * pyval)) : string :=
  match d with
  | [] => ""
  | [(k, v)] =>
      escape k ++ String dquote (": " ++ encode 1 v ++ newline_indent 0 ++ "}")
  | (k, v) :: r =>
      escape k
      ++ String dquote (": " ++ encode 1 v ++ ","
                        ++ newline_indent 1 ++ String dquote (members r))
  end.

(** The characters of a file written with [ensure_ascii]: printable
    ASCII and the line break. *)
Definition plain_char (c : ascii) : bool :=
  ((32 <=? ord c) && (ord c <=? 126)) || (ord c =? 10).

Definition plain (s : string) : bool := every plain_char s.

End Json.

(* ================================================================== *)
(** * config.py *)
(* ================================================================== *)

Module Config.
Definition VLM_PROVIDER : string := "anthropic".
Definition CLAUDE_MODEL : string := "claude-3-5-sonnet-20241022".
Definition OPENAI_MODEL : string := "gpt-4o".
Definition WINDOW_CONFIG_FILE : string := "window_config.json".
Definition GAME_NAME : string := "RuneLite".
Definition MOUSE_MOVEMENT_DURATION : Q * Q := (3 # 10, 8 # 10)%Q.
Definition CLICK_DELAY : Q * Q := (1 # 10, 3 # 10)%Q.
Definition HUMAN_REACTION_TIME : Q * Q := (5 # 10, 15 # 10)%Q.
Definition LOG_LEVEL : string := "INFO".
Definition MAX_RETRIES : Z := 3.
End Config.

(* ================================================================== *)
(** * The world the agent runs in *)
(* ================================================================== *)

Module Env.

(** A window of the X display, as the three Xlib queries of
    window_manager.py see it. *)
Record xgeom : Type := mkGeom {
  coords_x : Z;      (* translate_coords(root, 0, 0).x *)
  coords_y : Z;
  geo_width : Z;     (* get_geometry().width *)
  geo_height : Z
}.

Inductive xwindow : Type :=
| XWindow (wm_name : option (option string))   (* None: get_wm_name() raises *)
          (geometry : option xgeom)            (* None: a geometry query raises *)
          (children : option (list xwindow)).  (* None: query_tree() raises XError *)

(** What the provider SDK does with one request. *)
Inductive reply : Type :=
| Reply (text : string)
| Failure (msg : string).     (* the SDK call raises an Exception *)

Inductive level : Type := DEBUG | INFO | WARNING | ERROR.

Inductive gui_op : Type :=
| MoveTo (x y : Z)
| ClickButton (button : string)
| DragRel (dx dy : Z)
| Typewrite (text : string)
| Press (key : string).

(** The effects a run leaves behind. *)
Inductive event : Type :=
| Log (lvl : level) (msg : string)        (* a record accepted by the logger *)
| Sleep (seconds : Q)                     (* time.sleep of a fixed duration *)
| SleepUniform (range : Q * Q)            (* time.sleep(random.uniform(lo, hi)) *)
| Gui (op : gui_op) (failure : option string)   (* a pyautogui call and its fate *)
| Grab (ok : bool)                        (* sct.grab(region) *)
| SaveImage (count : Z) (ok : bool).      (* image.save(filename) *)

(** The oracles: call number k of each kind gets the k-th answer. *)
Record Outside : Type := mkOutside {
  xroot : xwindow;                  (* display.screen().root *)
  grab_ok : nat -> bool;            (* does the k-th frame grab succeed? *)
  save_ok : Z -> bool;              (* can screenshot number n be written? *)
  vlm_reply : nat -> reply;         (* the provider's k-th answer *)
  gui_fail : nat -> option string;  (* the failure of the k-th pyautogui call *)
  randint_raw : nat -> Z            (* the k-th draw of the random source *)
}.

Record World : Type := mkWorld {
  outside : Outside;  (* what lies outside the process *)
  window_config : Py.pyval;  (* window_manager.window_config *)
  config_file : option string;  (* contents of window_config.json, if the file exists *)
  screenshot_count : Z;  (* screen_capture.screenshot_count *)
  provider : string;  (* vision_model.provider *)
  client : bool;  (* is vision_model.client set? *)
  inventory_start_x : option Z;  (* skill_library.inventory_start_x *)
  inventory_start_y : option Z;
  grabs : nat;  (* calls made so far to each oracle *)
  vlm_calls : nat;
  gui_calls : nat;
  rand_calls : nat;
  trace : list event  (* observable effects, the latest first *)
}.

Definition set_window_config (v : Py.pyval) (w : World) : World :=
  mkWorld (outside w) v (config_file w) (screenshot_count w) (provider w) (client w) (inventory_start_x w) (inventory_start_y w) (grabs w) (vlm_calls w) (gui_calls w) (rand_calls w) (trace w).

Definition set_config_file (v : option string) (w : World) : World :=
  mkWorld (outside w) (window_config w) v (screenshot_count w) (provider w) (client w) (inventory_start_x w) (inventory_start_y w) (grabs w) (vlm_calls w) (gui_calls w) (rand_calls w) (trace w).

Definition set_screenshot_count (v : Z) (w : World) : World :=
  mkWorld (outside w) (window_config w) (config_file w) v (provider w) (client w) (inventory_start_x w) (inventory_start_y w) (grabs w) (vlm_calls w) (gui_calls w) (rand_calls w) (trace w).

Definition set_grabs (v : nat) (w : World) : World :=
  mkWorld (outside w) (window_config w) (config_file w) (screenshot_count w) (provider w) (client w) (inventory_start_x w) (inventory_start_y w) v (vlm_calls w) (gui_calls w) (rand_calls w) (trace w).

Definition set_vlm_calls (v : nat) (w : World) : World :=
  mkWorld (outside w) (window_config w) (config_file w) (screenshot_count w) (provider w) (client w) (inventory_start_x w) (inventory_start_y w) (grabs w) v (gui_calls w) (rand_calls w) (trace w).

Definition set_gui_calls (v : nat) (w : World) : World :=
  mkWorld (outside w) (window_config w) (config_file w) (screenshot_count w) (provider w) (client w) (inventory_start_x w) (inventory_start_y w) (grabs w) (vlm_calls w) v (rand_calls w) (trace w).

Definition set_rand_calls (v : nat) (w : World) : World :=
  mkWorld (outside w) (window_config w) (config_file w) (screenshot_count w) (provider w) (client w) (inventory_start_x w) (inventory_start_y w) (grabs w) (vlm_calls w) (gui_calls w) v (trace w).

Definition set_trace (v : list event) (w : World) : World :=
  mkWorld (outside w) (window_config w) (config_file w) (screenshot_count w) (provider w) (client w) (inventory_start_x w) (inventory_start_y w) (grabs w) (vlm_calls w) (gui_calls w) (rand_calls w) v.

Definition set_provider (v : string) (w : World) : World :=
  mkWorld (outside w) (window_config w) (config_file w) (screenshot_count w) v (client w) (inventory_start_x w) (inventory_start_y w) (grabs w) (vlm_calls w) (gui_calls w) (rand_calls w) (trace w).

Definition set_client (v : bool) (w : World) : World :=
  mkWorld (outside w) (window_config w) (config_file w) (screenshot_count w) (provider w) v (inventory_start_x w) (inventory_start_y w) (grabs w) (vlm_calls w) (gui_calls w) (rand_calls w) (trace w).

(** ** Computations: state passing with exceptions *)

Definition M (W A : Type) : Type := W -> Py.res A * W.

Definition ret {W A} (a : A) : M W A := fun w => (Py.Ok a, w).

Definition raise {W A} (e : Py.exn) : M W A := fun w => (Py.Raise e, w).

Definition bind {W A B} (m : M W A) (k : A -> M W B) : M W B :=
  fun w =>
    match m w with
    | (Py.Ok a, w') => k a w'
    | (Py.Raise e, w') => (Py.Raise e, w')
    end.

(** [try: m  except <catches> as e: handler e] *)
Definition try_except {W A} (m : M W A) (catches : Py.exn -> bool)
           (handler : Py.exn -> M W A) : M W A :=
  fun w =>
    match m w with
    | (Py.Ok a, w') => (Py.Ok a, w')
    | (Py.Raise e, w') => if catches e then handler e w' else (Py.Raise e, w')
    end.

(** [try: m  finally: cleanup] *)
Definition try_finally {W A} (m : M W A) (cleanup : M W unit) : M W A :=
  fun w =>
    match m w with
    | (r, w') =>
        match cleanup w' with
        | (Py.Ok _, w'') => (r, w'')
        | (Py.Raise e, w'') => (Py.Raise e, w'')
        end
    end.

(** [m] always returns. *)
Definition returns {W A} (m : M W A) : Prop :=
  forall w, exists a w', m w = (Py.Ok a, w').

(** [m] returns, or raises what [except Exception] catches. *)
Definition catchable {W A} (m : M W A) : Prop :=
  forall w,
    (exists a w', m w = (Py.Ok a, w'))
    \/ (exists e w', m w = (Py.Raise e, w') /\ Py.is_Exception e = true).

Definition get {W A} (f : W -> A) : M W A := fun w => (Py.Ok (f w), w).
Definition modify {W} (f : W -> W) : M W unit := fun w => (Py.Ok tt, f w).
Definition lift {W A} (r : Py.res A) : M W A := fun w => (r, w).

(** The bare [except:] and [except Exception]. *)
Definition anything (e : Py.exn) : bool := true.
Definition Exception (e : Py.exn) : bool := Py.is_Exception e.

(** A state that keeps a trace of events, the latest first. *)
Class Traced (W : Type) : Type := {
  events : W -> list event;
  with_events : list event -> W -> W
}.

#[export] Instance World_Traced : Traced World := {
  events := trace;
  with_events := set_trace
}.

Definition emit {W} `{Traced W} (e : event) : M W unit :=
  modify (fun w => with_events (e :: events w) w).

(** What looking at the game leaves alone: everything outside the
    process, the stored window configuration and its file, the
    perception client, the grid origin, the input device and the random
    source. *)
Definition untouched (w w' : World) : Prop :=
  outside w' = outside w
  /\ window_config w' = window_config w /\ config_file w' = config_file w
  /\ provider w' = provider w /\ client w' = client w
  /\ inventory_start_x w' = inventory_start_x w
  /\ inventory_start_y w' = inventory_start_y w
  /\ gui_calls w' = gui_calls w /\ rand_calls w' = rand_calls w.

(** A computation whose runs all end in a world related by [R] to the
    one they started in, whatever they return or raise. *)
Definition keeps (R : World -> World -> Prop) {A} (m : M World A) : Prop :=
  forall w, R w (snd (m w)).

(** A computation that only observes. *)
Definition observes {A} (m : M World A) : Prop := keeps untouched m.

(** No request went to the perception provider. *)
Definition unasked (w w' : World) : Prop := vlm_calls w' = vlm_calls w.

(** The same, for the runs that start where [P] holds. *)
Definition observes_where (P : World -> Prop) {A} (m : M World A) : Prop :=
  forall w, P w -> untouched w (snd (m w)).

End Env.

Declare Scope py_scope.
Delimit Scope py_scope with py.
Notation "x <- m ;; k" := (Env.bind m (fun x => k))
  (at level 61, m at next level, right associativity) : py_scope.
Notation "m ;; k" := (Env.bind m (fun _ => k))
  (at level 61, right associativity) : py_scope.
#[local] Open Scope py_scope.

(* ================================================================== *)
(** * logger.py *)
(* ================================================================== *)

(** The pictographs that open the messages of the [log_*] methods lie
    beyond U+00FF and are left out of the recorded text. *)
Module Logger.
Import Env.

Definition level_no (l : level) : Z :=
  match l with DEBUG => 10 | INFO => 20 | WARNING => 30 | ERROR => 40 end.

(** [getattr(logging, config.LOG_LEVEL)] *)
Definition level_named (name : string) : level :=
  if String.eqb name "DEBUG" then DEBUG
  else if String.eqb name "INFO" then INFO
  else if String.eqb name "WARNING" then WARNING
  else ERROR.

(** A record below the level the logger was set to is dropped. *)
Section Methods.
Context {W : Type} `{Traced W}.

Definition log (lvl : level) (msg : string) : M W unit :=
  if level_no (level_named Config.LOG_LEVEL) <=? level_no lvl
  then emit (Log lvl msg)
  else ret tt.

Definition debug := log DEBUG.
Definition info := log INFO.
Definition warning := log WARNING.
Definition error := log ERROR.

Definition log_click (x y : Z) (item : option string) : M W unit :=
  let item_str :=
    match item with
    | Some i => if Py.truthy i then " on '" ++ i ++ "'" else ""
    | None => ""
    end in
  info ("CLICK at (" ++ Py.str_int x ++ ", " ++ Py.str_int y ++ ")" ++ item_str).

Definition log_action (action details : string) : M W unit :=
  let details_str := if Py.truthy details then " - " ++ details else "" in
  info ("ACTION: " ++ action ++ details_str).

Definition log_vision (observation : string) : M W unit :=
  info ("VISION: " ++ observation).

Definition log_skill (skill_name status : string) : M W unit :=
  info ("SKILL: " ++ skill_name ++ " (" ++ status ++ ")").

Definition log_error (err : string) (retry : bool) : M W unit :=
  let retry_str := if retry then " - Will retry" else "" in
  error ("ERROR: " ++ err ++ retry_str).

Definition log_success (task : string) : M W unit :=
  info ("SUCCESS: " ++ task).

End Methods.
End Logger.

(* ================================================================== *)
(** * window_manager.py *)
(* ================================================================== *)

(** The Region record of the persisted file and the dict that carries it. *)
Module Region.
Record t : Type := mk {
  x : Z;
  y : Z;
  width : Z;
  height : Z;
  title : string
}.

Definition to_py (r : t) : Py.pyval :=
  Py.PDict [("x", Py.PInt (x r)); ("y", Py.PInt (y r));
            ("width", Py.PInt (width r)); ("height", Py.PInt (height r));
            ("title", Py.PStr (title r))].

Definition area (r : t) : Z := width r * height r.

(** Reading the five fields back out of a stored configuration. *)
Definition of_py (v : Py.pyval) : option t :=
  match Py.subscript v "x", Py.subscript v "y", Py.subscript v "width",
        Py.subscript v "height", Py.subscript v "title" with
  | Py.Ok (Py.PInt vx), Py.Ok (Py.PInt vy), Py.Ok (Py.PInt vw),
    Py.Ok (Py.PInt vh), Py.Ok (Py.PStr vt) => Some (mk vx vy vw vh vt)
  | _, _, _, _, _ => None
  end.

Definition positive_size (r : t) : Prop :=
  0 < width r /\ 0 < height r.

End Region.

Module WindowManager.
Import Env Py.

(** [_get_window_geometry]: [None] when a query raises. *)
Definition _get_window_geometry (g : option xgeom) : option (Z * Z * Z * Z) :=
  match g with
  | Some geo =>
      let offset_x := Z.abs (Z.min 0 (coords_x geo)) in
      let offset_y := Z.abs (Z.min 0 (coords_y geo)) in
      Some (offset_x, offset_y, geo_width geo, geo_height geo)
  | None => None
  end.

(** [_get_window_name]: [None] when the query raises or there is no name. *)
Definition _get_window_name (n : option (option string)) : option string :=
  match n with
  | Some (Some name) => Some name
  | _ => None
  end.

(** [_search_windows]: the matches are appended to the one [results]
    list, in the order the tree is walked. *)
Fixpoint _search_windows (window : xwindow) (name_filter : string)
         (results : list Region.t) : list Region.t :=
  match window with
  | XWindow wm_name geometry children =>
      let results1 :=
        match _get_window_name wm_name with
        | Some window_name =>
            if truthy window_name
               && contains (lower name_filter) (lower window_name)
            then
              match _get_window_geometry geometry with
              | Some (gx, gy, gw, gh) =>
                  if (0 <? gw) && (0 <? gh)
                  then (results ++ [Region.mk gx gy gw gh window_name])%list
                  else results
              | None => results
              end
            else results
        | None => results
        end in
      match children with
      | Some cs =>
          (fix each (cs : list xwindow) (results : list Region.t) : list Region.t :=
             match cs with
             | [] => results
             | child :: rest => each rest (_search_windows child name_filter results)
             end) cs results1
      | None => results1      (* except XError: pass *)
      end
  end.

(** [max(results, key=area)]: the first of the largest. *)
Fixpoint max_by_area (best : Region.t) (rest : list Region.t) : Region.t :=
  match rest with
  | [] => best
  | r :: rest' =>
      if Region.area best <? Region.area r
      then max_by_area r rest'
      else max_by_area best rest'
  end.

Definition describe (r : Region.t) : string :=
  "'" ++ Region.title r ++ "' at (" ++ str_int (Region.x r) ++ ", "
  ++ str_int (Region.y r) ++ ") size " ++ str_int (Region.width r)
  ++ "x" ++ str_int (Region.height r).

Fixpoint debug_each (i : Z) (results : list Region.t) : M World unit :=
  match results with
  | [] => ret tt
  | r :: rest =>
      Logger.debug ("  " ++ str_int (i + 1) ++ ". " ++ describe r) ;;
      debug_each (i + 1) rest
  end.

Definition find_runelite_window : M World pyval :=
  root <- get (fun w => xroot (outside w)) ;;
  let results := _search_windows root Config.GAME_NAME [] in
  match results with
  | [] =>
      Logger.warning (Config.GAME_NAME ++ " window not found!") ;;
      Logger.warning "Make sure RuneLite is running and visible." ;;
      ret PNone
  | first :: others =>
      let n := str_int (Z.of_nat (List.length results)) in
      Logger.debug ("Found " ++ n ++ " RuneLite window(s):") ;;
      debug_each 0 results ;;
      let result := max_by_area first others in
      Logger.info ("Found window: " ++ describe result) ;;
      (if (1 <? Z.of_nat (List.length results))
       then Logger.debug ("Found " ++ n ++ " RuneLite windows, selected the largest")
       else ret tt) ;;
      ret (Region.to_py result)
  end.

Definition save_config : M World unit :=
  cfg <- get window_config ;;
  if bool_of cfg then
    modify (set_config_file (Some (Json.dumps cfg))) ;;
    Logger.debug ("Saved window config to " ++ Config.WINDOW_CONFIG_FILE)
  else ret tt.

(** [open(config.WINDOW_CONFIG_FILE, 'r')] followed by [json.load(f)]. *)
Definition read_config : M World pyval :=
  file <- get config_file ;;
  match file with
  | None => raise FileNotFoundError
  | Some text =>
      match Json.loads text with
      | Some v => ret v
      | None => raise JSONDecodeError
      end
  end.

Definition detect_and_save : M World bool :=
  found <- find_runelite_window ;;
  modify (set_window_config found) ;;
  if bool_of found then save_config ;; ret true else ret false.

Definition load_or_detect : M World bool :=
  loaded <-
    try_except
      (v <- read_config ;;
       modify (set_window_config v) ;;
       Logger.info ("Loaded window config from " ++ Config.WINDOW_CONFIG_FILE) ;;
       ret true)
      Exception
      (fun e =>
         match e with
         | FileNotFoundError =>
             Logger.debug "No saved window config found, detecting..."
         | _ =>
             Logger.warning ("Error loading config: " ++ str_exn e
                             ++ ", detecting new window...")
         end ;;
         ret false) ;;
  if (loaded : bool) then ret true else detect_and_save.

Definition refresh : M World bool :=
  Logger.info "Refreshing window detection..." ;;
  detect_and_save.

(** [WindowManager.__init__] *)
Definition init : M World bool :=
  modify (set_window_config PNone) ;;
  load_or_detect.

Definition get_region : M World pyval :=
  cfg <- get window_config ;;
  if negb (bool_of cfg) then
    Logger.error "No window config available" ;;
    ret PNone
  else
    left <- lift (subscript cfg "x") ;;
    top <- lift (subscript cfg "y") ;;
    w <- lift (subscript cfg "width") ;;
    h <- lift (subscript cfg "height") ;;
    ret (PDict [("left", left); ("top", top); ("width", w); ("height", h)]).

(** The configurations [get_region] reads without raising: nothing
    stored, or a dict that binds the four geometry keys. *)
Definition geometry_keys (cfg : pyval) : bool :=
  negb (bool_of cfg)
  || match cfg with
     | PDict d =>
         match dict_get d "x", dict_get d "y", dict_get d "width", dict_get d "height" with
         | Some _, Some _, Some _, Some _ => true
         | _, _, _, _ => false
         end
     | _ => false
     end.

Definition get_absolute_coords (relative_x relative_y : Z) : M World (Z * Z) :=
  cfg <- get window_config ;;
  if negb (bool_of cfg) then raise (ValueError "No window config available")
  else
    cx <- lift (subscript cfg "x") ;;
    abs_x <- lift (add_int cx relative_x) ;;
    cy <- lift (subscript cfg "y") ;;
    abs_y <- lift (add_int cy relative_y) ;;
    ret (abs_x, abs_y).

Definition is_ready : M World bool :=
  cfg <- get window_config ;;
  ret (match cfg with PNone => false | _ => true end).

(** What detection records of a window it keeps: an origin that is not
    negative, a positive size, and a title that holds the filter, letter
    case apart. *)
Definition detected (name_filter : string) (r : Region.t) : Prop :=
  0 <= Region.x r /\ 0 <= Region.y r
  /\ 0 < Region.width r /\ 0 < Region.height r
  /\ truthy (Region.title r) = true
  /\ contains (lower name_filter) (lower (Region.title r)) = true.

End WindowManager.

(* ================================================================== *)
(** * screen_capture.py *)
(* ================================================================== *)

Module ScreenCapture.
Import Env Py.

Definition box : Type := (Z * Z * Z * Z * string)%type.

(** A PIL image: which grab produced it and what was drawn on it.  An
    image object is always true in a condition. *)
Record Image : Type := mkImage {
  frame : nat;
  drawn : list box
}.

(** [sct.grab(region)] and the conversion to an image. *)
Definition grab (region : pyval) : M World Image :=
  match region with
  | PNone => raise (TypeError "'NoneType' object is not subscriptable")
  | _ =>
      k <- get grabs ;;
      modify (set_grabs (S k)) ;;
      ok <- get (fun w => grab_ok (outside w) k) ;;
      emit (Grab ok) ;;
      if (ok : bool) then ret (mkImage k []) else raise (External "grab failed")
  end.

Definition _annotate_image (image : Image) (boxes : list box) : Image :=
  mkImage (frame image) (drawn image ++ boxes).

(** [_save_screenshot]; the file name, built from the wall clock, is
    not kept. *)
Definition _save_screenshot (image : Image) : M World unit :=
  n <- get screenshot_count ;;
  modify (set_screenshot_count (n + 1)) ;;
  ok <- get (fun w => save_ok (outside w) (n + 1)) ;;
  emit (SaveImage (n + 1) ok) ;;
  if (ok : bool) then Logger.debug "Screenshot saved"
  else raise (External "cannot write screenshot").

Definition capture (save annotate : bool) (boxes : option (list box))
  : M World (option Image) :=
  ready <- WindowManager.is_ready ;;
  if negb ready then
    Logger.error "Window manager not ready" ;;
    ret None
  else
    region <- WindowManager.get_region ;;
    try_except
      (image <- grab region ;;
       let image :=
         match boxes with
         | Some (b :: bs) => if annotate then _annotate_image image (b :: bs) else image
         | _ => image
         end in
       (if save then _save_screenshot image else ret tt) ;;
       ret (Some image))
      Exception
      (fun e =>
         Logger.error ("Failed to capture screenshot: " ++ str_exn e) ;;
         ret None).

End ScreenCapture.

(* ================================================================== *)
(** * vision.py *)
(* ================================================================== *)

Module Vision.
Import Env Py.
Import ScreenCapture.

(** [_analyze_anthropic] and [_analyze_openai]: one request to the
    provider, whose answer is logged (cut at 100 characters) and returned. *)
Definition request (image : Image) (prompt : string) : M World string :=
  k <- get vlm_calls ;;
  modify (set_vlm_calls (S k)) ;;
  answer <- get (fun w => vlm_reply (outside w) k) ;;
  match answer with
  | Failure msg => raise (External msg)
  | Reply response =>
      Logger.log_vision
        (if (100 <? String.length response)%nat
         then substring 0 100 response ++ "..."
         else response) ;;
      ret response
  end.

Definition analyze_screenshot (image : Image) (prompt : string)
  : M World (option string) :=
  has_client <- get client ;;
  if negb has_client then
    Logger.error "VLM client not initialized" ;;
    ret None
  else
    try_except
      (prov <- get provider ;;
       if String.eqb prov "anthropic" then
         r <- request image prompt ;; ret (Some r)
       else if String.eqb prov "openai" then
         r <- request image prompt ;; ret (Some r)
       else
         Logger.error ("Provider " ++ prov ++ " not supported") ;;
         ret None)
      Exception
      (fun e =>
         Logger.error ("VLM analysis failed: " ++ str_exn e) ;;
         ret None).

Definition tinderbox_prompt : string :=
"Look at this OSRS inventory. Find the tinderbox.
        Return ONLY the slot number (0-27) where the tinderbox is located.
        If no tinderbox is found, return -1.
        Respond with just the number, nothing else.".

Definition logs_prompt : string :=
"Look at this OSRS inventory. Find logs (any type: normal, oak, willow, etc).
        Return ONLY the slot number (0-27) of the FIRST logs you see.
        If no logs are found, return -1.
        Respond with just the number, nothing else.".

Definition fire_prompt : string :=
"Look at this OSRS game screenshot.
        Is there a fire visible on the ground?
        Respond with ONLY 'yes' or 'no'.".

(** The body shared, word for word, by [find_tinderbox] and [find_logs]. *)
Definition find_slot (prompt warning : string) (image : Image)
  : M World (option Z) :=
  response <- analyze_screenshot image prompt ;;
  match response with
  | Some r =>
      if truthy r then
        try_except
          (slot <- lift (int (strip r)) ;;
           ret (if 0 <=? slot then Some slot else None))
          anything
          (fun _ => Logger.warning warning ;; ret None)
      else ret None
  | None => ret None
  end.

Definition find_tinderbox : Image -> M World (option Z) :=
  find_slot tinderbox_prompt "Failed to parse tinderbox slot".

Definition find_logs : Image -> M World (option Z) :=
  find_slot logs_prompt "Failed to parse logs slot".

Definition verify_fire_made (image : Image) : M World bool :=
  response <- analyze_screenshot image fire_prompt ;;
  match response with
  | Some r => if truthy r then ret (contains "yes" (lower r)) else ret false
  | None => ret false
  end.

(** What [import <package>] and the constructor of its client do. *)
Inductive sdk : Type :=
| Installed                 (* both succeed *)
| NotInstalled              (* ImportError *)
| Broken (msg : string).    (* the constructor raises an Exception *)

Definition _setup_client (anthropic openai : sdk) : M World unit :=
  prov <- get provider ;;
  if String.eqb prov "anthropic" then
    match anthropic with
    | Installed =>
        modify (set_client true) ;;
        Logger.info ("Initialized Anthropic Claude (" ++ Config.CLAUDE_MODEL ++ ")")
    | NotInstalled =>
        Logger.error "anthropic package not installed. Run: pip install anthropic" ;;
        modify (set_client false)
    | Broken msg =>
        Logger.error ("Failed to initialize Anthropic client: " ++ msg) ;;
        modify (set_client false)
    end
  else if String.eqb prov "openai" then
    match openai with
    | Installed =>
        modify (set_client true) ;;
        Logger.info ("Initialized OpenAI (" ++ Config.OPENAI_MODEL ++ ")")
    | NotInstalled =>
        Logger.error "openai package not installed. Run: pip install openai" ;;
        modify (set_client false)
    | Broken msg =>
        Logger.error ("Failed to initialize OpenAI client: " ++ msg) ;;
        modify (set_client false)
    end
  else if String.eqb prov "local" then
    Logger.warning "Local VLM not yet implemented" ;;
    modify (set_client false)
  else
    Logger.error ("Unknown VLM provider: " ++ prov) ;;
    modify (set_client false).

(** [VisionModel.__init__] *)
Definition init (anthropic openai : sdk) : M World unit :=
  modify (set_provider Config.VLM_PROVIDER) ;;
  _setup_client anthropic openai.

Definition quoted (s : string) : string :=
  String Json.dquote (s ++ String Json.dquote "").

Definition items_prompt : string :=
"Analyze this OSRS inventory screenshot.
        Identify all items and their positions in the inventory grid.
        Return as JSON with format: {" ++ quoted "items" ++ ": [{" ++ quoted "name"
  ++ ": " ++ quoted "item_name" ++ ", " ++ quoted "slot" ++ ": slot_number}]}
        Inventory slots are numbered 0-27, left to right, top to bottom.".

(** [{'items': []}] *)
Definition no_items : pyval := PDict [("items", PList [])].

(** [identify_items]; the interpreter's recursion limit, which a deeply
    nested answer can exceed, is not modelled. *)
Definition identify_items (image : Image) : M World pyval :=
  response <- analyze_screenshot image items_prompt ;;
  match response with
  | Some r =>
      if truthy r then
        try_except
          match Json.loads r with
          | Some v => ret v
          | None => raise JSONDecodeError
          end
          anything
          (fun _ =>
             Logger.warning "Failed to parse VLM response as JSON" ;;
             ret no_items)
      else ret no_items
  | None => ret no_items
  end.

(** The providers [analyze_screenshot] knows how to ask. *)
Definition supported (prov : string) : bool :=
  String.eqb prov "anthropic" || String.eqb prov "openai".

(** What a locate helper owes its caller: it returns, and it returns
    slot [n] exactly when the answer, stripped, reads as the integer [n]
    and [n] is not negative. *)
Definition locates (prompt : string)
           (find : Image -> M World (option Z)) : Prop :=
  forall image w,
  exists response w1 slot w2,
    analyze_screenshot image prompt w = (Ok response, w1)
    /\ find image w = (Ok slot, w2)
    /\ (forall n, slot = Some n <->
                  exists r, response = Some r
                            /\ parse_int (strip r) = Some n /\ 0 <= n).

End Vision.

(* ================================================================== *)
(** * action_executor.py *)
(* ================================================================== *)

(** [last_click_time], a reading of the wall clock nothing consumes, is
    not kept. *)
Module ActionExecutor.
Import Env Py.

(** [random.randint(lo, hi)] *)
Definition randint (lo hi : Z) : M World Z :=
  if hi <? lo then raise (ValueError "empty range for randrange()")
  else
    k <- get rand_calls ;;
    modify (set_rand_calls (S k)) ;;
    raw <- get (fun w => randint_raw (outside w) k) ;;
    ret (lo + raw mod (hi - lo + 1)).

Definition _randomize_point (x y radius : Z) : M World (Z * Z) :=
  offset_x <- randint (- radius) radius ;;
  offset_y <- randint (- radius) radius ;;
  ret (x + offset_x, y + offset_y).

(** [time.sleep(self._random_duration(range))] *)
Definition sleep_uniform {W} `{Traced W} (range : Q * Q) : M W unit :=
  emit (SleepUniform range).

Definition _human_delay {W} `{Traced W} (delay_range : option (Q * Q)) : M W unit :=
  match delay_range with
  | None => sleep_uniform Config.HUMAN_REACTION_TIME
  | Some range => sleep_uniform range
  end.

(** One call into pyautogui. *)
Definition pyautogui (op : gui_op) : M World unit :=
  k <- get gui_calls ;;
  modify (set_gui_calls (S k)) ;;
  failure <- get (fun w => gui_fail (outside w) k) ;;
  emit (Gui op failure) ;;
  match failure with
  | None => ret tt
  | Some msg => raise (External msg)
  end.

Definition resolve (x y : Z) (relative randomize : bool) : M World (Z * Z) :=
  p <- (if relative then WindowManager.get_absolute_coords x y else ret (x, y)) ;;
  if randomize then _randomize_point (fst p) (snd p) 3 else ret p.

Definition point (p : Z * Z) : string :=
  "(" ++ str_int (fst p) ++ ", " ++ str_int (snd p) ++ ")".

Definition move_mouse (x y : Z) (relative randomize : bool) : M World unit :=
  p <- resolve x y relative randomize ;;
  try_except
    (pyautogui (MoveTo (fst p) (snd p)) ;;
     Logger.debug ("Mouse moved to " ++ point p))
    Exception
    (fun e => Logger.error ("Failed to move mouse: " ++ str_exn e)).

Definition click (x y : Z) (relative randomize : bool)
           (item_name : option string) (button : string) : M World unit :=
  p <- resolve x y relative randomize ;;
  try_except
    (pyautogui (MoveTo (fst p) (snd p)) ;;
     sleep_uniform (5 # 100, 15 # 100)%Q ;;
     pyautogui (ClickButton button) ;;
     Logger.log_click (fst p) (snd p) item_name ;;
     _human_delay (Some Config.CLICK_DELAY))
    Exception
    (fun e => Logger.error ("Failed to click: " ++ str_exn e)).

Definition right_click (x y : Z) (relative randomize : bool)
           (item_name : option string) : M World unit :=
  click x y relative randomize item_name "right".

Definition drag (start_x start_y end_x end_y : Z) (relative randomize : bool)
  : M World unit :=
  ends <-
    (if relative then
       a <- WindowManager.get_absolute_coords start_x start_y ;;
       b <- WindowManager.get_absolute_coords end_x end_y ;;
       ret (a, b)
     else ret ((start_x, start_y), (end_x, end_y))) ;;
  ends <-
    (if randomize then
       a <- _randomize_point (fst (fst ends)) (snd (fst ends)) 3 ;;
       b <- _randomize_point (fst (snd ends)) (snd (snd ends)) 3 ;;
       ret (a, b)
     else ret ends) ;;
  let abs_start := fst ends in
  let abs_end := snd ends in
  try_except
    (pyautogui (MoveTo (fst abs_start) (snd abs_start)) ;;
     emit (Sleep (1 # 10)%Q) ;;
     pyautogui (DragRel (fst abs_end - fst abs_start) (snd abs_end - snd abs_start)) ;;
     Logger.log_action "DRAG" ("from " ++ point abs_start ++ " to " ++ point abs_end) ;;
     _human_delay (Some Config.CLICK_DELAY))
    Exception
    (fun e => Logger.error ("Failed to drag: " ++ str_exn e)).

Definition type_text (text : string) (interval : option Q) : M World unit :=
  try_except
    (pyautogui (Typewrite text) ;;
     Logger.log_action "TYPE" text ;;
     _human_delay (Some Config.CLICK_DELAY))
    Exception
    (fun e => Logger.error ("Failed to type text: " ++ str_exn e)).

Definition press_key (key : string) : M World unit :=
  try_except
    (pyautogui (Press key) ;;
     Logger.log_action "KEY_PRESS" key ;;
     _human_delay (Some Config.CLICK_DELAY))
    Exception
    (fun e => Logger.error ("Failed to press key: " ++ str_exn e)).

Definition wait {W} `{Traced W} (duration : option Q) : M W unit :=
  match duration with
  | None => _human_delay None
  | Some d => emit (Sleep d)
  end.

(** The six actuation primitives with their arguments, and the call of
    one of them. *)
Inductive primitive : Type :=
| Move (x y : Z) (relative randomize : bool)
| Click (x y : Z) (relative randomize : bool) (item_name : option string) (button : string)
| RightClick (x y : Z) (relative randomize : bool) (item_name : option string)
| Drag (start_x start_y end_x end_y : Z) (relative randomize : bool)
| TypeText (text : string) (interval : option Q)
| PressKey (key : string).

Definition perform (p : primitive) : M World unit :=
  match p with
  | Move x y relative randomize => move_mouse x y relative randomize
  | Click x y relative randomize item_name button =>
      click x y relative randomize item_name button
  | RightClick x y relative randomize item_name =>
      right_click x y relative randomize item_name
  | Drag sx sy ex ey relative randomize => drag sx sy ex ey relative randomize
  | TypeText text interval => type_text text interval
  | PressKey key => press_key key
  end.

(** What each primitive's handler writes in front of the error text. *)
Definition failure_text (p : primitive) : string :=
  match p with
  | Move _ _ _ _ => "Failed to move mouse: "
  | Click _ _ _ _ _ _ | RightClick _ _ _ _ _ => "Failed to click: "
  | Drag _ _ _ _ _ _ => "Failed to drag: "
  | TypeText _ _ => "Failed to type text: "
  | PressKey _ => "Failed to press key: "
  end.

(** A step that makes no input call and raises, if it raises, only what
    [except Exception] catches: how a primitive resolves its target. *)
Definition resolves {A} (pre : M World A) : Prop :=
  forall w, exists r w1,
    pre w = (r, w1)
    /\ outside w1 = outside w /\ gui_calls w1 = gui_calls w
    /\ inventory_start_x w1 = inventory_start_x w
    /\ inventory_start_y w1 = inventory_start_y w
    /\ forall e, r = Raise e -> is_Exception e = true.

(** A step that returns and makes no input call. *)
Definition silent (m : M World unit) : Prop :=
  forall w, exists w',
    m w = (Ok tt, w') /\ gui_calls w' = gui_calls w /\ outside w' = outside w.

(** The guarded block of each primitive, from the world its target was
    resolved in: it returns; when one of its input calls fails, that
    call is the last one made and the handler's record is the latest
    event. *)
Definition swallowing (text : string) (block : M World unit) : Prop :=
  forall w, exists w',
    block w = (Ok tt, w')
    /\ forall k msg,
         (gui_calls w <= k < gui_calls w')%nat ->
         gui_fail (outside w) k = Some msg ->
         hd_error (trace w') = Some (Log ERROR (text ++ msg))
         /\ gui_calls w' = S k.

(** Actuation as best effort, for a primitive run in [w]: it returns or
    raises [r]; a failed input call among those it made is swallowed (the
    primitive returns, the handler's record is the latest event, no
    further input call was made); and when it raises, it raises before
    any input call. *)
Definition best_effort (text : string) (m : M World unit) (w : World) : Prop :=
  exists r w',
    m w = (r, w')
    /\ (forall k msg,
          (gui_calls w <= k < gui_calls w')%nat ->
          gui_fail (outside w) k = Some msg ->
          r = Ok tt
          /\ hd_error (trace w') = Some (Log ERROR (text ++ msg))
          /\ gui_calls w' = S k)
    /\ (forall e, r = Raise e ->
          gui_calls w' = gui_calls w /\ is_Exception e = true).

End ActionExecutor.

(* ================================================================== *)
(** * skills.py *)
(* ================================================================== *)

Module Skills.
Import Env Py.

(** The grid constants of [SkillLibrary.__init__]; the grid origin
    ([inventory_start_x], [inventory_start_y]) starts as [None]. *)
Definition slot_width : Z := 42.
Definition slot_height : Z := 36.
Definition slots_per_row : Z := 4.

Definition calibrate_inventory : M World unit :=
  Logger.info "Inventory calibration not yet implemented, using defaults".

(** The grid origin was never set: the state [__init__] leaves. *)
Definition uncalibrated (w : World) : Prop :=
  inventory_start_x w = None \/ inventory_start_y w = None.

Definition get_slot_center (slot : Z) : M World (Z * Z) :=
  sx <- get inventory_start_x ;;
  sy <- get inventory_start_y ;;
  match sx, sy with
  | Some start_x, Some start_y =>
      let row := slot / slots_per_row in
      let col := slot mod slots_per_row in
      let x := start_x + (col * slot_width) + (slot_width / 2) in
      let y := start_y + (row * slot_height) + (slot_height / 2) in
      ret (x, y)
  | _, _ =>
      raise (ValueError "Inventory not calibrated. Run calibrate_inventory() first")
  end.

Definition click_inventory_slot (slot : Z) (item_name : option string)
  : M World bool :=
  try_except
    (p <- get_slot_center slot ;;
     ActionExecutor.click (fst p) (snd p) true true item_name "left" ;;
     ret true)
    Exception
    (fun e =>
       Logger.error ("Failed to click slot " ++ str_int slot ++ ": " ++ str_exn e) ;;
       ret false).

Definition generic_prompt (item_name : string) : string :=
"Look at this OSRS inventory. Find the " ++ item_name ++ ".
            Return ONLY the slot number (0-27) where it is located.
            If not found, return -1. Respond with just the number.".

(** The [else] branch of [find_item_visual]: the generic item search. *)
Definition find_generic (screenshot : ScreenCapture.Image) (item_name : string)
  : M World (option Z) :=
  response <- Vision.analyze_screenshot screenshot (generic_prompt item_name) ;;
  try_except
    (slot <-
       match response with
       | Some r => if truthy r then n <- lift (int (strip r)) ;; ret (Some n)
                   else ret None
       | None => ret None
       end ;;
     ret (match slot with
          | Some n => if negb (n =? 0) && (0 <=? n) then Some n else None
          | None => None
          end))
    anything
    (fun _ => ret None).

Definition find_item_visual (item_name : string) : M World (option Z) :=
  Logger.log_action "FIND_ITEM" item_name ;;
  screenshot <- ScreenCapture.capture false false None ;;
  match screenshot with
  | None => ret None
  | Some shot =>
      slot <-
        (if String.eqb (lower item_name) "tinderbox" then Vision.find_tinderbox shot
         else if contains "log" (lower item_name) then Vision.find_logs shot
         else find_generic shot item_name) ;;
      match slot with
      | Some n =>
          Logger.log_success ("Found " ++ item_name ++ " in slot " ++ str_int n)
      | None =>
          Logger.log_error (item_name ++ " not found in inventory") false
      end ;;
      ret slot
  end.

Definition use_item_on_item (item1 item2 : string) : M World bool :=
  Logger.log_skill "use_item_on_item" (item1 ++ " -> " ++ item2) ;;
  slot1 <- find_item_visual item1 ;;
  slot2 <- find_item_visual item2 ;;
  match slot1, slot2 with
  | Some s1, Some s2 =>
      click_inventory_slot s1 (Some item1) ;;
      ActionExecutor.wait (Some (3 # 10)%Q) ;;
      click_inventory_slot s2 (Some item2) ;;
      ActionExecutor.wait (Some (5 # 10)%Q) ;;
      ret true
  | _, _ =>
      Logger.log_error ("Could not find items: " ++ item1 ++ ", " ++ item2) false ;;
      ret false
  end.

Definition make_fire : M World bool :=
  Logger.log_skill "make_fire" "executing" ;;
  used <- use_item_on_item "tinderbox" "logs" ;;
  if negb used then ret false
  else
    ActionExecutor.wait (Some (2 # 1)%Q) ;;
    screenshot <- ScreenCapture.capture true false None ;;
    match screenshot with
    | Some shot =>
        fire_made <- Vision.verify_fire_made shot ;;
        if (fire_made : bool) then Logger.log_success "Fire created" ;; ret true
        else Logger.log_error "Fire not detected" false ;; ret false
    | None => ret false
    end.

Definition move_away_from_fire : M World bool :=
  Logger.log_skill "move_away_from_fire" "executing" ;;
  Logger.warning "move_away_from_fire not fully implemented yet" ;;
  ret true.

Definition count_prompt : string :=
"Look at this OSRS inventory.
        Count how many inventory slots contain logs (any type).
        Return ONLY a number. If no logs, return 0.".

Definition count_logs_in_inventory : M World Z :=
  screenshot <- ScreenCapture.capture false false None ;;
  match screenshot with
  | None => ret 0
  | Some shot =>
      response <- Vision.analyze_screenshot shot count_prompt ;;
      try_except
        (count <-
           match response with
           | Some r => if truthy r then lift (int (strip r)) else ret 0
           | None => ret 0
           end ;;
         Logger.debug ("Logs remaining: " ++ str_int count) ;;
         ret count)
        anything
        (fun _ => Logger.warning "Failed to count logs" ;; ret 0)
  end.

End Skills.

(* ================================================================== *)
(** * firemaking_agent.py *)
(* ================================================================== *)

(** The orchestrator sees its collaborators (the window manager, the
    frame capture, the perception client and the skill library) through
    their answers only; the [Script] holds those answers, the k-th call
    of a skill getting the k-th one. *)
Module Agent.
Import Env Py.

Record Script : Type := mkScript {
  ready : bool;                      (* window_manager.is_ready() *)
  test_shot : bool;                  (* does screen_capture.capture(save=True) give a frame? *)
  has_client : bool;                 (* is vision_model.client set? *)
  count_answer : nat -> res Z;       (* skill_library.count_logs_in_inventory() *)
  fire_answer : nat -> res bool      (* skill_library.make_fire() *)
}.

Record State : Type := mkState {
  script : Script;
  running : bool;                    (* self.running *)
  fires_made : Z;                    (* self.fires_made *)
  failures : Z;                      (* self.failures *)
  count_calls : nat;                 (* skill calls made so far *)
  fire_calls : nat;
  trace : list event                 (* log records and waits, the latest first *)
}.

Definition set_running (v : bool) (a : State) : State :=
  mkState (script a) v (fires_made a) (failures a) (count_calls a) (fire_calls a) (trace a).

Definition set_fires_made (v : Z) (a : State) : State :=
  mkState (script a) (running a) v (failures a) (count_calls a) (fire_calls a) (trace a).

Definition set_failures (v : Z) (a : State) : State :=
  mkState (script a) (running a) (fires_made a) v (count_calls a) (fire_calls a) (trace a).

Definition set_count_calls (v : nat) (a : State) : State :=
  mkState (script a) (running a) (fires_made a) (failures a) v (fire_calls a) (trace a).

Definition set_fire_calls (v : nat) (a : State) : State :=
  mkState (script a) (running a) (fires_made a) (failures a) (count_calls a) v (trace a).

Definition set_trace (v : list event) (a : State) : State :=
  mkState (script a) (running a) (fires_made a) (failures a) (count_calls a) (fire_calls a) v.

#[export] Instance State_Traced : Traced State := {
  events := trace;
  with_events := set_trace
}.

(** [FiremakingAgent.__init__] *)
Definition init (env : Script) : State := mkState env false 0 0 0%nat 0%nat [].

(** ** The skill library, as the orchestrator meets it *)

Definition count_logs_in_inventory : M State Z :=
  k <- get count_calls ;;
  modify (set_count_calls (S k)) ;;
  answer <- get (fun a => count_answer (script a) k) ;;
  lift answer.

Definition make_fire : M State bool :=
  k <- get fire_calls ;;
  modify (set_fire_calls (S k)) ;;
  answer <- get (fun a => fire_answer (script a) k) ;;
  lift answer.

Definition move_away_from_fire : M State bool := ret true.

(** ** The agent *)

Definition banner : string := "==================================================".

Definition initialize : M State bool :=
  Logger.info banner ;;
  Logger.info "OSRS VLM Firemaking Agent" ;;
  Logger.info banner ;;
  is_ready <- get (fun a => ready (script a)) ;;
  if negb is_ready then
    Logger.error "Window manager not ready. Make sure RuneLite is running." ;;
    ret false
  else
    Logger.log_success "Window manager initialized" ;;
    shot <- get (fun a => test_shot (script a)) ;;
    if negb shot then
      Logger.error "Failed to capture screenshot" ;;
      ret false
    else
      Logger.log_success "Screenshot capture working" ;;
      vlm <- get (fun a => has_client (script a)) ;;
      (if negb vlm then
         Logger.warning "VLM not initialized. Visual understanding will not work." ;;
         Logger.warning "Set ANTHROPIC_API_KEY or OPENAI_API_KEY environment variable."
       else ret tt) ;;
      Logger.info banner ;;
      Logger.info "Agent initialized successfully!" ;;
      Logger.info banner ;;
      ret true.

Definition make_one_fire : M State bool :=
  Logger.log_action "MAKE_FIRE" "Starting firemaking sequence" ;;
  try_except
    (success <- make_fire ;;
     if (success : bool) then
       modify (fun a => set_fires_made (fires_made a + 1) a) ;;
       n <- get fires_made ;;
       Logger.log_success ("Fire #" ++ str_int n ++ " complete") ;;
       move_away_from_fire ;;
       ActionExecutor.wait (Some (1 # 1)%Q) ;;
       ret true
     else
       modify (fun a => set_failures (failures a + 1) a) ;;
       f <- get failures ;;
       Logger.log_error ("Fire attempt failed (failures: " ++ str_int f ++ ")") false ;;
       ret false)
    Exception
    (fun e =>
       Logger.error ("Exception during firemaking: " ++ str_exn e) ;;
       modify (fun a => set_failures (failures a + 1) a) ;;
       ret false).

(** The answers of [make_fire] that [make_one_fire] counts as a failure:
    [False], or an exception its [except Exception] catches. *)
Definition fails (answer : res bool) : bool :=
  match answer with
  | Ok b => negb b
  | Raise e => is_Exception e
  end.

(** Why the [while self.running] loop of [burn_inventory] was left. *)
Inductive stop : Type :=
| NotRunning            (* the loop condition was false *)
| NoMoreLogs            (* break: logs_count == 0 *)
| TooManyFailures.      (* break: failures >= MAX_RETRIES *)

(** The [while] loop of [burn_inventory], at most [fuel] passes;
    [None]: the loop is still going when the fuel is spent. *)
Fixpoint burn_loop (fuel : nat) : M State (option stop) :=
  match fuel with
  | O => ret None
  | S fuel' =>
      go <- get running ;;
      if negb go then ret (Some NotRunning)
      else
        logs_count <- count_logs_in_inventory ;;
        if logs_count =? 0 then
          Logger.log_success "No more logs in inventory!" ;;
          ret (Some NoMoreLogs)
        else
          Logger.info ("Logs remaining: " ++ str_int logs_count) ;;
          success <- make_one_fire ;;
          if negb success then
            f <- get failures ;;
            if Config.MAX_RETRIES <=? f then
              Logger.error ("Too many failures (" ++ str_int f ++ "). Stopping.") ;;
              ret (Some TooManyFailures)
            else
              Logger.warning ("Retrying... (attempt " ++ str_int f ++ "/"
                              ++ str_int Config.MAX_RETRIES ++ ")") ;;
              ActionExecutor.wait (Some (2 # 1)%Q) ;;
              burn_loop fuel'
          else
            modify (set_failures 0) ;;
            ActionExecutor.wait (Some (5 # 10)%Q) ;;
            burn_loop fuel'
  end.

(** [burn_inventory]; [None]: the fuel ran out inside the loop. *)
Definition burn_inventory (fuel : nat) : M State (option Z) :=
  Logger.info "Starting full inventory firemaking..." ;;
  initial_fires <- get fires_made ;;
  stopped <- burn_loop fuel ;;
  match stopped with
  | None => ret None
  | Some _ =>
      made <- get fires_made ;;
      let fires_this_run := made - initial_fires in
      Logger.info ("Firemaking complete. Made " ++ str_int fires_this_run
                   ++ " fires this run.") ;;
      Logger.info ("Total fires: " ++ str_int made) ;;
      ret (Some fires_this_run)
  end.

(** [for i in range(num_fires)] of [run], with [left] passes to go. *)
Fixpoint fixed_loop (left : nat) (i num_fires : Z) : M State unit :=
  match left with
  | O => ret tt
  | S left' =>
      go <- get running ;;
      if negb go then ret tt
      else
        Logger.info ("Making fire " ++ str_int (i + 1) ++ "/"
                     ++ str_int num_fires ++ "...") ;;
        make_one_fire ;;
        fixed_loop left' (i + 1) num_fires
  end.

(** [run(num_fires)]; [None]: the fuel ran out inside [burn_inventory]. *)
Definition run (fuel : nat) (num_fires : option Z) : M State (option unit) :=
  ok <- initialize ;;
  if negb ok then
    Logger.error "Initialization failed. Exiting." ;;
    ret (Some tt)
  else
    modify (set_running true) ;;
    try_finally
      (try_except
         match num_fires with
         | None =>
             r <- burn_inventory fuel ;;
             ret (match r with Some _ => Some tt | None => None end)
         | Some n =>
             fixed_loop (Z.to_nat n) 0 n ;;
             ret (Some tt)
         end
         anything
         (fun e =>
            match e with
            | KeyboardInterrupt => Logger.warning "Interrupted by user"
            | _ => Logger.error ("Fatal error: " ++ str_exn e)
            end ;;
            ret (Some tt)))
      (modify (set_running false) ;;
       Logger.info "Agent stopped").

Definition stop_agent : M State unit :=
  Logger.warning "Stopping agent..." ;;
  modify (set_running false).



(** The answers of [make_fire] after which [make_one_fire] returns: a
    boolean, or an exception its [except Exception] catches. *)
Definition settles (answer : res bool) : bool :=
  match answer with
  | Ok _ => true
  | Raise e => is_Exception e
  end.

(** Nothing but the trace changed. *)
Definition logged (a a' : State) : Prop :=
  script a' = script a /\ running a' = running a
  /\ fires_made a' = fires_made a /\ failures a' = failures a
  /\ count_calls a' = count_calls a /\ fire_calls a' = fire_calls a.

(** The state a pass of the loop leaves behind, events apart. *)
Definition advanced (a : State) (made failed : Z) (a' : State) : Prop :=
  script a' = script a /\ running a' = running a
  /\ fires_made a' = made /\ failures a' = failed
  /\ count_calls a' = S (count_calls a) /\ fire_calls a' = S (fire_calls a).

End Agent.

(* ================================================================== *)
(** * Sample environments *)
(* ================================================================== *)

(** Concrete scripts and worlds, used to run the definitions. *)
Module Sample.
Import Env Py.

(** Logs are seen at the first four queries; the second fire succeeds,
    every other one fails. *)
Definition fail_pass_fail_fail : Agent.Script :=
  Agent.mkScript true true true
    (fun k => if (k <? 4)%nat then Ok 3 else Ok 0)
    (fun k => match k with 1%nat => Ok true | _ => Ok false end).

(** Logs never run out and no fire ever succeeds. *)
Definition never_lit : Agent.Script :=
  Agent.mkScript true true true (fun _ => Ok 5) (fun _ => Ok false).

(** Five logs, one burnt by each fire. *)
Definition five_logs : Agent.Script :=
  Agent.mkScript true true true (fun k => Ok (5 - Z.of_nat k)) (fun _ => Ok true).

(** The first fire succeeds; Ctrl-C is pressed during the second attempt. *)
Definition ctrl_c : Agent.Script :=
  Agent.mkScript true true true (fun _ => Ok 3)
    (fun k => match k with 1%nat => Raise KeyboardInterrupt | _ => Ok true end).

(** The count of the logs raises, as it does over a region file that
    lacks a key. *)
Definition no_width : Agent.Script :=
  Agent.mkScript true true true (fun _ => Raise (KeyError "width")) (fun _ => Ok true).

(** Nothing outside answers: no window, every grab and every input
    call succeeds, the provider says "7". *)
Definition quiet : Outside :=
  mkOutside (XWindow None None None) (fun _ => true) (fun _ => true)
            (fun _ => Reply "7") (fun _ => None) (fun _ => 0).

(** A freshly started process over [out], with [file] as the persisted
    region file and [cfg] as the stored window configuration. *)
Definition world (out : Outside) (file : option string) (cfg : pyval) : World :=
  mkWorld out cfg file 0 Config.VLM_PROVIDER true None None
          0%nat 0%nat 0%nat 0%nat [].

(** The provider answers every request with [text]. *)
Definition answering (text : string) : Outside :=
  mkOutside (XWindow None None None) (fun _ => true) (fun _ => true)
            (fun _ => Reply text) (fun _ => None) (fun _ => 0).

(** The second input call fails; everything else works. *)
Definition jammed : Outside :=
  mkOutside (XWindow None None None) (fun _ => true) (fun _ => true)
            (fun _ => Reply "7")
            (fun k => match k with 1%nat => Some "device busy" | _ => None end)
            (fun _ => 0).



(** The game window at its usual place. *)
Definition desk : Region.t := Region.mk 0 24 765 503 "RuneLite".

(** A running process that has the window, with the provider answering
    [text]; the inventory grid is not calibrated. *)
Definition playing (text : string) : World :=
  world (answering text) None (Region.to_py desk).

(** The same, with the grid origin set by hand. *)
Definition calibrated (text : string) : World :=
  mkWorld (answering text) (Region.to_py desk) None 0 Config.VLM_PROVIDER true
          (Some 560) (Some 210) 0%nat 0%nat 0%nat 0%nat [].

(** A calibrated grid over an input library that refuses every call. *)
Definition stuck : World :=
  mkWorld (mkOutside (XWindow None None None) (fun _ => true) (fun _ => true)
                     (fun _ => Reply "7") (fun _ => Some "device busy") (fun _ => 0))
          (Region.to_py desk) None 0 Config.VLM_PROVIDER true
          (Some 560) (Some 210) 0%nat 0%nat 0%nat 0%nat [].

(** A frame. *)
Definition frame0 : ScreenCapture.Image := ScreenCapture.mkImage 0 [].

(** A region of width zero. *)
Definition flat : Region.t := Region.mk 10 20 0 503 "RuneLite".

(** An agent about to enter its loop. *)
Definition started (env : Agent.Script) : Agent.State :=
  Agent.set_running true (Agent.init env).

End Sample.

(* ================================================================== *)
(** * Properties *)
(* ================================================================== *)

Example int_7 : Py.parse_int "7" = Some 7.
Proof. reflexivity. Qed.

Example int_minus_one : Py.parse_int "-1" = Some (-1).
Proof. reflexivity. Qed.

Example int_padded : Py.parse_int (Py.strip "  12
") = Some 12.
Proof. reflexivity. Qed.

Example int_words : Py.parse_int "slot 7" = None.
Proof. reflexivity. Qed.

Example int_underscore : Py.parse_int "1_0" = Some 10 /\ Py.parse_int "1__0" = None.
Proof. split; reflexivity. Qed.

Example str_int_examples :
  Py.str_int 0 = "0" /\ Py.str_int 765 = "765" /\ Py.str_int (-24) = "-24".
Proof. repeat split; reflexivity. Qed.

Example json_dumps_region :
  Json.dumps (Py.PDict [("x", Py.PInt 0); ("title", Py.PStr "Rune Lite")])
  = "{
  " ++ String Json.dquote "x" ++ String Json.dquote ": 0,
  " ++ String Json.dquote "title" ++ String Json.dquote ": "
    ++ String Json.dquote "Rune Lite" ++ String Json.dquote "
}".
Proof. reflexivity. Qed.

Example json_loads_nested :
  Json.loads ("  { " ++ String Json.dquote "a" ++ String Json.dquote
              " : [1, -20 ,[ ] , {}, null, true], "
              ++ String Json.dquote "a" ++ String Json.dquote ":7} ")
  = Some (Py.PDict [("a", Py.PInt 7)]).
Proof. reflexivity. Qed.

Example json_loads_bad :
  Json.loads "{" = None /\ Json.loads "[1,]" = None /\ Json.loads "01" = None
  /\ Json.loads "1.5" = None /\ Json.loads "" = None.
Proof. repeat split; reflexivity. Qed.

Example json_roundtrip_sample :
  let v := Py.PDict [("x", Py.PInt 3); ("y", Py.PInt (-24)); ("width", Py.PInt 765);
                     ("height", Py.PInt 503);
                     ("title", Py.PStr ("Rune" ++ String Json.backslash "Lite"
                                        ++ String Json.dquote (String (ascii_of_nat 233) "!")))] in
  Json.loads (Json.dumps v) = Some v.
Proof. vm_compute. reflexivity. Qed.

(* ------------------------------------------------------------------ *)
(** ** Running a computation *)
(* ------------------------------------------------------------------ *)

Section LoggerFacts.
Context {W : Type} `{Env.Traced W}.

Lemma info_run (msg : string) (w : W) :
  Logger.info msg w
  = (Py.Ok tt, Env.with_events (Env.Log Env.INFO msg :: Env.events w) w).
Proof. reflexivity. Qed.

Lemma warning_run (msg : string) (w : W) :
  Logger.warning msg w
  = (Py.Ok tt, Env.with_events (Env.Log Env.WARNING msg :: Env.events w) w).
Proof. reflexivity. Qed.

Lemma error_run (msg : string) (w : W) :
  Logger.error msg w
  = (Py.Ok tt, Env.with_events (Env.Log Env.ERROR msg :: Env.events w) w).
Proof. reflexivity. Qed.

(** With [LOG_LEVEL = "INFO"] a debug record is dropped. *)
Lemma debug_run (msg : string) (w : W) : Logger.debug msg w = (Py.Ok tt, w).
Proof. reflexivity. Qed.

Lemma wait_run (d : Q) (w : W) :
  ActionExecutor.wait (Some d) w
  = (Py.Ok tt, Env.with_events (Env.Sleep d :: Env.events w) w).
Proof. reflexivity. Qed.

Lemma sleep_uniform_run (range : Q * Q) (w : W) :
  ActionExecutor.sleep_uniform range w
  = (Py.Ok tt, Env.with_events (Env.SleepUniform range :: Env.events w) w).
Proof. reflexivity. Qed.

End LoggerFacts.

(* ------------------------------------------------------------------ *)
(** ** firemaking_agent.py: the retry loop *)
(* ------------------------------------------------------------------ *)

Module AgentFacts.
Import Env Py Agent.

Ltac agent_simpl :=
  cbv beta iota zeta delta
      [bind ret get modify lift raise try_except try_finally Exception anything
       negb fst snd
       set_running set_fires_made set_failures set_count_calls set_fire_calls
       set_trace events with_events State_Traced
       Logger.log_action Logger.log_success Logger.log_error Logger.log_skill
       move_away_from_fire count_logs_in_inventory make_fire];
  cbn [script running fires_made failures count_calls fire_calls trace].

Ltac agent_run :=
  repeat (agent_simpl;
          rewrite ?info_run, ?warning_run, ?error_run, ?debug_run, ?wait_run).

Lemma make_one_fire_success (a : State) :
  fire_answer (script a) (fire_calls a) = Ok true ->
  exists evs,
    make_one_fire a
    = (Ok true,
       mkState (script a) (running a) (fires_made a + 1) (failures a)
               (count_calls a) (S (fire_calls a)) (evs ++ trace a)%list).
Proof.
  intros Hf. unfold make_one_fire. agent_run. rewrite Hf. agent_run.
  eexists [_; _; _]. reflexivity.
Qed.

Lemma make_one_fire_failure (a : State) :
  fails (fire_answer (script a) (fire_calls a)) = true ->
  exists evs,
    make_one_fire a
    = (Ok false,
       mkState (script a) (running a) (fires_made a) (failures a + 1)
               (count_calls a) (S (fire_calls a)) (evs ++ trace a)%list).
Proof.
  intros Hf. unfold make_one_fire. agent_run.
  destruct (fire_answer (script a) (fire_calls a)) as [[|]|e]; simpl in Hf;
    try discriminate; agent_run.
  - eexists [_; _]. reflexivity.
  - unfold Exception. rewrite Hf. agent_run. eexists [_; _]. reflexivity.
Qed.

(** An interrupt is no [Exception]: it leaves [make_one_fire] as it came. *)
Lemma make_one_fire_interrupt (a : State) :
  fire_answer (script a) (fire_calls a) = Raise KeyboardInterrupt ->
  fst (make_one_fire a) = Raise KeyboardInterrupt.
Proof.
  intros Hf. unfold make_one_fire. agent_run. rewrite Hf. reflexivity.
Qed.

(** A pass whose fire succeeds: the failure count is set back to zero,
    the loop waits half a second and goes on. *)
Lemma burn_pass_success (fuel : nat) (a : State) (c : Z) :
  running a = true ->
  count_answer (script a) (count_calls a) = Ok c -> c <> 0 ->
  fire_answer (script a) (fire_calls a) = Ok true ->
  exists a',
    burn_loop (S fuel) a = burn_loop fuel a'
    /\ advanced a (fires_made a + 1) 0 a'
    /\ hd_error (trace a') = Some (Sleep (5 # 10)).
Proof.
  intros Hrun Hc Hnz Hf.
  destruct (make_one_fire_success
              (mkState (script a) (running a) (fires_made a) (failures a)
                 (S (count_calls a)) (fire_calls a)
                 (Log INFO ("Logs remaining: " ++ str_int c) :: trace a)) Hf)
    as [evs Hone].
  cbn [script running fires_made failures count_calls fire_calls trace] in Hone.
  apply Z.eqb_neq in Hnz.
  cbn [burn_loop]. agent_run. rewrite Hrun. agent_run. rewrite Hc. agent_run.
  rewrite Hnz. agent_run. rewrite Hone. agent_run.
  eexists. split; [reflexivity|].
  split; [|reflexivity].
  unfold advanced; cbn. auto 10.
Qed.

(** A pass whose fire fails below the budget: the loop backs off for two
    seconds and goes on. *)
Lemma burn_pass_retry (fuel : nat) (a : State) (c : Z) :
  running a = true ->
  count_answer (script a) (count_calls a) = Ok c -> c <> 0 ->
  fails (fire_answer (script a) (fire_calls a)) = true ->
  failures a + 1 < Config.MAX_RETRIES ->
  exists a',
    burn_loop (S fuel) a = burn_loop fuel a'
    /\ advanced a (fires_made a) (failures a + 1) a'
    /\ hd_error (trace a') = Some (Sleep (2 # 1)).
Proof.
  intros Hrun Hc Hnz Hf Hlt.
  destruct (make_one_fire_failure
              (mkState (script a) (running a) (fires_made a) (failures a)
                 (S (count_calls a)) (fire_calls a)
                 (Log INFO ("Logs remaining: " ++ str_int c) :: trace a)) Hf)
    as [evs Hone].
  cbn [script running fires_made failures count_calls fire_calls trace] in Hone.
  apply Z.eqb_neq in Hnz. apply Z.leb_gt in Hlt.
  cbn [burn_loop]. agent_run. rewrite Hrun. agent_run. rewrite Hc. agent_run.
  rewrite Hnz. agent_run. rewrite Hone. agent_run.
  rewrite Hlt. agent_run.
  eexists. split; [reflexivity|].
  split; [|reflexivity].
  unfold advanced; cbn. auto 10.
Qed.

(** A pass whose fire fails and uses up the budget: the loop is left. *)
Lemma burn_pass_exhausted (fuel : nat) (a : State) (c : Z) :
  running a = true ->
  count_answer (script a) (count_calls a) = Ok c -> c <> 0 ->
  fails (fire_answer (script a) (fire_calls a)) = true ->
  Config.MAX_RETRIES <= failures a + 1 ->
  exists a',
    burn_loop (S fuel) a = (Ok (Some TooManyFailures), a')
    /\ advanced a (fires_made a) (failures a + 1) a'
    /\ hd_error (trace a')
       = Some (Log ERROR ("Too many failures (" ++ str_int (failures a + 1)
                          ++ "). Stopping.")).
Proof.
  intros Hrun Hc Hnz Hf Hge.
  destruct (make_one_fire_failure
              (mkState (script a) (running a) (fires_made a) (failures a)
                 (S (count_calls a)) (fire_calls a)
                 (Log INFO ("Logs remaining: " ++ str_int c) :: trace a)) Hf)
    as [evs Hone].
  cbn [script running fires_made failures count_calls fire_calls trace] in Hone.
  apply Z.eqb_neq in Hnz. apply Z.leb_le in Hge.
  cbn [burn_loop]. agent_run. rewrite Hrun. agent_run. rewrite Hc. agent_run.
  rewrite Hnz. agent_run. rewrite Hone. agent_run.
  rewrite Hge. agent_run.
  eexists. split; [reflexivity|].
  split; [|reflexivity].
  unfold advanced; cbn. auto 10.
Qed.

(** A pass that finds no logs: the loop is left, no fire is tried. *)
Lemma burn_pass_no_logs (fuel : nat) (a : State) :
  running a = true ->
  count_answer (script a) (count_calls a) = Ok 0 ->
  burn_loop (S fuel) a
  = (Ok (Some NoMoreLogs),
     mkState (script a) true (fires_made a) (failures a)
             (S (count_calls a)) (fire_calls a)
             (Log INFO "SUCCESS: No more logs in inventory!" :: trace a)).
Proof.
  intros Hrun Hc.
  cbn [burn_loop]. agent_run. rewrite Hrun. agent_run. rewrite Hc. agent_run.
  rewrite Z.eqb_refl. agent_run. rewrite Hrun. reflexivity.
Qed.

(** Three passes in a row that fail, from a failure count of zero. *)
Lemma three_failures (fuel : nat) (a : State) :
  running a = true -> failures a = 0 ->
  (forall i, (i < 3)%nat ->
     exists c, count_answer (script a) (count_calls a + i) = Ok c /\ c <> 0) ->
  (forall i, (i < 3)%nat ->
     fails (fire_answer (script a) (fire_calls a + i)) = true) ->
  exists a1 a2 a3,
    burn_loop (3 + fuel) a = burn_loop (2 + fuel) a1
    /\ advanced a (fires_made a) 1 a1
    /\ hd_error (trace a1) = Some (Sleep (2 # 1))
    /\ burn_loop (2 + fuel) a1 = burn_loop (1 + fuel) a2
    /\ advanced a1 (fires_made a) 2 a2
    /\ hd_error (trace a2) = Some (Sleep (2 # 1))
    /\ burn_loop (1 + fuel) a2 = (Ok (Some TooManyFailures), a3)
    /\ advanced a2 (fires_made a) 3 a3
    /\ hd_error (trace a3) = Some (Log ERROR "Too many failures (3). Stopping.").
Proof.
  intros Hrun Hfl Hcount Hfire.
  destruct (Hcount 0%nat) as (c1 & Hc1 & Hn1); [lia|].
  destruct (Hcount 1%nat) as (c2 & Hc2 & Hn2); [lia|].
  destruct (Hcount 2%nat) as (c3 & Hc3 & Hn3); [lia|].
  pose proof (Hfire 0%nat ltac:(lia)) as Hf1.
  pose proof (Hfire 1%nat ltac:(lia)) as Hf2.
  pose proof (Hfire 2%nat ltac:(lia)) as Hf3.
  rewrite Nat.add_0_r in Hc1, Hf1.
  rewrite Nat.add_1_r in Hc2, Hf2.
  replace (count_calls a + 2)%nat with (S (S (count_calls a))) in Hc3 by lia.
  replace (fire_calls a + 2)%nat with (S (S (fire_calls a))) in Hf3 by lia.
  destruct (burn_pass_retry (2 + fuel) a c1 Hrun Hc1 Hn1 Hf1)
    as (a1 & Hstep1 & Hadv1 & Hhd1); [rewrite Hfl; reflexivity|].
  destruct Hadv1 as (Hs1 & Hr1 & Hm1 & Hl1 & Hcc1 & Hfc1).
  destruct (burn_pass_retry (1 + fuel) a1 c2)
    as (a2 & Hstep2 & Hadv2 & Hhd2);
    [congruence | rewrite Hs1, Hcc1; exact Hc2 | exact Hn2
     | rewrite Hs1, Hfc1; exact Hf2 | rewrite Hl1, Hfl; reflexivity |].
  destruct Hadv2 as (Hs2 & Hr2 & Hm2 & Hl2 & Hcc2 & Hfc2).
  destruct (burn_pass_exhausted fuel a2 c3)
    as (a3 & Hstep3 & Hadv3 & Hhd3);
    [congruence | rewrite Hs2, Hs1, Hcc2, Hcc1; exact Hc3 | exact Hn3
     | rewrite Hs2, Hs1, Hfc2, Hfc1; exact Hf3
     | rewrite Hl2, Hl1, Hfl; cbv; discriminate |].
  destruct Hadv3 as (Hs3 & Hr3 & Hm3 & Hl3 & Hcc3 & Hfc3).
  exists a1, a2, a3.
  rewrite Hfl in *. rewrite Hl1 in *. rewrite Hl2 in *. rewrite Hm1 in *.
  rewrite Hm2 in *.
  repeat split; try assumption; try congruence;
    first [exact Hstep1 | exact Hstep2 | exact Hstep3].
Qed.

(** C4. With [MAX_RETRIES = 3], three consecutive failures of the task,
    with no success in between and logs left at each query, end the
    drain-all loop through its [failures >= MAX_RETRIES] exit with
    [failures = 3]; the first two failures are each followed by the
    two-second wait and another pass of the loop. *)
Theorem retry_budget_exhausted (fuel : nat) (a : State) :
  running a = true -> failures a = 0 ->
  (forall i, (i < 3)%nat ->
     exists c, count_answer (script a) (count_calls a + i) = Ok c /\ c <> 0) ->
  (forall i, (i < 3)%nat ->
     fails (fire_answer (script a) (fire_calls a + i)) = true) ->
  Config.MAX_RETRIES = 3 /\
  exists a1 a2 a3,
    (* the first failure: back off, loop again *)
    burn_loop (3 + fuel) a = burn_loop (2 + fuel) a1
    /\ failures a1 = 1 /\ hd_error (trace a1) = Some (Sleep (2 # 1))
    (* the second failure: the same *)
    /\ burn_loop (2 + fuel) a1 = burn_loop (1 + fuel) a2
    /\ failures a2 = 2 /\ hd_error (trace a2) = Some (Sleep (2 # 1))
    (* the third failure: the loop stops *)
    /\ burn_loop (3 + fuel) a = (Ok (Some TooManyFailures), a3)
    /\ failures a3 = 3
    /\ fires_made a3 = fires_made a
    /\ fire_calls a3 = (3 + fire_calls a)%nat
    /\ hd_error (trace a3) = Some (Log ERROR "Too many failures (3). Stopping.").
Proof.
  intros Hrun Hfl Hcount Hfire.
  split; [reflexivity|].
  destruct (three_failures fuel a Hrun Hfl Hcount Hfire)
    as (a1 & a2 & a3 & H1 & A1 & T1 & H2 & A2 & T2 & H3 & A3 & T3).
  destruct A1 as (_ & _ & _ & L1 & _ & F1).
  destruct A2 as (_ & _ & _ & L2 & _ & F2).
  destruct A3 as (_ & _ & M3 & L3 & _ & F3).
  exists a1, a2, a3.
  repeat split; try assumption.
  - rewrite H1, H2. exact H3.
  - rewrite F3, F2, F1. reflexivity.
Qed.

(** The agent of [Sample.never_lit] meets the hypotheses of C4. *)
Lemma retry_budget_exhausted_witness :
  Config.MAX_RETRIES = 3 /\
  exists a1 a2 a3,
    burn_loop 3 (Sample.started Sample.never_lit) = burn_loop 2 a1
    /\ failures a1 = 1 /\ hd_error (trace a1) = Some (Sleep (2 # 1))
    /\ burn_loop 2 a1 = burn_loop 1 a2
    /\ failures a2 = 2 /\ hd_error (trace a2) = Some (Sleep (2 # 1))
    /\ burn_loop 3 (Sample.started Sample.never_lit)
       = (Ok (Some TooManyFailures), a3)
    /\ failures a3 = 3
    /\ fires_made a3 = 0
    /\ fire_calls a3 = 3%nat
    /\ hd_error (trace a3) = Some (Log ERROR "Too many failures (3). Stopping.").
Proof.
  apply (retry_budget_exhausted 0%nat (Sample.started Sample.never_lit)).
  - reflexivity.
  - reflexivity.
  - intros i _. exists 5. split; [reflexivity | discriminate].
  - intros i _. reflexivity.
Defined.

(** Five passes that succeed, then a query that finds no logs. *)
Lemma five_successes (fuel : nat) (a : State) :
  running a = true ->
  (forall i, (i < 6)%nat ->
     count_answer (script a) (count_calls a + i) = Ok (5 - Z.of_nat i)) ->
  (forall i, (i < 5)%nat ->
     fire_answer (script a) (fire_calls a + i) = Ok true) ->
  exists a',
    burn_loop (6 + fuel) a = (Ok (Some NoMoreLogs), a')
    /\ script a' = script a
    /\ fire_calls a' = (5 + fire_calls a)%nat
    /\ count_calls a' = (6 + count_calls a)%nat
    /\ fires_made a' = fires_made a + 5
    /\ failures a' = 0.
Proof.
  intros Hrun Hcount Hfire.
  assert (Hpass : forall k b,
             (k < 5)%nat ->
             script b = script a -> running b = true ->
             count_calls b = (k + count_calls a)%nat ->
             fire_calls b = (k + fire_calls a)%nat ->
             forall n, exists b',
               burn_loop (S n) b = burn_loop n b'
               /\ script b' = script a /\ running b' = true
               /\ count_calls b' = (S k + count_calls a)%nat
               /\ fire_calls b' = (S k + fire_calls a)%nat
               /\ fires_made b' = fires_made b + 1 /\ failures b' = 0).
  { intros k b Hk Hs Hr Hcc Hfc n.
    destruct (burn_pass_success n b (5 - Z.of_nat k)) as (b' & Hstep & Hadv & _).
    - exact Hr.
    - rewrite Hs, Hcc, Nat.add_comm. apply Hcount. lia.
    - lia.
    - rewrite Hs, Hfc, Nat.add_comm. apply Hfire. exact Hk.
    - destruct Hadv as (Hs' & Hr' & Hm' & Hl' & Hcc' & Hfc').
      exists b'. repeat split; try assumption; try congruence.
      + rewrite Hcc', Hcc. reflexivity.
      + rewrite Hfc', Hfc. reflexivity. }
  destruct (Hpass 0%nat a) with (n := (5 + fuel)%nat)
    as (a1 & E1 & S1 & R1 & C1 & F1 & M1 & L1); try reflexivity; try lia; try assumption.
  destruct (Hpass 1%nat a1) with (n := (4 + fuel)%nat)
    as (a2 & E2 & S2 & R2 & C2 & F2 & M2 & L2); try assumption; try lia.
  destruct (Hpass 2%nat a2) with (n := (3 + fuel)%nat)
    as (a3 & E3 & S3 & R3 & C3 & F3 & M3 & L3); try assumption; try lia.
  destruct (Hpass 3%nat a3) with (n := (2 + fuel)%nat)
    as (a4 & E4 & S4 & R4 & C4 & F4 & M4 & L4); try assumption; try lia.
  destruct (Hpass 4%nat a4) with (n := (1 + fuel)%nat)
    as (a5 & E5 & S5 & R5 & C5 & F5 & M5 & L5); try assumption; try lia.
  assert (Hzero : count_answer (script a5) (count_calls a5) = Ok 0).
  { rewrite S5, C5, Nat.add_comm. exact (Hcount 5%nat ltac:(lia)). }
  pose proof (burn_pass_no_logs fuel a5 R5 Hzero) as E6.
  eexists. split.
  - change (6 + fuel)%nat with (S (5 + fuel)). rewrite E1.
    change (5 + fuel)%nat with (S (4 + fuel)). rewrite E2.
    change (4 + fuel)%nat with (S (3 + fuel)). rewrite E3.
    change (3 + fuel)%nat with (S (2 + fuel)). rewrite E4.
    change (2 + fuel)%nat with (S (1 + fuel)). rewrite E5.
    exact E6.
  - cbn [script fire_calls count_calls fires_made failures].
    repeat split.
    + exact S5.
    + exact F5.
    + rewrite C5. reflexivity.
    + lia.
    + exact L5.
Qed.

(** C5. In drain-all mode, when the count query answers 5, 4, 3, 2, 1, 0
    and every task succeeds, the loop makes exactly five fires and is
    left through its [logs_count == 0] exit; [burn_inventory] returns 5. *)
Theorem drain_five_logs (fuel : nat) (a : State) :
  running a = true ->
  (forall i, (i < 6)%nat ->
     count_answer (script a) (count_calls a + i) = Ok (5 - Z.of_nat i)) ->
  (forall i, (i < 5)%nat ->
     fire_answer (script a) (fire_calls a + i) = Ok true) ->
  (exists a',
     burn_loop (6 + fuel) a = (Ok (Some NoMoreLogs), a')
     /\ fire_calls a' = (5 + fire_calls a)%nat
     /\ count_calls a' = (6 + count_calls a)%nat
     /\ fires_made a' = fires_made a + 5
     /\ failures a' = 0)
  /\ fst (burn_inventory (6 + fuel) a) = Ok (Some 5).
Proof.
  intros Hrun Hcount Hfire. split.
  - destruct (five_successes fuel a Hrun Hcount Hfire)
      as (a' & E & _ & F & C & M & L).
    exists a'. auto.
  - unfold burn_inventory. agent_run.
    destruct (five_successes fuel
                (mkState (script a) (running a) (fires_made a) (failures a)
                   (count_calls a) (fire_calls a)
                   (Log INFO "Starting full inventory firemaking..." :: trace a)))
      as (a' & E & _ & _ & _ & M & _); try assumption.
    rewrite E. agent_run. cbn [fires_made] in M. rewrite M.
    replace (fires_made a + 5 - fires_made a) with 5 by lia.
    reflexivity.
Qed.

(** The agent of [Sample.five_logs] meets the hypotheses of C5. *)
Lemma drain_five_logs_witness :
  (exists a',
     burn_loop 6 (Sample.started Sample.five_logs) = (Ok (Some NoMoreLogs), a')
     /\ fire_calls a' = 5%nat
     /\ count_calls a' = 6%nat
     /\ fires_made a' = 5
     /\ failures a' = 0)
  /\ fst (burn_inventory 6 (Sample.started Sample.five_logs)) = Ok (Some 5).
Proof.
  apply (drain_five_logs 0%nat (Sample.started Sample.five_logs)).
  - reflexivity.
  - intros i _. reflexivity.
  - intros i _. reflexivity.
Defined.

(** C3, as stated, fails in fixed-count mode: [run(num_fires=4)] over a
    failure, a success and two more failures never sets the failure
    count back; it stands at 1 after the success and at 3 at the end. *)
Lemma fixed_count_keeps_failures :
  failures (snd (fixed_loop 2 0 4 (Sample.started Sample.fail_pass_fail_fail))) = 1
  /\ failures (snd (run 0 (Some 4) (init Sample.fail_pass_fail_fail))) = 3
  /\ failures (snd (run 0 (Some 4) (init Sample.fail_pass_fail_fail))) <> 2.
Proof.
  repeat split; try (vm_compute; reflexivity).
  vm_compute. discriminate.
Qed.

(** C3, amended. In drain-all mode ([burn_inventory]) every pass whose
    task succeeds sets the failure count back to zero; in particular a
    failure, a success and two more failures leave it at 2. *)
Theorem drain_all_success_resets_failures :
  (forall (fuel : nat) (a : State) (c : Z),
      running a = true ->
      count_answer (script a) (count_calls a) = Ok c -> c <> 0 ->
      fire_answer (script a) (fire_calls a) = Ok true ->
      exists a',
        burn_loop (S fuel) a = burn_loop fuel a'
        /\ failures a' = 0 /\ fires_made a' = fires_made a + 1)
  /\
  (forall (fuel : nat) (a : State),
      running a = true -> failures a = 0 ->
      (forall i, (i < 4)%nat ->
         exists c, count_answer (script a) (count_calls a + i) = Ok c /\ c <> 0) ->
      fails (fire_answer (script a) (fire_calls a)) = true ->
      fire_answer (script a) (fire_calls a + 1) = Ok true ->
      fails (fire_answer (script a) (fire_calls a + 2)) = true ->
      fails (fire_answer (script a) (fire_calls a + 3)) = true ->
      exists a1 a2 a4,
        burn_loop (4 + fuel) a = burn_loop (3 + fuel) a1 /\ failures a1 = 1
        /\ burn_loop (3 + fuel) a1 = burn_loop (2 + fuel) a2 /\ failures a2 = 0
        /\ burn_loop (4 + fuel) a = burn_loop fuel a4 /\ failures a4 = 2
        /\ fires_made a4 = fires_made a + 1).
Proof.
  split.
  - intros fuel a c Hrun Hc Hnz Hf.
    destruct (burn_pass_success fuel a c Hrun Hc Hnz Hf)
      as (a' & Hstep & (_ & _ & Hm & Hl & _ & _) & _).
    exists a'. auto.
  - intros fuel a Hrun Hfl Hcount Hf1 Hf2 Hf3 Hf4.
    destruct (Hcount 0%nat) as (c1 & Hc1 & Hn1); [lia|].
    destruct (Hcount 1%nat) as (c2 & Hc2 & Hn2); [lia|].
    destruct (Hcount 2%nat) as (c3 & Hc3 & Hn3); [lia|].
    destruct (Hcount 3%nat) as (c4 & Hc4 & Hn4); [lia|].
    rewrite Nat.add_0_r in Hc1.
    rewrite Nat.add_1_r in Hc2, Hf2.
    replace (count_calls a + 2)%nat with (S (S (count_calls a))) in Hc3 by lia.
    replace (fire_calls a + 2)%nat with (S (S (fire_calls a))) in Hf3 by lia.
    replace (count_calls a + 3)%nat with (S (S (S (count_calls a)))) in Hc4 by lia.
    replace (fire_calls a + 3)%nat with (S (S (S (fire_calls a)))) in Hf4 by lia.
    destruct (burn_pass_retry (3 + fuel) a c1 Hrun Hc1 Hn1 Hf1)
      as (a1 & E1 & (S1 & R1 & M1 & L1 & C1 & F1) & _);
      [rewrite Hfl; reflexivity|].
    destruct (burn_pass_success (2 + fuel) a1 c2)
      as (a2 & E2 & (S2 & R2 & M2 & L2 & C2 & F2) & _);
      [congruence | rewrite S1, C1; exact Hc2 | exact Hn2
       | rewrite S1, F1; exact Hf2 |].
    destruct (burn_pass_retry (1 + fuel) a2 c3)
      as (a3 & E3 & (S3 & R3 & M3 & L3 & C3 & F3) & _);
      [congruence | rewrite S2, S1, C2, C1; exact Hc3 | exact Hn3
       | rewrite S2, S1, F2, F1; exact Hf3 | rewrite L2; reflexivity |].
    destruct (burn_pass_retry fuel a3 c4)
      as (a4 & E4 & (S4 & R4 & M4 & L4 & C4 & F4) & _);
      [congruence | rewrite S3, S2, S1, C3, C2, C1; exact Hc4 | exact Hn4
       | rewrite S3, S2, S1, F3, F2, F1; exact Hf4
       | rewrite L3, L2; reflexivity |].
    exists a1, a2, a4.
    repeat split.
    + exact E1.
    + rewrite L1, Hfl. reflexivity.
    + exact E2.
    + exact L2.
    + change (4 + fuel)%nat with (S (3 + fuel)). rewrite E1.
      change (3 + fuel)%nat with (S (2 + fuel)). rewrite E2.
      change (2 + fuel)%nat with (S (1 + fuel)). rewrite E3.
      exact E4.
    + rewrite L4, L3, L2. reflexivity.
    + rewrite M4, M3, M2, M1. reflexivity.
Qed.

(** The agent of [Sample.fail_pass_fail_fail] meets the hypotheses of
    the amended C3. *)
Lemma drain_all_success_resets_failures_witness :
  exists a1 a2 a4,
    burn_loop 4 (Sample.started Sample.fail_pass_fail_fail) = burn_loop 3 a1
    /\ failures a1 = 1
    /\ burn_loop 3 a1 = burn_loop 2 a2 /\ failures a2 = 0
    /\ burn_loop 4 (Sample.started Sample.fail_pass_fail_fail) = burn_loop 0 a4
    /\ failures a4 = 2
    /\ fires_made a4 = 1.
Proof.
  apply (proj2 drain_all_success_resets_failures 0%nat
               (Sample.started Sample.fail_pass_fail_fail)).
  - reflexivity.
  - reflexivity.
  - intros i Hi. exists 3. split; [|discriminate].
    destruct i as [|[|[|[|i]]]]; try reflexivity. lia.
  - reflexivity.
  - reflexivity.
  - reflexivity.
  - reflexivity.
Defined.

End AgentFacts.

(* ------------------------------------------------------------------ *)
(** ** window_manager.py: readiness and coordinate mapping *)
(* ------------------------------------------------------------------ *)

Module WindowFacts.
Import Env Py WindowManager.

Lemma is_ready_run (w : World) :
  is_ready w = (Ok (match window_config w with PNone => false | _ => true end), w).
Proof. reflexivity. Qed.

Lemma get_absolute_coords_region (w : World) (R : Region.t) (dx dy : Z) :
  window_config w = Region.to_py R ->
  get_absolute_coords dx dy w = (Ok (Region.x R + dx, Region.y R + dy), w).
Proof.
  intros H. unfold get_absolute_coords, bind, get. rewrite H. reflexivity.
Qed.

Lemma get_absolute_coords_none (w : World) (dx dy : Z) :
  window_config w = PNone ->
  get_absolute_coords dx dy w = (Raise (ValueError "No window config available"), w).
Proof.
  intros H. unfold get_absolute_coords, bind, get. rewrite H. reflexivity.
Qed.

(** C6. With a Region stored, [get_absolute_coords(dx, dy)] returns
    exactly [(x + dx, y + dy)], for every point, inside the region or
    not; with no region stored ([is_ready()] false) it raises the
    "No window config available" error and returns nothing. *)
Theorem get_absolute_coords_adds_origin (w : World) (R : Region.t) (dx dy : Z) :
  let stored := set_window_config (Region.to_py R) w in
  let empty := set_window_config PNone w in
  is_ready stored = (Ok true, stored)
  /\ get_absolute_coords dx dy stored
     = (Ok (Region.x R + dx, Region.y R + dy), stored)
  /\ is_ready empty = (Ok false, empty)
  /\ get_absolute_coords dx dy empty
     = (Raise (ValueError "No window config available"), empty)
  /\ (forall w', fst (is_ready w') = Ok false ->
        fst (get_absolute_coords dx dy w')
        = Raise (ValueError "No window config available")).
Proof.
  intros stored empty.
  split; [reflexivity|].
  split; [apply get_absolute_coords_region; reflexivity|].
  split; [reflexivity|].
  split; [apply get_absolute_coords_none; reflexivity|].
  intros w' Hready. rewrite is_ready_run in Hready. cbn [fst] in Hready.
  destruct (window_config w') eqn:Hcfg; try discriminate.
  rewrite (get_absolute_coords_none w' dx dy Hcfg). reflexivity.
Qed.

(** C2, as stated, fails: a Region of width 0, read back from the
    persisted file when the window manager starts, is ready, and a point
    is mapped against it. *)
Lemma zero_width_region_is_ready :
  let file := Json.dumps (Region.to_py Sample.flat) in
  let w := snd (init (Sample.world Sample.quiet (Some file) PNone)) in
  Region.width Sample.flat = 0
  /\ window_config w = Region.to_py Sample.flat
  /\ fst (is_ready w) = Ok true
  /\ fst (get_absolute_coords 5 7 w) = Ok (15, 27).
Proof. vm_compute. repeat split; reflexivity. Qed.

(** The one place that checks sizes: every match that window detection
    collects has a positive width and a positive height. *)
Lemma search_windows_positive :
  forall (window : xwindow) (name_filter : string) (results : list Region.t),
    Forall Region.positive_size results ->
    Forall Region.positive_size (_search_windows window name_filter results).
Proof.
  fix IH 1.
  intros [wm_name geometry children] name_filter results Hres.
  cbn [_search_windows].
  match goal with
  | |- context [match children with Some _ => _ | None => ?r end] =>
      assert (H1 : Forall Region.positive_size r); [|generalize dependent r]
  end.
  - destruct (_get_window_name wm_name) as [name|]; [|exact Hres].
    destruct (truthy name && contains (lower name_filter) (lower name));
      [|exact Hres].
    destruct (_get_window_geometry geometry) as [[[[gx gy] gw] gh]|]; [|exact Hres].
    destruct ((0 <? gw) && (0 <? gh)) eqn:Hpos; [|exact Hres].
    apply andb_prop in Hpos. destruct Hpos as [Hw Hh].
    apply Z.ltb_lt in Hw, Hh.
    apply Forall_app. split; [exact Hres|].
    constructor; [split; assumption | constructor].
  - intros results1 H1.
    destruct children as [cs|]; [|exact H1].
    revert results1 H1.
    induction cs as [|child rest IHrest]; intros results1 H1.
    + exact H1.
    + apply IHrest. apply IH. exact H1.
Qed.

(** C2, amended. [is_ready()] is false exactly when no window
    configuration is stored; a stored Region is ready whatever its width
    and height, width 0 included, and a point is mapped against it as
    [(x + dx, y + dy)]; the sizes are checked on the candidates of window
    detection only, all of whose matches have a positive width and
    height. *)
Theorem ready_iff_config_stored :
  (forall w : World, fst (is_ready w) = Ok false <-> window_config w = PNone)
  /\ (forall (w : World) (R : Region.t) (dx dy : Z),
         let stored := set_window_config (Region.to_py R) w in
         fst (is_ready stored) = Ok true
         /\ fst (get_absolute_coords dx dy stored)
            = Ok (Region.x R + dx, Region.y R + dy))
  /\ (forall (root : xwindow) (name_filter : string),
         Forall Region.positive_size (_search_windows root name_filter [])).
Proof.
  split; [|split].
  - intros w. rewrite is_ready_run. cbn [fst]. split.
    + destruct (window_config w); intros H; try discriminate; reflexivity.
    + intros H. rewrite H. reflexivity.
  - intros w R dx dy stored. split; [reflexivity|].
    unfold stored. rewrite (get_absolute_coords_region _ R); reflexivity.
  - intros root name_filter. apply search_windows_positive. constructor.
Qed.

End WindowFacts.

(* ------------------------------------------------------------------ *)
(** ** Which computations return *)
(* ------------------------------------------------------------------ *)

Module OutcomeFacts.
Import Env Py.

Section Combinators.
Context {W : Type}.

Lemma returns_ret {A} (a : A) : returns (ret a : M W A).
Proof. intros w. exists a, w. reflexivity. Qed.

Lemma returns_get {A} (f : W -> A) : returns (get f).
Proof. intros w. exists (f w), w. reflexivity. Qed.

Lemma returns_modify (f : W -> W) : returns (modify f).
Proof. intros w. exists tt, (f w). reflexivity. Qed.

Lemma returns_bind {A B} (m : M W A) (k : A -> M W B) :
  returns m -> (forall a, returns (k a)) -> returns (bind m k).
Proof.
  intros Hm Hk w. destruct (Hm w) as (a & w1 & E).
  destruct (Hk a w1) as (b & w2 & E2).
  exists b, w2. unfold bind. rewrite E. exact E2.
Qed.

Lemma returns_catchable {A} (m : M W A) : returns m -> catchable m.
Proof. intros Hm w. left. apply Hm. Qed.

Lemma catchable_raise {A} (e : exn) :
  is_Exception e = true -> catchable (raise e : M W A).
Proof. intros He w. right. exists e, w. split; [reflexivity | exact He]. Qed.

Lemma catchable_bind {A B} (m : M W A) (k : A -> M W B) :
  catchable m -> (forall a, catchable (k a)) -> catchable (bind m k).
Proof.
  intros Hm Hk w. unfold bind.
  destruct (Hm w) as [(a & w1 & E) | (e & w1 & E & He)]; rewrite E.
  - apply Hk.
  - right. exists e, w1. split; [reflexivity | exact He].
Qed.

Lemma catchable_lift {A} (r : res A) :
  (forall e, r = Raise e -> is_Exception e = true) -> catchable (lift r : M W A).
Proof.
  intros Hr w. unfold lift. destruct r as [a | e].
  - left. exists a, w. reflexivity.
  - right. exists e, w. split; [reflexivity | apply Hr; reflexivity].
Qed.

(** [except Exception] leaves nothing of a catchable body uncaught. *)
Lemma returns_try_Exception {A} (m : M W A) (h : exn -> M W A) :
  catchable m -> (forall e, returns (h e)) -> returns (try_except m Exception h).
Proof.
  intros Hm Hh w. unfold try_except.
  destruct (Hm w) as [(a & w1 & E) | (e & w1 & E & He)]; rewrite E.
  - exists a, w1. reflexivity.
  - unfold Exception. rewrite He. apply Hh.
Qed.

(** A bare [except:] leaves nothing uncaught, whatever the body. *)
Lemma returns_try_anything {A} (m : M W A) (h : exn -> M W A) :
  (forall e, returns (h e)) -> returns (try_except m anything h).
Proof.
  intros Hh w. unfold try_except.
  destruct (m w) as [[a | e] w1].
  - exists a, w1. reflexivity.
  - apply Hh.
Qed.

Context `{Traced W}.

Lemma returns_emit (e : event) : returns (emit e : M W unit).
Proof. apply returns_modify. Qed.

Lemma returns_log (lvl : level) (msg : string) : returns (Logger.log lvl msg : M W unit).
Proof.
  unfold Logger.log. destruct (_ <=? _); [apply returns_emit | apply returns_ret].
Qed.

End Combinators.

(** Steps through a computation that always returns. *)
Ltac returns_step :=
  lazymatch goal with
  | |- returns (bind _ _) => apply returns_bind; [|intros ?]
  | |- returns (ret _) => apply returns_ret
  | |- returns (get _) => apply returns_get
  | |- returns (modify _) => apply returns_modify
  | |- returns (emit _) => apply returns_emit
  | |- returns (Logger.log _ _) => apply returns_log
  | |- returns (Logger.info _) => apply returns_log
  | |- returns (Logger.debug _) => apply returns_log
  | |- returns (Logger.warning _) => apply returns_log
  | |- returns (Logger.error _) => apply returns_log
  | |- returns (Logger.log_success _) => apply returns_log
  | |- returns (Logger.log_error _ _) => apply returns_log
  | |- returns (Logger.log_action _ _) => apply returns_log
  | |- returns (Logger.log_skill _ _) => apply returns_log
  | |- returns (Logger.log_vision _) => apply returns_log
  | |- returns (Logger.log_click _ _ _) => apply returns_log
  | |- returns (if ?b then _ else _) => destruct b
  | |- returns (match ?x with _ => _ end) => destruct x
  end.

Ltac catchable_step :=
  lazymatch goal with
  | |- catchable (bind _ _) => apply catchable_bind; [|intros ?]
  | |- catchable (raise _) => apply catchable_raise; reflexivity
  | |- catchable (if ?b then _ else _) => destruct b
  | |- catchable (match ?x with _ => _ end) => destruct x
  | |- catchable _ => apply returns_catchable; repeat returns_step
  end.

End OutcomeFacts.

(* ------------------------------------------------------------------ *)
(** ** vision.py and skills.py: reading the provider's answer *)
(* ------------------------------------------------------------------ *)

Module PerceptionFacts.
Import Env Py OutcomeFacts.

Lemma subscript_catchable (v : pyval) (k : string) :
  catchable (lift (subscript v k) : M World pyval).
Proof.
  apply catchable_lift. intros e.
  destruct v; simpl; try (intros [= <-]; reflexivity).
  destruct (dict_get d k); intros [= <-]. reflexivity.
Qed.

Lemma is_ready_returns : returns WindowManager.is_ready.
Proof. unfold WindowManager.is_ready. repeat returns_step. Qed.

Lemma get_region_returns (w : World) :
  WindowManager.geometry_keys (window_config w) = true ->
  exists region, WindowManager.get_region w = (Ok region, if bool_of (window_config w) then w else set_trace (Log ERROR "No window config available" :: trace w) w).
Proof.
  unfold WindowManager.geometry_keys, WindowManager.get_region, bind, get.
  destruct (bool_of (window_config w)) eqn:Hb; cbn [negb orb].
  - destruct (window_config w); try discriminate.
    unfold lift, subscript.
    destruct (dict_get d "x"), (dict_get d "y"), (dict_get d "width"),
      (dict_get d "height"); try discriminate.
    intros _. eexists. reflexivity.
  - intros _. eexists. reflexivity.
Qed.

Lemma grab_catchable (region : pyval) : catchable (ScreenCapture.grab region).
Proof.
  unfold ScreenCapture.grab.
  destruct region; repeat catchable_step.
Qed.

Lemma save_screenshot_catchable (image : ScreenCapture.Image) :
  catchable (ScreenCapture._save_screenshot image).
Proof. unfold ScreenCapture._save_screenshot. repeat catchable_step. Qed.

(** With a configuration [get_region] can read, [capture] always
    returns: a frame, or [None]. *)
Lemma capture_returns (save annotate : bool) (boxes : option (list ScreenCapture.box))
      (w : World) :
  WindowManager.geometry_keys (window_config w) = true ->
  exists shot w', ScreenCapture.capture save annotate boxes w = (Ok shot, w').
Proof.
  intros Hk. unfold ScreenCapture.capture.
  unfold bind at 1. rewrite WindowFacts.is_ready_run.
  destruct (match window_config w with PNone => false | _ => true end); cbn [negb].
  - unfold bind at 1.
    destruct (get_region_returns w Hk) as [region E]. rewrite E.
    apply returns_try_Exception.
    + apply catchable_bind; [apply grab_catchable | intros image].
      apply catchable_bind.
      * destruct save; [apply save_screenshot_catchable|].
        apply returns_catchable, returns_ret.
      * intros _. apply returns_catchable, returns_ret.
    + intros e. repeat returns_step.
  - assert (R : returns (Logger.error "Window manager not ready" ;;
                         ret (None : option ScreenCapture.Image))%py)
      by repeat returns_step.
    apply R.
Qed.

Lemma request_catchable (image : ScreenCapture.Image) (prompt : string) :
  catchable (Vision.request image prompt).
Proof. unfold Vision.request. repeat catchable_step. Qed.

(** The perception client never raises: it answers with a text or [None]. *)
Lemma analyze_returns (image : ScreenCapture.Image) (prompt : string) :
  returns (Vision.analyze_screenshot image prompt).
Proof.
  unfold Vision.analyze_screenshot.
  apply returns_bind; [apply returns_get | intros has_client].
  destruct (negb has_client); [repeat returns_step|].
  apply returns_try_Exception.
  - apply catchable_bind; [apply returns_catchable, returns_get | intros prov].
    destruct (String.eqb prov "anthropic").
    { apply catchable_bind; [apply request_catchable | intros r].
      apply returns_catchable, returns_ret. }
    destruct (String.eqb prov "openai").
    { apply catchable_bind; [apply request_catchable | intros r].
      apply returns_catchable, returns_ret. }
    apply returns_catchable. repeat returns_step.
  - intros e. repeat returns_step.
Qed.

(** With no client configured the answer is [None]. *)
Lemma analyze_unavailable (image : ScreenCapture.Image) (prompt : string) (w : World) :
  client w = false ->
  fst (Vision.analyze_screenshot image prompt w) = Ok None.
Proof.
  intros Hc. unfold Vision.analyze_screenshot, bind, get. rewrite Hc. reflexivity.
Qed.

Lemma truthy_false_empty (r : string) : truthy r = false -> r = "".
Proof. destruct r; [reflexivity | discriminate]. Qed.

Lemma find_slot_locates (prompt warning : string) :
  Vision.locates prompt (Vision.find_slot prompt warning).
Proof.
  intros image w.
  destruct (analyze_returns image prompt w) as (response & w1 & E).
  exists response, w1. unfold Vision.find_slot, bind. rewrite E.
  destruct response as [r|].
  - destruct (truthy r) eqn:Ht.
    + unfold try_except, bind, lift, int.
      destruct (parse_int (strip r)) as [n|] eqn:Hp.
      * destruct (0 <=? n) eqn:Hn; eexists; eexists; (split; [reflexivity|]);
          (split; [reflexivity|]); intros k; split.
        -- intros [= <-]. exists r. apply Z.leb_le in Hn. auto.
        -- intros (r' & [= <-] & Hp' & Hk). congruence.
        -- discriminate.
        -- intros (r' & [= <-] & Hp' & Hk). apply Z.leb_gt in Hn.
           assert (k = n) by congruence. lia.
      * eexists; eexists. split; [reflexivity|]. split; [reflexivity|].
        intros k; split; [discriminate|].
        intros (r' & [= <-] & Hp' & _). congruence.
    + apply truthy_false_empty in Ht. subst r.
      eexists; eexists. split; [reflexivity|]. split; [reflexivity|].
      intros k; split; [discriminate|].
      intros (r' & [= <-] & Hp' & _). discriminate.
  - eexists; eexists. split; [reflexivity|]. split; [reflexivity|].
    intros k; split; [discriminate|].
    intros (r' & Hr & _). discriminate.
Qed.

(** The generic search: it returns; a slot it returns is the integer the
    answer reads as, and not negative; an answer that reads as a
    positive integer is returned. *)
Lemma find_generic_locates (image : ScreenCapture.Image) (item : string) (w : World) :
  exists response w1 slot w2,
    Vision.analyze_screenshot image (Skills.generic_prompt item) w = (Ok response, w1)
    /\ Skills.find_generic image item w = (Ok slot, w2)
    /\ (forall n, slot = Some n ->
                  exists r, response = Some r
                            /\ parse_int (strip r) = Some n /\ 0 <= n)
    /\ (forall r n, response = Some r -> parse_int (strip r) = Some n ->
                    0 < n -> slot = Some n)
    /\ (forall r n, response = Some r -> parse_int (strip r) = Some n ->
                    n < 0 -> slot = None)
    /\ (forall r, response = Some r -> parse_int (strip r) = None -> slot = None)
    /\ (response = None -> slot = None).
Proof.
  destruct (analyze_returns image (Skills.generic_prompt item) w)
    as (response & w1 & E).
  exists response, w1. unfold Skills.find_generic, bind at 1. rewrite E.
  destruct response as [r|].
  - destruct (truthy r) eqn:Ht.
    + unfold try_except, bind, lift, int.
      destruct (parse_int (strip r)) as [n|] eqn:Hp.
      * cbn [ret].
        destruct (negb (n =? 0) && (0 <=? n)) eqn:Hn;
          eexists; eexists; (split; [reflexivity|]); (split; [reflexivity|]).
        -- apply andb_prop in Hn. destruct Hn as [_ Hn]. apply Z.leb_le in Hn.
           repeat split.
           ++ intros k [= <-]. exists r. auto.
           ++ intros r' k [= <-] Hp' _. congruence.
           ++ intros r' k [= <-] Hp' Hk. assert (k = n) by congruence. lia.
           ++ intros r' [= <-] Hp'. congruence.
           ++ discriminate.
        -- repeat split; try discriminate; try reflexivity.
           intros r' k [= <-] Hp' Hk. assert (k = n) by congruence. subst k.
           apply andb_false_iff in Hn. destruct Hn as [Hn | Hn].
           ++ apply negb_false_iff, Z.eqb_eq in Hn. lia.
           ++ apply Z.leb_gt in Hn. lia.
      * cbn [anything ret].
        eexists; eexists. split; [reflexivity|]. split; [reflexivity|].
        repeat split; try discriminate; try reflexivity.
        intros r' k [= <-] Hp' _. congruence.
    + apply truthy_false_empty in Ht. subst r.
      unfold try_except, bind. cbn [ret].
      eexists; eexists. split; [reflexivity|]. split; [reflexivity|].
      repeat split; try discriminate; try reflexivity.
      intros r' k [= <-] Hp' _. discriminate.
  - unfold try_except, bind. cbn [ret].
    eexists; eexists. split; [reflexivity|]. split; [reflexivity|].
    repeat split; try discriminate; try reflexivity.
Qed.

Lemma log_action_run (action details : string) (w : World) :
  exists msg, Logger.log_action action details w
              = (Ok tt, set_trace (Log INFO msg :: trace w) w).
Proof. eexists. reflexivity. Qed.

(** [find_item_visual] returns, and never a negative slot. *)
Lemma find_item_visual_returns (item : string) (w : World) :
  WindowManager.geometry_keys (window_config w) = true ->
  exists slot w',
    Skills.find_item_visual item w = (Ok slot, w')
    /\ (forall n, slot = Some n -> 0 <= n).
Proof.
  intros Hk. unfold Skills.find_item_visual.
  unfold bind at 1. destruct (log_action_run "FIND_ITEM" item w) as [msg E0].
  rewrite E0. unfold bind at 1.
  destruct (capture_returns false false None
              (set_trace (Log INFO msg :: trace w) w) Hk) as (shot & w1 & E1).
  rewrite E1. destruct shot as [shot|].
  - assert (Hfind : exists slot w2,
               (if String.eqb (lower item) "tinderbox"
                then Vision.find_tinderbox shot
                else if contains "log" (lower item)
                     then Vision.find_logs shot
                     else Skills.find_generic shot item) w1 = (Ok slot, w2)
               /\ (forall n, slot = Some n -> 0 <= n)).
    { destruct (String.eqb (lower item) "tinderbox");
        [|destruct (contains "log" (lower item))].
      - destruct (find_slot_locates Vision.tinderbox_prompt
                    "Failed to parse tinderbox slot" shot w1)
          as (resp & w' & slot & w2 & _ & E & Hs).
        exists slot, w2. split; [exact E|].
        intros n Hn. apply Hs in Hn. destruct Hn as (_ & _ & _ & Hn). exact Hn.
      - destruct (find_slot_locates Vision.logs_prompt
                    "Failed to parse logs slot" shot w1)
          as (resp & w' & slot & w2 & _ & E & Hs).
        exists slot, w2. split; [exact E|].
        intros n Hn. apply Hs in Hn. destruct Hn as (_ & _ & _ & Hn). exact Hn.
      - destruct (find_generic_locates shot item w1)
          as (resp & w' & slot & w2 & _ & E & Hs & _).
        exists slot, w2. split; [exact E|].
        intros n Hn. apply Hs in Hn. destruct Hn as (_ & _ & _ & Hn). exact Hn. }
    destruct Hfind as (slot & w2 & E2 & Hs).
    unfold bind at 1. rewrite E2.
    exists slot. destruct slot as [n|]; eexists; (split; [reflexivity | exact Hs]).
  - exists None, w1. split; [reflexivity | discriminate].
Qed.

(** C1, as stated, fails: an answer outside the inventory's slots 0-27
    is returned as a slot, by the helper and by the skill built on it. *)
Lemma out_of_range_slot_returned :
  fst (Vision.find_tinderbox Sample.frame0 (Sample.playing "28")) = Ok (Some 28)
  /\ fst (Skills.find_item_visual "tinderbox" (Sample.playing "28")) = Ok (Some 28)
  /\ fst (Skills.find_item_visual "logs" (Sample.playing "1000")) = Ok (Some 1000)
  /\ ~ (0 <= 28 <= 27).
Proof.
  repeat split; try (vm_compute; reflexivity). lia.
Qed.

(** C1, amended. Each locate helper returns and never raises. The two
    named helpers return slot [n] exactly when the stripped answer reads
    as the integer [n] and [0 <= n], with no upper bound; the generic
    search returns [n] whenever the answer reads as an integer [n > 0].
    A negative value, an answer that is no integer, an empty answer and
    an unavailable provider all give [None]. [find_item_visual] itself
    returns, and never a negative slot, as long as the stored window
    configuration is one [get_region] can read. *)
Theorem locate_contract :
  Vision.locates Vision.tinderbox_prompt Vision.find_tinderbox
  /\ Vision.locates Vision.logs_prompt Vision.find_logs
  /\ (forall image item w,
        exists response w1 slot w2,
          Vision.analyze_screenshot image (Skills.generic_prompt item) w
          = (Ok response, w1)
          /\ Skills.find_generic image item w = (Ok slot, w2)
          /\ (forall n, slot = Some n ->
                exists r, response = Some r
                          /\ parse_int (strip r) = Some n /\ 0 <= n)
          /\ (forall r n, response = Some r -> parse_int (strip r) = Some n ->
                0 < n -> slot = Some n)
          /\ (forall r n, response = Some r -> parse_int (strip r) = Some n ->
                n < 0 -> slot = None)
          /\ (forall r, response = Some r -> parse_int (strip r) = None ->
                slot = None)
          /\ (response = None -> slot = None))
  /\ (forall image prompt w,
        client w = false ->
        fst (Vision.analyze_screenshot image prompt w) = Ok None)
  /\ (forall item w,
        WindowManager.geometry_keys (window_config w) = true ->
        exists slot w',
          Skills.find_item_visual item w = (Ok slot, w')
          /\ (forall n, slot = Some n -> 0 <= n)).
Proof.
  split; [apply find_slot_locates|].
  split; [apply find_slot_locates|].
  split; [apply find_generic_locates|].
  split; [apply analyze_unavailable|].
  apply find_item_visual_returns.
Qed.

(** A world that has the window meets the hypothesis of the amended C1. *)
Lemma locate_contract_witness :
  exists slot w',
    Skills.find_item_visual "tinderbox" (Sample.playing "7") = (Ok slot, w')
    /\ (forall n, slot = Some n -> 0 <= n).
Proof.
  apply (proj2 (proj2 (proj2 (proj2 locate_contract)))).
  reflexivity.
Defined.

Lemma count_logs_run (w : World) (shot : ScreenCapture.Image) (w1 : World) :
  ScreenCapture.capture false false None w = (Ok (Some shot), w1) ->
  exists response w2 n w3,
    Vision.analyze_screenshot shot Skills.count_prompt w1 = (Ok response, w2)
    /\ Skills.count_logs_in_inventory w = (Ok n, w3)
    /\ (forall r k, response = Some r -> parse_int (strip r) = Some k -> n = k)
    /\ (forall r, response = Some r -> parse_int (strip r) = None -> n = 0)
    /\ (response = None -> n = 0).
Proof.
  intros Hcap.
  destruct (analyze_returns shot Skills.count_prompt w1) as (response & w2 & E).
  exists response, w2.
  unfold Skills.count_logs_in_inventory, bind at 1. rewrite Hcap.
  unfold bind at 1. rewrite E.
  destruct response as [r|].
  - destruct (truthy r) eqn:Ht.
    + unfold try_except, bind at 1, bind at 1, lift, int.
      destruct (parse_int (strip r)) as [n|] eqn:Hp.
      * rewrite debug_run. cbn [ret].
        exists n, w2. split; [reflexivity|]. split; [reflexivity|].
        repeat split; try discriminate.
        -- intros r' k [= <-] Hp'. congruence.
        -- intros r' [= <-] Hp'. congruence.
      * cbn [anything]. unfold bind. rewrite warning_run. cbn [ret].
        eexists 0, _. split; [reflexivity|]. split; [reflexivity|].
        repeat split.
        intros r' k [= <-] Hp'. congruence.
    + apply truthy_false_empty in Ht. subst r.
      unfold try_except, bind at 1, bind at 1. cbn [ret]. rewrite debug_run. cbn [ret].
      exists 0, w2. split; [reflexivity|]. split; [reflexivity|].
      repeat split.
      intros r' k [= <-] Hp'. discriminate.
  - unfold try_except, bind at 1, bind at 1. cbn [ret]. rewrite debug_run. cbn [ret].
    exists 0, w2. split; [reflexivity|]. split; [reflexivity|].
    repeat split; discriminate.
Qed.

(** C7, as stated, fails: an answer that reads as a negative integer is
    returned as the count, which is then neither a non-negative integer
    nor 0. *)
Lemma negative_count_returned :
  fst (Skills.count_logs_in_inventory (Sample.playing "-3")) = Ok (-3)
  /\ -3 < 0.
Proof. split; [vm_compute; reflexivity | lia]. Qed.

(** C7, amended. [count_logs_in_inventory] returns and never raises, as
    long as the stored window configuration is one [get_region] can
    read. When no frame is captured it returns 0. Otherwise it returns
    the integer the stripped answer reads as, whatever its sign, and 0
    when there is no answer or the answer is no integer. *)
Theorem count_logs_contract (w : World) :
  WindowManager.geometry_keys (window_config w) = true ->
  exists shot w1,
    ScreenCapture.capture false false None w = (Ok shot, w1)
    /\ match shot with
       | None => Skills.count_logs_in_inventory w = (Ok 0, w1)
       | Some image =>
           exists response w2 n w3,
             Vision.analyze_screenshot image Skills.count_prompt w1
             = (Ok response, w2)
             /\ Skills.count_logs_in_inventory w = (Ok n, w3)
             /\ (forall r k, response = Some r ->
                             parse_int (strip r) = Some k -> n = k)
             /\ (forall r, response = Some r ->
                           parse_int (strip r) = None -> n = 0)
             /\ (response = None -> n = 0)
       end.
Proof.
  intros Hk.
  destruct (capture_returns false false None w Hk) as (shot & w1 & E).
  exists shot, w1. split; [exact E|].
  destruct shot as [shot|].
  - apply count_logs_run. exact E.
  - unfold Skills.count_logs_in_inventory, bind. rewrite E. reflexivity.
Qed.

(** A world that has the window meets the hypothesis of the amended C7. *)
Lemma count_logs_contract_witness :
  exists shot w1,
    ScreenCapture.capture false false None (Sample.playing "12") = (Ok shot, w1)
    /\ match shot with
       | None => Skills.count_logs_in_inventory (Sample.playing "12") = (Ok 0, w1)
       | Some image =>
           exists response w2 n w3,
             Vision.analyze_screenshot image Skills.count_prompt w1
             = (Ok response, w2)
             /\ Skills.count_logs_in_inventory (Sample.playing "12") = (Ok n, w3)
             /\ (forall r k, response = Some r ->
                             parse_int (strip r) = Some k -> n = k)
             /\ (forall r, response = Some r ->
                           parse_int (strip r) = None -> n = 0)
             /\ (response = None -> n = 0)
       end.
Proof.
  apply (count_logs_contract (Sample.playing "12")). reflexivity.
Defined.

Example locate_seven :
  fst (Vision.find_tinderbox Sample.frame0 (Sample.playing "7")) = Ok (Some 7)
  /\ fst (Vision.find_logs Sample.frame0 (Sample.playing " 7
")) = Ok (Some 7).
Proof. split; vm_compute; reflexivity. Qed.

Example locate_nothing :
  fst (Vision.find_tinderbox Sample.frame0 (Sample.playing "-1")) = Ok None
  /\ fst (Vision.find_tinderbox Sample.frame0 (Sample.playing "slot 7")) = Ok None
  /\ fst (Vision.find_tinderbox Sample.frame0 (Sample.playing "")) = Ok None
  /\ fst (Skills.find_item_visual "axe" (Sample.playing "-1")) = Ok None
  /\ fst (Skills.find_item_visual "axe" (Sample.playing "9")) = Ok (Some 9).
Proof. repeat split; vm_compute; reflexivity. Qed.

Example count_examples :
  fst (Skills.count_logs_in_inventory (Sample.playing "12")) = Ok 12
  /\ fst (Skills.count_logs_in_inventory (Sample.playing "a dozen")) = Ok 0
  /\ fst (Skills.count_logs_in_inventory (Sample.playing "")) = Ok 0.
Proof. repeat split; vm_compute; reflexivity. Qed.

End PerceptionFacts.

(* ------------------------------------------------------------------ *)
(** ** action_executor.py and skills.py: actuation *)
(* ------------------------------------------------------------------ *)

Module ActuationFacts.
Import Env Py OutcomeFacts ActionExecutor.

Ltac world_simpl :=
  cbv beta iota zeta delta
      [bind ret get modify lift raise try_except Exception anything
       negb fst snd emit
       set_window_config set_config_file set_screenshot_count set_grabs
       set_vlm_calls set_gui_calls set_rand_calls set_trace
       events with_events World_Traced
       Logger.log_action Logger.log_success Logger.log_error Logger.log_skill
       Logger.log_click Logger.log_vision _human_delay];
  cbn [outside window_config config_file screenshot_count provider client
       inventory_start_x inventory_start_y grabs vlm_calls gui_calls
       rand_calls trace].

Ltac world_run :=
  repeat (world_simpl;
          rewrite ?info_run, ?warning_run, ?error_run, ?debug_run, ?wait_run,
            ?sleep_uniform_run).

Lemma resolves_ret {A} (a : A) : resolves (ret a).
Proof.
  intros w. exists (Ok a), w. split; [reflexivity|]. repeat split. discriminate.
Qed.

Lemma resolves_bind {A B} (m : M World A) (k : A -> M World B) :
  resolves m -> (forall a, resolves (k a)) -> resolves (bind m k).
Proof.
  intros Hm Hk w. unfold bind.
  destruct (Hm w) as (r & w1 & E & O & G & X & Y & He). rewrite E.
  destruct r as [a|e].
  - destruct (Hk a w1) as (r2 & w2 & E2 & O2 & G2 & X2 & Y2 & He2).
    exists r2, w2. split; [exact E2|]. repeat split; congruence || exact He2.
  - exists (Raise e), w1. split; [reflexivity|]. repeat split; try assumption.
    intros e' [= <-]. apply He. reflexivity.
Qed.

Lemma resolves_get {A} (f : World -> A) : resolves (get f).
Proof.
  intros w. exists (Ok (f w)), w. split; [reflexivity|]. repeat split. discriminate.
Qed.

Lemma resolves_lift {A} (r : res A) :
  (forall e, r = Raise e -> is_Exception e = true) -> resolves (lift r).
Proof.
  intros Hr w. exists r, w. split; [reflexivity|]. repeat split. exact Hr.
Qed.

Lemma add_int_raises (v : pyval) (n : Z) (e : exn) :
  add_int v n = Raise e -> is_Exception e = true.
Proof. destruct v; simpl; intros [= <-]; reflexivity. Qed.

Lemma subscript_raises (v : pyval) (k : string) (e : exn) :
  subscript v k = Raise e -> is_Exception e = true.
Proof.
  destruct v; simpl; try (intros [= <-]; reflexivity).
  destruct (dict_get d k); intros [= <-]. reflexivity.
Qed.

Lemma resolves_get_absolute_coords (x y : Z) :
  resolves (WindowManager.get_absolute_coords x y).
Proof.
  unfold WindowManager.get_absolute_coords.
  apply resolves_bind; [apply resolves_get | intros cfg].
  destruct (negb (bool_of cfg)).
  - intros w. exists (Raise (ValueError "No window config available")), w.
    split; [reflexivity|]. repeat split. intros e [= <-]. reflexivity.
  - apply resolves_bind; [apply resolves_lift, subscript_raises | intros cx].
    apply resolves_bind; [apply resolves_lift, add_int_raises | intros ax].
    apply resolves_bind; [apply resolves_lift, subscript_raises | intros cy].
    apply resolves_bind; [apply resolves_lift, add_int_raises | intros ay].
    apply resolves_ret.
Qed.

(** The jitter draws twice from the random source and changes nothing
    else. *)
Lemma resolves_randomize_point (x y : Z) : resolves (_randomize_point x y 3).
Proof.
  intros w. eexists; eexists. split; [reflexivity|]. repeat split. discriminate.
Qed.

Lemma resolves_resolve (x y : Z) (relative randomize : bool) :
  resolves (resolve x y relative randomize).
Proof.
  unfold resolve. apply resolves_bind.
  - destruct relative; [apply resolves_get_absolute_coords | apply resolves_ret].
  - intros p. destruct randomize;
      [apply resolves_randomize_point | apply resolves_ret].
Qed.

Lemma pyautogui_run (op : gui_op) (w : World) :
  pyautogui op w
  = match gui_fail (outside w) (gui_calls w) with
    | None =>
        (Ok tt, set_trace (Gui op None :: trace w)
                          (set_gui_calls (S (gui_calls w)) w))
    | Some m =>
        (Raise (External m),
         set_trace (Gui op (Some m) :: trace w)
                   (set_gui_calls (S (gui_calls w)) w))
    end.
Proof.
  unfold pyautogui. world_simpl.
  destruct (gui_fail (outside w) (gui_calls w)); reflexivity.
Qed.

Lemma silent_log (lvl : level) (msg : string) : silent (Logger.log lvl msg).
Proof.
  intros w. unfold Logger.log.
  destruct (_ <=? _); eexists; (split; [reflexivity|]); split; reflexivity.
Qed.

Lemma silent_emit (e : event) : silent (emit e).
Proof. intros w. eexists. split; [reflexivity|]. split; reflexivity. Qed.

Lemma silent_bind (m k : M World unit) :
  silent m -> silent k -> silent (m ;; k).
Proof.
  intros Hm Hk w. destruct (Hm w) as (w1 & E1 & G1 & O1).
  destruct (Hk w1) as (w2 & E2 & G2 & O2).
  exists w2. unfold bind. rewrite E1. split; [exact E2|].
  split; congruence.
Qed.

(** A guarded block of one input call. *)
Lemma one_call_run (text : string) (op : gui_op) (rest : M World unit) (w : World) :
  silent rest ->
  exists w',
    try_except (pyautogui op ;; rest) Exception
               (fun e => Logger.error (text ++ str_exn e)) w = (Ok tt, w')
    /\ gui_calls w' = S (gui_calls w)
    /\ forall m, gui_fail (outside w) (gui_calls w) = Some m ->
                 hd_error (trace w') = Some (Log ERROR (text ++ m)).
Proof.
  intros Hrest. unfold try_except, bind at 1. rewrite pyautogui_run.
  destruct (gui_fail (outside w) (gui_calls w)) as [m|] eqn:Hm.
  - cbn [Exception is_Exception]. rewrite error_run. world_simpl.
    eexists. split; [reflexivity|]. split; [reflexivity|].
    intros m' [= <-]. reflexivity.
  - destruct (Hrest (set_trace (Gui op None :: trace w)
                       (set_gui_calls (S (gui_calls w)) w)))
      as (w' & E & G & _).
    rewrite E. exists w'. split; [reflexivity|]. split; [exact G|].
    discriminate.
Qed.

(** A guarded block of two input calls. *)
Lemma two_calls_run (text : string) (op1 op2 : gui_op)
      (between rest : M World unit) (w : World) :
  silent between -> silent rest ->
  exists w',
    try_except (pyautogui op1 ;; between ;; pyautogui op2 ;; rest) Exception
               (fun e => Logger.error (text ++ str_exn e)) w = (Ok tt, w')
    /\ match gui_fail (outside w) (gui_calls w) with
       | Some m =>
           gui_calls w' = S (gui_calls w)
           /\ hd_error (trace w') = Some (Log ERROR (text ++ m))
       | None =>
           gui_calls w' = S (S (gui_calls w))
           /\ forall m, gui_fail (outside w) (S (gui_calls w)) = Some m ->
                        hd_error (trace w') = Some (Log ERROR (text ++ m))
       end.
Proof.
  intros Hbetween Hrest. unfold try_except, bind at 1. rewrite pyautogui_run.
  destruct (gui_fail (outside w) (gui_calls w)) as [m|] eqn:Hm.
  - cbn [Exception is_Exception]. rewrite error_run. world_simpl.
    eexists. split; [reflexivity|]. split; reflexivity.
  - unfold bind at 1.
    destruct (Hbetween (set_trace (Gui op1 None :: trace w)
                          (set_gui_calls (S (gui_calls w)) w)))
      as (w1 & E1 & G1 & O1).
    cbn [gui_calls outside set_trace set_gui_calls] in G1, O1.
    rewrite E1. unfold bind at 1. rewrite pyautogui_run. rewrite G1, O1.
    destruct (gui_fail (outside w) (S (gui_calls w))) as [m|] eqn:Hm2.
    + cbn [Exception is_Exception]. rewrite error_run. world_simpl.
      eexists. split; [reflexivity|]. split; [reflexivity|].
      intros m' [= <-]. reflexivity.
    + match goal with
      | |- context [rest ?w0] =>
          destruct (Hrest w0) as (w2 & E2 & G2 & _); rewrite E2
      end.
      cbn [gui_calls set_trace set_gui_calls] in G2.
      exists w2. split; [reflexivity|]. split; [exact G2|]. discriminate.
Qed.

Lemma one_call_swallowing (text : string) (op : gui_op) (rest : M World unit) :
  silent rest ->
  swallowing text
    (try_except (pyautogui op ;; rest) Exception
                (fun e => Logger.error (text ++ str_exn e))).
Proof.
  intros Hrest w.
  destruct (one_call_run text op rest w Hrest) as (w' & E & G & Hm).
  exists w'. split; [exact E|].
  intros k msg Hk Hf. rewrite G in Hk.
  assert (k = gui_calls w) by lia. subst k. auto.
Qed.

Lemma two_calls_swallowing (text : string) (op1 op2 : gui_op)
      (between rest : M World unit) :
  silent between -> silent rest ->
  swallowing text
    (try_except (pyautogui op1 ;; between ;; pyautogui op2 ;; rest) Exception
                (fun e => Logger.error (text ++ str_exn e))).
Proof.
  intros Hbetween Hrest w.
  destruct (two_calls_run text op1 op2 between rest w Hbetween Hrest)
    as (w' & E & Hcase).
  exists w'. split; [exact E|].
  intros k msg Hk Hf.
  destruct (gui_fail (outside w) (gui_calls w)) as [m|] eqn:Hm.
  - destruct Hcase as (G & Hh). rewrite G in Hk.
    assert (k = gui_calls w) by lia. subst k.
    rewrite Hm in Hf. injection Hf as <-. auto.
  - destruct Hcase as (G & Hh). rewrite G in Hk.
    assert (k = gui_calls w \/ k = S (gui_calls w)) as [-> | ->] by lia.
    + congruence.
    + auto.
Qed.

(** A primitive: resolve the target, then run the guarded block. *)
Lemma resolved_then_swallowing {A} (pre : M World A) (text : string)
      (block : A -> M World unit) (w : World) :
  resolves pre ->
  (forall a, swallowing text (block a)) ->
  best_effort text (a <- pre ;; block a) w.
Proof.
  intros Hpre Hblock. unfold best_effort, bind.
  destruct (Hpre w) as (r & w1 & E & O & G & _ & _ & He). rewrite E.
  destruct r as [a|e].
  - destruct (Hblock a w1) as (w' & E' & Hk).
    exists (Ok tt), w'. split; [exact E'|]. split.
    + intros k msg Hrange Hf. rewrite <- G in Hrange. rewrite <- O in Hf.
      destruct (Hk k msg Hrange Hf). auto.
    + discriminate.
  - exists (Raise e), w1. split; [reflexivity|]. split.
    + intros k msg Hrange. lia.
    + intros e' [= <-]. auto.
Qed.

Lemma swallowing_best_effort (text : string) (block : M World unit) (w : World) :
  swallowing text block -> best_effort text block w.
Proof.
  intros Hblock. destruct (Hblock w) as (w' & E & Hk).
  exists (Ok tt), w'. split; [exact E|]. split.
  - intros k msg Hrange Hf. destruct (Hk k msg Hrange Hf). auto.
  - discriminate.
Qed.

Lemma bind_assoc {A B C} (m : M World A) (f : A -> M World B)
      (g : B -> M World C) (w : World) :
  bind m (fun a => bind (f a) g) w = bind (bind m f) g w.
Proof.
  unfold bind. destruct (m w) as [[a|e] w1]; [|reflexivity].
  destruct (f a w1) as [[b|e] w2]; reflexivity.
Qed.

Lemma click_best_effort (x y : Z) (relative randomize : bool)
      (item_name : option string) (button : string) (w : World) :
  best_effort "Failed to click: " (click x y relative randomize item_name button) w.
Proof.
  unfold click. apply resolved_then_swallowing; [apply resolves_resolve|].
  intros p. apply two_calls_swallowing.
  - apply silent_emit.
  - apply silent_bind; [apply silent_log | apply silent_emit].
Qed.

(** C8. Each of the six primitives, on every input and in every world:
    when an input-simulation call it makes fails, the primitive returns
    normally, its handler's error record (the primitive's prefix followed
    by the failure's text) is the latest event, and no further input
    call is made. What a primitive can still raise, it raises before
    making any input call. *)
Theorem actuation_failure_swallowed (p : primitive) (w : World) :
  exists r w',
    perform p w = (r, w')
    /\ (forall k msg,
          (gui_calls w <= k < gui_calls w')%nat ->
          gui_fail (outside w) k = Some msg ->
          r = Ok tt
          /\ hd_error (trace w') = Some (Log ERROR (failure_text p ++ msg))
          /\ gui_calls w' = S k)
    /\ (forall e, r = Raise e ->
          gui_calls w' = gui_calls w /\ is_Exception e = true).
Proof.
  change (best_effort (failure_text p) (perform p) w).
  destruct p; cbn [perform failure_text].
  - unfold move_mouse. apply resolved_then_swallowing; [apply resolves_resolve|].
    intros p. apply one_call_swallowing. apply silent_log.
  - apply click_best_effort.
  - apply click_best_effort.
  - unfold drag.
    match goal with
    | |- best_effort ?t (bind ?m (fun a => bind (@?f a) ?g)) ?w =>
        unfold best_effort; rewrite (bind_assoc m f g w);
        change (best_effort t (bind (bind m f) g) w)
    end.
    apply resolved_then_swallowing.
    + apply resolves_bind.
      * destruct relative; [|apply resolves_ret].
        apply resolves_bind; [apply resolves_get_absolute_coords | intros a].
        apply resolves_bind; [apply resolves_get_absolute_coords | intros b].
        apply resolves_ret.
      * intros ends. destruct randomize; [|apply resolves_ret].
        apply resolves_bind; [apply resolves_randomize_point | intros a].
        apply resolves_bind; [apply resolves_randomize_point | intros b].
        apply resolves_ret.
    + intros ends. cbv zeta. apply two_calls_swallowing.
      * apply silent_emit.
      * apply silent_bind; [apply silent_log | apply silent_emit].
  - unfold type_text. apply swallowing_best_effort, one_call_swallowing.
    apply silent_bind; [apply silent_log | apply silent_emit].
  - unfold press_key. apply swallowing_best_effort, one_call_swallowing.
    apply silent_bind; [apply silent_log | apply silent_emit].
Qed.

Example second_call_fails :
  let w := Sample.world Sample.jammed None (Region.to_py Sample.desk) in
  fst (click 100 200 true true (Some "logs") "left" w) = Ok tt
  /\ hd_error (trace (snd (click 100 200 true true (Some "logs") "left" w)))
     = Some (Log ERROR "Failed to click: device busy")
  /\ fst (move_mouse 1 2 true true (Sample.world Sample.quiet None PNone))
     = Raise (ValueError "No window config available").
Proof. repeat split; vm_compute; reflexivity. Qed.

Lemma click_catchable (x y : Z) (relative randomize : bool)
      (item_name : option string) (button : string) :
  catchable (click x y relative randomize item_name button).
Proof.
  intros w.
  destruct (click_best_effort x y relative randomize item_name button w)
    as (r & w' & E & _ & He).
  destruct r as [[]|e].
  - left. exists tt, w'. exact E.
  - right. exists e, w'. split; [exact E|]. apply (He e). reflexivity.
Qed.

(** A slot click never raises: it answers [True] or [False]. *)
Lemma click_inventory_slot_returns (slot : Z) (item_name : option string) :
  returns (Skills.click_inventory_slot slot item_name).
Proof.
  unfold Skills.click_inventory_slot. apply returns_try_Exception.
  - apply catchable_bind.
    + unfold Skills.get_slot_center. repeat catchable_step.
    + intros p. apply catchable_bind; [apply click_catchable | intros _].
      apply returns_catchable, returns_ret.
  - intros e. repeat returns_step.
Qed.

(** With the grid origin not set, a slot click fails before any input
    call and answers [False]. *)
Lemma click_inventory_slot_uncalibrated (slot : Z) (item_name : option string)
      (w : World) :
  inventory_start_x w = None \/ inventory_start_y w = None ->
  Skills.click_inventory_slot slot item_name w
  = (Ok false,
     set_trace
       (Log ERROR ("Failed to click slot " ++ str_int slot ++ ": "
                   ++ "Inventory not calibrated. Run calibrate_inventory() first")
          :: trace w) w).
Proof.
  intros H.
  match goal with |- _ = ?rhs => set (answer := rhs) end.
  unfold Skills.click_inventory_slot, Skills.get_slot_center.
  world_simpl.
  destruct H as [H | H]; rewrite H.
  - reflexivity.
  - destruct (inventory_start_x w); reflexivity.
Qed.

(** C10. When both locate calls of [use_item_on_item] return a slot, the
    skill returns [True] whatever the two slot clicks answer: each click
    returns a boolean that is dropped. With the grid origin not set both
    clicks answer [False], and the skill still returns [True]. *)
Theorem use_item_on_item_ignores_clicks
        (item1 item2 : string) (w : World) (slot1 slot2 : Z) (w1 w2 : World) :
  Skills.find_item_visual item1
    (snd (Logger.log_skill "use_item_on_item" (item1 ++ " -> " ++ item2) w))
  = (Ok (Some slot1), w1) ->
  Skills.find_item_visual item2 w1 = (Ok (Some slot2), w2) ->
  exists clicked1 w3 clicked2 w4 w',
    Skills.click_inventory_slot slot1 (Some item1) w2 = (Ok clicked1, w3)
    /\ Skills.click_inventory_slot slot2 (Some item2)
         (snd (wait (Some (3 # 10)%Q) w3)) = (Ok clicked2, w4)
    /\ Skills.use_item_on_item item1 item2 w = (Ok true, w')
    /\ (inventory_start_x w2 = None \/ inventory_start_y w2 = None ->
        clicked1 = false /\ clicked2 = false).
Proof.
  intros Hfind1 Hfind2.
  destruct (click_inventory_slot_returns slot1 (Some item1) w2)
    as (clicked1 & w3 & E1).
  destruct (click_inventory_slot_returns slot2 (Some item2)
              (snd (wait (Some (3 # 10)%Q) w3))) as (clicked2 & w4 & E2).
  exists clicked1, w3, clicked2, w4.
  eexists. split; [exact E1|]. split; [exact E2|]. split.
  - unfold Skills.use_item_on_item. unfold bind at 1.
    change (Logger.log_skill "use_item_on_item" (item1 ++ " -> " ++ item2) w)
      with (Ok tt, snd (Logger.log_skill "use_item_on_item"
                          (item1 ++ " -> " ++ item2) w)).
    cbv iota beta. unfold bind at 1. rewrite Hfind1.
    unfold bind at 1. rewrite Hfind2.
    unfold bind at 1. rewrite E1.
    unfold bind at 1. rewrite wait_run in *. cbn [snd] in E2.
    unfold bind at 1. rewrite E2.
    unfold bind. rewrite wait_run. reflexivity.
  - intros Hnone.
    rewrite (click_inventory_slot_uncalibrated slot1 (Some item1) w2 Hnone) in E1.
    injection E1 as <- <-.
    rewrite wait_run in E2. cbn [snd] in E2.
    rewrite click_inventory_slot_uncalibrated in E2.
    + injection E2 as <- _. split; reflexivity.
    + exact Hnone.
Qed.

(** With the provider answering 7 both items are located, so the
    hypotheses of C10 are met; the grid is not calibrated there. *)
Lemma use_item_on_item_ignores_clicks_witness :
  let w := Sample.playing "7" in
  let w0 := snd (Logger.log_skill "use_item_on_item" ("tinderbox" ++ " -> " ++ "logs") w) in
  let w1 := snd (Skills.find_item_visual "tinderbox" w0) in
  let w2 := snd (Skills.find_item_visual "logs" w1) in
  exists clicked1 w3 clicked2 w4 w',
    Skills.click_inventory_slot 7 (Some "tinderbox") w2 = (Ok clicked1, w3)
    /\ Skills.click_inventory_slot 7 (Some "logs")
         (snd (wait (Some (3 # 10)%Q) w3)) = (Ok clicked2, w4)
    /\ Skills.use_item_on_item "tinderbox" "logs" w = (Ok true, w')
    /\ (inventory_start_x w2 = None \/ inventory_start_y w2 = None ->
        clicked1 = false /\ clicked2 = false).
Proof.
  intros w w0 w1 w2.
  apply (use_item_on_item_ignores_clicks "tinderbox" "logs" w 7 7 w1 w2).
  - vm_compute. reflexivity.
  - vm_compute. reflexivity.
Defined.

End ActuationFacts.

(* ------------------------------------------------------------------ *)
(** ** json: what is dumped is loaded back *)
(* ------------------------------------------------------------------ *)

Module JsonFacts.
Import Py Json.

(** *** Integers *)

(** Evaluates the digit tests on the literal character in the goal. *)
Ltac eval_digit :=
  repeat match goal with
    | |- context [digit_of ?c] =>
        let v := eval vm_compute in (digit_of c) in
        change (digit_of c) with v
    | |- context [is_digit ?c] =>
        let v := eval vm_compute in (is_digit c) in
        change (is_digit c) with v
    end;
  cbv iota beta.

Lemma int_digits_acc (d : uint) (acc : positive) :
  int_digits (Zpos acc) (NilEmpty.string_of_uint d)
  = Some (Zpos (Pos.of_uint_acc d acc)).
Proof.
  revert acc.
  induction d; intros acc; cbn [NilEmpty.string_of_uint Pos.of_uint_acc];
    try reflexivity;
    cbn [int_digits]; eval_digit; rewrite <- IHd; f_equal; lia.
Qed.

Lemma int_digits_zero (d : uint) :
  int_digits 0 (NilEmpty.string_of_uint d) = Some (Z.of_N (Pos.of_uint d)).
Proof.
  induction d; cbn [NilEmpty.string_of_uint Pos.of_uint]; try reflexivity;
    cbn [int_digits]; eval_digit;
    first [exact IHd | apply (int_digits_acc d)].
Qed.

(** Reading the digits of a positive number gives the number back. *)
Lemma int_unsigned_pos (p : positive) :
  int_unsigned (NilEmpty.string_of_uint (Pos.to_uint p)) = Some (Zpos p).
Proof.
  assert (H : int_unsigned (NilEmpty.string_of_uint (Pos.to_uint p))
              = int_digits 0 (NilEmpty.string_of_uint (Pos.to_uint p))).
  { pose proof (DecimalPos.Unsigned.to_uint_nonnil p) as Hnil.
    destruct (Pos.to_uint p); try congruence;
      cbn [NilEmpty.string_of_uint int_unsigned int_digits]; eval_digit;
      reflexivity. }
  rewrite H, int_digits_zero, DecimalPos.Unsigned.of_to. reflexivity.
Qed.

(** A positive number is printed with no leading zero. *)
Lemma to_uint_leading (p : positive) :
  exists c tail,
    NilEmpty.string_of_uint (Pos.to_uint p) = String c tail
    /\ is_digit c = true /\ (ord c =? 48) = false.
Proof.
  pose proof (DecimalPos.Unsigned.to_uint_nonnil p) as Hnil.
  pose proof (DecimalPos.Unsigned.to_uint_nonzero p) as Hzero.
  assert (Hnorm : Pos.to_uint p = unorm (Pos.to_uint p)).
  { rewrite <- (DecimalPos.Unsigned.to_of (Pos.to_uint p)).
    rewrite DecimalPos.Unsigned.of_to. reflexivity. }
  destruct (Pos.to_uint p) as [|d|d|d|d|d|d|d|d|d|d] eqn:E; try congruence;
    try (eexists; eexists; split; [reflexivity|]; split; reflexivity).
  exfalso. rewrite DecimalFacts.unorm_D0 in Hnorm.
  unfold unorm in Hnorm.
  destruct (nzhead d) as [|u|u|u|u|u|u|u|u|u|u] eqn:Hd; try discriminate Hnorm.
  - injection Hnorm as ->. apply Hzero. reflexivity.
  - exact (DecimalFacts.nzhead_nonzero d u Hd).
Qed.

Lemma span_digits_uint (d : uint) (rest : string) :
  not_digit_first rest ->
  span_digits (NilEmpty.string_of_uint d ++ rest) = (NilEmpty.string_of_uint d, rest).
Proof.
  intros Hrest.
  induction d; cbn [NilEmpty.string_of_uint append];
    try (cbn [span_digits]; eval_digit; rewrite IHd; reflexivity).
  destruct rest as [|c r]; [reflexivity|].
  cbn [span_digits]. cbn in Hrest. rewrite Hrest. reflexivity.
Qed.

Lemma ends_number_not_digit (c : ascii) : ends_number c = true -> is_digit c = false.
Proof.
  unfold ends_number. intros H. apply orb_prop in H.
  destruct H as [H | H]; apply Z.eqb_eq in H;
    unfold is_digit, digit_of; rewrite H; reflexivity.
Qed.

Lemma float_follows_end (c : ascii) (r : string) :
  ends_number c = true -> float_follows (String c r) = false.
Proof.
  unfold ends_number. intros H. apply orb_prop in H.
  destruct r as [|d r]; [reflexivity|].
  unfold float_follows. destruct H as [H | H]; apply Z.eqb_eq in H;
    rewrite H; reflexivity.
Qed.

(** An integer is read back, and what ends it is left. *)
Lemma scan_number_str_int (n : Z) (c : ascii) (r : string) :
  ends_number c = true ->
  scan_number (str_int n ++ String c r) = Some (PInt n, String c r).
Proof.
  intros Hend. pose proof (ends_number_not_digit c Hend) as Hnd.
  pose proof (float_follows_end c r Hend) as Hff.
  assert (Hpos : forall p,
             scan_number (NilEmpty.string_of_uint (Pos.to_uint p) ++ String c r)
             = Some (PInt (Zpos p), String c r)
             /\ match_integer (NilEmpty.string_of_uint (Pos.to_uint p) ++ String c r)
                = Some (NilEmpty.string_of_uint (Pos.to_uint p), String c r)).
  { intros p.
    assert (Hm : match_integer
                   (NilEmpty.string_of_uint (Pos.to_uint p) ++ String c r)
                 = Some (NilEmpty.string_of_uint (Pos.to_uint p), String c r)).
    { pose proof (span_digits_uint (Pos.to_uint p) (String c r) Hnd) as Hspan.
      destruct (to_uint_leading p) as (c0 & tail & E & Hd & Hz).
      rewrite E in *. cbn [append] in *. unfold match_integer.
      rewrite Hz, Hd, Hspan. reflexivity. }
    split; [|exact Hm].
    unfold scan_number.
    destruct (to_uint_leading p) as (c0 & tail & E & Hd & Hz).
    assert (Hminus : (ord c0 =? 45) = false).
    { destruct c0 as [[] [] [] [] [] [] [] []]; try discriminate Hd; reflexivity. }
    rewrite E in Hm |- *. cbn [append] in Hm |- *. rewrite Hminus, Hm.
    rewrite Hff, <- E, int_unsigned_pos. reflexivity. }
  destruct n as [|p|p].
  - change (str_int 0) with "0". cbn [append]. unfold scan_number.
    change (ord "0"%char =? 45) with false. cbv iota. unfold match_integer.
    change (ord "0"%char =? 48) with true. cbv iota.
    rewrite Hff. reflexivity.
  - unfold str_int. cbn [Z.to_int NilZero.string_of_int NilZero.string_of_uint].
    pose proof (DecimalPos.Unsigned.to_uint_nonnil p) as Hnil.
    replace (NilZero.string_of_uint (Pos.to_uint p))
      with (NilEmpty.string_of_uint (Pos.to_uint p))
      by (unfold NilZero.string_of_uint; destruct (Pos.to_uint p); congruence).
    apply Hpos.
  - unfold str_int. cbn [Z.to_int NilZero.string_of_int].
    pose proof (DecimalPos.Unsigned.to_uint_nonnil p) as Hnil.
    replace (NilZero.string_of_uint (Pos.to_uint p))
      with (NilEmpty.string_of_uint (Pos.to_uint p))
      by (unfold NilZero.string_of_uint; destruct (Pos.to_uint p); congruence).
    cbn [append]. unfold scan_number. change (ord "-"%char =? 45) with true.
    cbv iota. destruct (Hpos p) as [_ Hm]. rewrite Hm.
    rewrite Hff, int_unsigned_pos. reflexivity.
Qed.

(** A numeral begins with a digit or a minus sign. *)
Lemma str_int_leading (n : Z) :
  exists c tail,
    str_int n = String c tail /\ (is_digit c = true \/ c = "-"%char).
Proof.
  destruct n as [|p|p].
  - exists "0"%char, EmptyString. split; [reflexivity | left; reflexivity].
  - destruct (to_uint_leading p) as (c & tail & E & Hd & _).
    exists c, tail. split; [|left; exact Hd].
    unfold str_int. cbn [Z.to_int NilZero.string_of_int].
    unfold NilZero.string_of_uint. rewrite <- E.
    pose proof (DecimalPos.Unsigned.to_uint_nonnil p).
    destruct (Pos.to_uint p); congruence.
  - eexists; eexists. split; [reflexivity | right; reflexivity].
Qed.

(** On a digit or a minus sign [scan_once] reads a number. *)
Lemma scan_once_number (fuel : nat) (c : ascii) (tail : string) :
  is_digit c = true \/ c = "-"%char ->
  scan_once (S fuel) (String c tail) = scan_number (String c tail).
Proof.
  intros [H | ->]; [|reflexivity].
  destruct c as [[] [] [] [] [] [] [] []]; try discriminate H; reflexivity.
Qed.

Lemma scan_once_str_int (fuel : nat) (n : Z) (c : ascii) (r : string) :
  ends_number c = true ->
  scan_once (S fuel) (str_int n ++ String c r) = Some (PInt n, String c r).
Proof.
  intros Hend.
  destruct (str_int_leading n) as (c0 & tail & E & Hc).
  rewrite <- (scan_number_str_int n c r Hend). rewrite E. cbn [append].
  apply scan_once_number. exact Hc.
Qed.

(** *** Strings *)

Lemma append_assoc (a b c : string) : ((a ++ b) ++ c)%string = (a ++ (b ++ c))%string.
Proof. induction a as [|x a IH]; [reflexivity|]. cbn [append]. rewrite IH. reflexivity. Qed.

(** One escaped character is read back as the character. *)
Lemma scanstring_escape_char (c : ascii) (s : string) :
  scanstring (escape_char c ++ s) = cons_str c (scanstring s).
Proof.
  destruct c as [[] [] [] [] [] [] [] []]; reflexivity.
Qed.

Lemma scanstring_escape (t rest : string) :
  scanstring (escape t ++ String dquote rest) = Some (t, rest).
Proof.
  induction t as [|c t IH].
  - reflexivity.
  - cbn [escape]. rewrite append_assoc, scanstring_escape_char, IH. reflexivity.
Qed.

(** A dumped str is loaded back, and what follows it is left. *)
Lemma scan_once_encode_str (fuel : nat) (t rest : string) :
  scan_once (S fuel) (encode_str t ++ rest) = Some (PStr t, rest).
Proof.
  unfold encode_str. cbn [append scan_once].
  change (ord dquote =? 34) with true. cbv iota.
  rewrite append_assoc. cbn [append]. rewrite scanstring_escape. reflexivity.
Qed.

(** *** Objects of integers and strs *)

Lemma encode_dict (lvl : nat) (a : string * pyval) (d : list (string * pyval)) :
  encode lvl (PDict (a :: d))
  = "{" ++ newline_indent (S lvl)
    ++ dict_items (encode (S lvl)) ("," ++ newline_indent (S lvl)) (a :: d)
    ++ newline_indent lvl ++ "}".
Proof. reflexivity. Qed.

Lemma dict_items_members (a : string * pyval) (d : list (string * pyval)) :
  dict_items (encode 1) ("," ++ newline_indent 1) (a :: d) ++ newline_indent 0 ++ "}"
  = String dquote (members (a :: d)).
Proof.
  revert a. induction d as [|b d IH]; intros [k v].
  - cbn [dict_items members]. unfold encode_str.
    cbn [append]. rewrite !append_assoc. cbn [append]. reflexivity.
  - specialize (IH b).
    change (dict_items (encode 1) ("," ++ newline_indent 1) ((k, v) :: b :: d))
      with (encode_str k ++ ": " ++ encode 1 v
            ++ ("," ++ newline_indent 1)
            ++ dict_items (encode 1) ("," ++ newline_indent 1) (b :: d)).
    change (members ((k, v) :: b :: d))
      with (escape k
            ++ String dquote (": " ++ encode 1 v ++ ","
                              ++ newline_indent 1 ++ String dquote (members (b :: d)))).
    rewrite <- IH. unfold encode_str.
    cbn [append]. rewrite !append_assoc. cbn [append].
    rewrite !append_assoc. reflexivity.
Qed.

Lemma dumps_members (a : string * pyval) (d : list (string * pyval)) :
  dumps (PDict (a :: d)) = "{" ++ newline_indent 1 ++ String dquote (members (a :: d)).
Proof.
  unfold dumps. rewrite encode_dict, dict_items_members. reflexivity.
Qed.

Lemma skip_ws_flat (lvl : nat) (v : pyval) (r : string) :
  flat v = true -> skip_ws (encode lvl v ++ r) = encode lvl v ++ r.
Proof.
  destruct v; try discriminate; intros _; cbn [encode].
  - destruct (str_int_leading n) as (c & tail & E & Hc). rewrite E. cbn [append skip_ws].
    assert (Hws : is_ws c = false).
    { destruct Hc as [Hd | ->]; [|reflexivity].
      destruct c as [[] [] [] [] [] [] [] []]; try discriminate Hd; reflexivity. }
    rewrite Hws. reflexivity.
  - reflexivity.
Qed.

Lemma scan_once_flat (fuel lvl : nat) (v : pyval) (c : ascii) (r : string) :
  flat v = true -> ends_number c = true ->
  scan_once (S fuel) (encode lvl v ++ String c r) = Some (v, String c r).
Proof.
  destruct v; try discriminate; intros _ Hend; cbn [encode].
  - apply scan_once_str_int. exact Hend.
  - apply scan_once_encode_str.
Qed.

(** The loop of [JSONObject] reads the members of a dumped dict back,
    the latest first. *)
Lemma object_loop_members (fuel : nat) (d : list (string * pyval)) :
  forall (a : string * pyval) (n : nat) (pairs : list (string * pyval)) (rest : string),
    forallb flat (map snd (a :: d)) = true ->
    (List.length (a :: d) <= n)%nat ->
    object_loop (scan_once (S fuel)) n pairs (members (a :: d) ++ rest)
    = Some ((List.rev (a :: d) ++ pairs)%list, rest).
Proof.
  induction d as [|b d IH]; intros [k v] n pairs rest Hflat Hn.
  - cbn [map snd forallb] in Hflat. apply andb_prop in Hflat.
    destruct Hflat as [Hv _].
    destruct n as [|n]; [cbn in Hn; lia|].
    cbn [members]. rewrite !append_assoc. cbn [object_loop append].
    rewrite scanstring_escape. cbn [append newline_indent newline spaces Nat.mul].
    rewrite !append_assoc. cbn [append].
    change (skip_ws (String ":" ?x)) with (String ":" x).
    cbv iota. change (ord ":"%char =? 58) with true. cbv iota.
    cbn [skip_ws]. change (is_ws " "%char) with true. cbv iota.
    rewrite skip_ws_flat by exact Hv.
    rewrite scan_once_flat by (exact Hv || reflexivity).
    reflexivity.
  - cbn [map snd forallb] in Hflat. apply andb_prop in Hflat.
    destruct Hflat as [Hv Hflat].
    destruct n as [|n]; [cbn in Hn; lia|].
    change (members ((k, v) :: b :: d))
      with (escape k
            ++ String dquote (": " ++ encode 1 v ++ ","
                              ++ newline_indent 1 ++ String dquote (members (b :: d)))).
    rewrite !append_assoc. cbn [object_loop append].
    rewrite scanstring_escape. cbn [append newline_indent newline spaces Nat.mul].
    rewrite !append_assoc. cbn [append].
    change (skip_ws (String ":" ?x)) with (String ":" x).
    cbv iota. change (ord ":"%char =? 58) with true. cbv iota.
    cbn [skip_ws]. change (is_ws " "%char) with true. cbv iota.
    rewrite skip_ws_flat by exact Hv.
    rewrite scan_once_flat by (exact Hv || reflexivity).
    change (skip_ws (String "," ?x)) with (String "," x). cbv iota.
    change (ord ","%char =? 125) with false.
    change (ord ","%char =? 44) with true. cbv iota.
    match goal with
    | |- context [skip_ws ?s] =>
        change (skip_ws s) with (String dquote (members (b :: d) ++ rest))
    end.
    cbv iota. change (ord dquote =? 34) with true. cbv iota.
    rewrite (IH b n) by (exact Hflat || (cbn [List.length] in Hn |- *; lia)).
    cbn [List.rev]. rewrite <- !List.app_assoc. reflexivity.
Qed.

(** *** Dicts with distinct keys *)

Lemma dict_set_fresh (d : list (string * pyval)) (k : string) (v : pyval) :
  ~ In k (map fst d) -> dict_set d k v = (d ++ [(k, v)])%list.
Proof.
  induction d as [|[k' v'] d IH]; intros Hk.
  - reflexivity.
  - cbn [dict_set]. cbn [map fst In] in Hk.
    destruct (String.eqb_spec k' k) as [E | _].
    + exfalso. apply Hk. left. exact E.
    + rewrite IH; [reflexivity|]. intros H. apply Hk. right. exact H.
Qed.

Lemma fold_dict_set (d acc : list (string * pyval)) :
  NoDup (map fst (acc ++ d)) ->
  fold_left (fun a kv => dict_set a (fst kv) (snd kv)) d acc = (acc ++ d)%list.
Proof.
  revert acc. induction d as [|[k v] d IH]; intros acc Hnd.
  - cbn [fold_left]. rewrite List.app_nil_r. reflexivity.
  - cbn [fold_left fst snd].
    rewrite dict_set_fresh.
    + rewrite IH; rewrite <- List.app_assoc; [reflexivity | exact Hnd].
    + rewrite map_app in Hnd. apply NoDup_remove_2 in Hnd.
      intros H. apply Hnd. apply in_or_app. left. exact H.
Qed.

Lemma dict_of_pairs_rev (d : list (string * pyval)) :
  NoDup (map fst d) -> dict_of_pairs (List.rev d ++ [])%list = d.
Proof.
  intros Hnd. unfold dict_of_pairs.
  rewrite List.app_nil_r, List.rev_involutive. apply (fold_dict_set d []). exact Hnd.
Qed.

(** *** Documents *)

Lemma length_append (a b : string) :
  String.length (a ++ b) = (String.length a + String.length b)%nat.
Proof. induction a as [|c a IH]; [reflexivity|]. cbn. rewrite IH. reflexivity. Qed.

Lemma append_empty (a : string) : (a ++ "")%string = a.
Proof. induction a as [|c a IH]; [reflexivity|]. cbn. rewrite IH. reflexivity. Qed.

(** A dumped dict has more characters than items. *)
Lemma members_length (a : string * pyval) (d : list (string * pyval)) :
  (List.length (a :: d) <= String.length (members (a :: d)))%nat.
Proof.
  revert a. induction d as [|b d IH]; intros [k v].
  - cbn [members]. rewrite length_append. cbn [String.length List.length]. lia.
  - specialize (IH b).
    change (members ((k, v) :: b :: d))
      with (escape k
            ++ String dquote (": " ++ encode 1 v ++ ","
                              ++ newline_indent 1 ++ String dquote (members (b :: d)))).
    rewrite length_append. cbn [String.length append].
    rewrite !length_append. cbn [String.length append].
    rewrite !length_append. cbn [String.length List.length] in IH |- *. lia.
Qed.

Lemma scan_once_object (fuel : nat) (r : string) :
  scan_once (S fuel) (String "{" r) = parse_object (scan_once fuel) fuel r.
Proof. reflexivity. Qed.

(** A dict of distinct keys bound to integers and strs: what is dumped
    is loaded back. *)
Lemma loads_dumps_flat (a : string * pyval) (d : list (string * pyval)) :
  forallb flat (map snd (a :: d)) = true ->
  NoDup (map fst (a :: d)) ->
  loads (dumps (PDict (a :: d))) = Some (PDict (a :: d)).
Proof.
  intros Hflat Hnd. unfold loads. rewrite dumps_members.
  cbn [append newline_indent newline spaces Nat.mul Nat.add String.length].
  change (skip_ws (String "{" ?x)) with (String "{" x).
  rewrite scan_once_object. unfold parse_object.
  match goal with
  | |- context [skip_ws ?s] =>
      change (skip_ws s) with (String dquote (members (a :: d)))
  end.
  cbv iota. change (ord dquote =? 125) with false.
  change (ord dquote =? 34) with true. cbv iota.
  match goal with
  | |- context [object_loop (scan_once (S ?f)) ?n [] _] =>
      pose proof (object_loop_members f d a n [] "" Hflat) as Hloop
  end.
  rewrite append_empty in Hloop.
  rewrite Hloop.
  - rewrite dict_of_pairs_rev by exact Hnd. reflexivity.
  - pose proof (members_length a d). lia.
Qed.

(** Saving a Region and loading the file gives the Region back. *)
Lemma loads_dumps_region (R : Region.t) :
  loads (dumps (Region.to_py R)) = Some (Region.to_py R).
Proof.
  apply loads_dumps_flat.
  - reflexivity.
  - cbn [map fst]. repeat constructor; cbn [In]; intuition discriminate.
Qed.

End JsonFacts.

(* ------------------------------------------------------------------ *)
(** ** window_manager.py: the persisted region file *)
(* ------------------------------------------------------------------ *)

Module PersistenceFacts.
Import Env Py WindowManager.

Ltac file_simpl :=
  cbv beta iota zeta delta
      [bind ret get modify lift raise try_except Exception anything
       is_Exception negb fst snd emit
       set_window_config set_config_file set_screenshot_count set_grabs
       set_vlm_calls set_gui_calls set_rand_calls set_trace
       events with_events World_Traced];
  cbn [outside window_config config_file screenshot_count provider client
       inventory_start_x inventory_start_y grabs vlm_calls gui_calls
       rand_calls trace].

(** Saving a stored Region writes its dump to the file. *)
Lemma save_config_region (R : Region.t) (w : World) :
  window_config w = Region.to_py R ->
  exists w',
    save_config w = (Ok tt, w')
    /\ config_file w' = Some (Json.dumps (Region.to_py R))
    /\ window_config w' = Region.to_py R.
Proof.
  intros H. unfold save_config. file_simpl. rewrite H.
  cbn [bool_of Region.to_py]. file_simpl. rewrite debug_run.
  eexists. split; [reflexivity|]. cbn [config_file window_config]. split.
  - reflexivity.
  - exact H.
Qed.

(** Loading a file that holds the dump of a Region stores that Region. *)
Lemma load_or_detect_region (R : Region.t) (w : World) :
  config_file w = Some (Json.dumps (Region.to_py R)) ->
  load_or_detect w
  = (Ok true,
     set_trace (Log INFO ("Loaded window config from " ++ Config.WINDOW_CONFIG_FILE)
                  :: trace w)
               (set_window_config (Region.to_py R) w)).
Proof.
  intros H.
  match goal with |- _ = ?rhs => set (answer := rhs) end.
  unfold load_or_detect, read_config. file_simpl. rewrite H.
  rewrite JsonFacts.loads_dumps_region. file_simpl. rewrite info_run.
  reflexivity.
Qed.

Lemma of_py_to_py (R : Region.t) : Region.of_py (Region.to_py R) = Some R.
Proof. destruct R. reflexivity. Qed.

(** C9. For every Region: [save_config] writes it to the region file,
    and a window manager that starts on that file ([load_or_detect], and
    [__init__] which calls it) stores a configuration whose five fields
    x, y, width, height and title are those of the Region saved. *)
Theorem save_then_load_roundtrip (R : Region.t) (w w' : World) :
  let saved := snd (save_config (set_window_config (Region.to_py R) w)) in
  let restarted := set_config_file (config_file saved) w' in
  config_file saved = Some (Json.dumps (Region.to_py R))
  /\ Json.loads (Json.dumps (Region.to_py R)) = Some (Region.to_py R)
  /\ fst (load_or_detect restarted) = Ok true
  /\ window_config (snd (load_or_detect restarted)) = Region.to_py R
  /\ Region.of_py (window_config (snd (load_or_detect restarted))) = Some R
  /\ fst (init restarted) = Ok true
  /\ Region.of_py (window_config (snd (init restarted))) = Some R.
Proof.
  intros saved restarted.
  destruct (save_config_region R (set_window_config (Region.to_py R) w) eq_refl)
    as (w1 & Esave & Hfile & _).
  assert (Hsaved : config_file saved = Some (Json.dumps (Region.to_py R))).
  { unfold saved. rewrite Esave. exact Hfile. }
  assert (Hload : forall w0,
             config_file w0 = Some (Json.dumps (Region.to_py R)) ->
             fst (load_or_detect w0) = Ok true
             /\ window_config (snd (load_or_detect w0)) = Region.to_py R).
  { intros w0 H0. rewrite (load_or_detect_region R w0 H0). split; reflexivity. }
  split; [exact Hsaved|].
  split; [apply JsonFacts.loads_dumps_region|].
  assert (Hrestarted : config_file restarted = Some (Json.dumps (Region.to_py R))).
  { unfold restarted. cbn [config_file set_config_file]. exact Hsaved. }
  destruct (Hload restarted Hrestarted) as [Hok Hcfg].
  split; [exact Hok|]. split; [exact Hcfg|].
  split; [rewrite Hcfg; apply of_py_to_py|].
  unfold init, bind, modify.
  destruct (Hload (set_window_config PNone restarted) Hrestarted) as [Hok' Hcfg'].
  split; [exact Hok'|]. rewrite Hcfg'. apply of_py_to_py.
Qed.

Example region_file_text :
  Json.dumps (Region.to_py Sample.desk)
  = "{
  " ++ String Json.dquote "x" ++ String Json.dquote ": 0,
  " ++ String Json.dquote "y" ++ String Json.dquote ": 24,
  " ++ String Json.dquote "width" ++ String Json.dquote ": 765,
  " ++ String Json.dquote "height" ++ String Json.dquote ": 503,
  " ++ String Json.dquote "title" ++ String Json.dquote ": "
    ++ String Json.dquote "RuneLite" ++ String Json.dquote "
}".
Proof. reflexivity. Qed.

End PersistenceFacts.

(* ------------------------------------------------------------------ *)
(** ** vision.py and skills.py: what looking at the game leaves alone *)
(* ------------------------------------------------------------------ *)

Module FrameFacts.
Import Env Py.

Lemma untouched_refl (w : World) : untouched w w.
Proof. repeat split. Qed.

Lemma untouched_trans (w1 w2 w3 : World) :
  untouched w1 w2 -> untouched w2 w3 -> untouched w1 w3.
Proof.
  unfold untouched. intros H12 H23.
  decompose [and] H12. decompose [and] H23.
  repeat split; congruence.
Qed.

(** [keeps R] goes through the combinators, for a relation that is
    reflexive and transitive and does not look at the trace or at the
    counters of the frame capture. *)
Section Keeps.
Variable R : World -> World -> Prop.
Hypothesis R_refl : forall w, R w w.
Hypothesis R_trans : forall w1 w2 w3, R w1 w2 -> R w2 w3 -> R w1 w3.
Hypothesis R_trace : forall t w, R w (set_trace t w).
Hypothesis R_grabs : forall n w, R w (set_grabs n w).
Hypothesis R_shots : forall n w, R w (set_screenshot_count n w).

Lemma keeps_ret {A} (a : A) : keeps R (ret a).
Proof. intros w. apply R_refl. Qed.

Lemma keeps_raise {A} (e : exn) : keeps R (raise e : M World A).
Proof. intros w. apply R_refl. Qed.

Lemma keeps_get {A} (f : World -> A) : keeps R (get f).
Proof. intros w. apply R_refl. Qed.

Lemma keeps_lift {A} (r : res A) : keeps R (lift r).
Proof. intros w. apply R_refl. Qed.

Lemma keeps_bind {A B} (m : M World A) (k : A -> M World B) :
  keeps R m -> (forall a, keeps R (k a)) -> keeps R (bind m k).
Proof.
  intros Hm Hk w. specialize (Hm w). unfold bind.
  destruct (m w) as [[a|e] w1]; cbn [snd] in *.
  - apply R_trans with w1; [exact Hm | apply Hk].
  - exact Hm.
Qed.

Lemma keeps_try_except {A} (m : M World A) (catches : exn -> bool)
      (h : exn -> M World A) :
  keeps R m -> (forall e, keeps R (h e)) -> keeps R (try_except m catches h).
Proof.
  intros Hm Hh w. specialize (Hm w). unfold try_except.
  destruct (m w) as [[a|e] w1]; cbn [snd] in *.
  - exact Hm.
  - destruct (catches e); [|exact Hm].
    apply R_trans with w1; [exact Hm | apply Hh].
Qed.

Lemma keeps_emit (e : event) : keeps R (emit e).
Proof. intros w. apply R_trace. Qed.

Lemma keeps_log (lvl : level) (msg : string) : keeps R (Logger.log lvl msg).
Proof.
  unfold Logger.log.
  destruct (Logger.level_no (Logger.level_named Config.LOG_LEVEL) <=? Logger.level_no lvl).
  - apply keeps_emit.
  - apply keeps_ret.
Qed.

Lemma keeps_set_grabs (n : nat) : keeps R (modify (set_grabs n)).
Proof. intros w. apply R_grabs. Qed.

Lemma keeps_set_screenshot_count (n : Z) : keeps R (modify (set_screenshot_count n)).
Proof. intros w. apply R_shots. Qed.

Lemma keeps_wait (d : option Q) : keeps R (ActionExecutor.wait d).
Proof. intros w. destruct d; apply R_trace. Qed.

Ltac keeps_step :=
  lazymatch goal with
  | |- keeps _ (bind _ _) => apply keeps_bind; [|intros ?]
  | |- keeps _ (try_except _ _ _) => apply keeps_try_except; [|intros ?]
  | |- keeps _ (ret _) => apply keeps_ret
  | |- keeps _ (raise _) => apply keeps_raise
  | |- keeps _ (get _) => apply keeps_get
  | |- keeps _ (lift _) => apply keeps_lift
  | |- keeps _ (emit _) => apply keeps_emit
  | |- keeps _ (modify (set_grabs _)) => apply keeps_set_grabs
  | |- keeps _ (modify (set_screenshot_count _)) => apply keeps_set_screenshot_count
  | |- keeps _ (Logger.log _ _) => apply keeps_log
  | |- keeps _ (Logger.info _) => apply keeps_log
  | |- keeps _ (Logger.debug _) => apply keeps_log
  | |- keeps _ (Logger.warning _) => apply keeps_log
  | |- keeps _ (Logger.error _) => apply keeps_log
  | |- keeps _ (Logger.log_success _) => apply keeps_log
  | |- keeps _ (Logger.log_error _ _) => apply keeps_log
  | |- keeps _ (Logger.log_action _ _) => apply keeps_log
  | |- keeps _ (Logger.log_skill _ _) => apply keeps_log
  | |- keeps _ (Logger.log_vision _) => apply keeps_log
  | |- keeps _ (if ?b then _ else _) => destruct b
  | |- keeps _ (match ?x with _ => _ end) => destruct x
  end.

Lemma keeps_is_ready : keeps R WindowManager.is_ready.
Proof. unfold WindowManager.is_ready. repeat keeps_step. Qed.

Lemma keeps_get_region : keeps R WindowManager.get_region.
Proof. unfold WindowManager.get_region. repeat keeps_step. Qed.

Lemma keeps_capture (save annotate : bool) (boxes : option (list ScreenCapture.box)) :
  keeps R (ScreenCapture.capture save annotate boxes).
Proof.
  unfold ScreenCapture.capture.
  apply keeps_bind; [apply keeps_is_ready|intros ready].
  destruct (negb ready); [repeat keeps_step|].
  apply keeps_bind; [apply keeps_get_region|intros region].
  apply keeps_try_except; [|intros e; repeat keeps_step].
  apply keeps_bind.
  - unfold ScreenCapture.grab. repeat keeps_step.
  - intros image. apply keeps_bind; [|intros ?; apply keeps_ret].
    destruct save; [|apply keeps_ret].
    unfold ScreenCapture._save_screenshot. repeat keeps_step.
Qed.

(** From here on [R] does not look at the count of requests either. *)
Hypothesis R_vlm : forall n w, R w (set_vlm_calls n w).

Lemma keeps_request (image : ScreenCapture.Image) (prompt : string) :
  keeps R (Vision.request image prompt).
Proof.
  unfold Vision.request.
  apply keeps_bind; [apply keeps_get|intros k].
  apply keeps_bind; [intros w; apply R_vlm|intros _].
  repeat keeps_step.
Qed.

Lemma keeps_analyze (image : ScreenCapture.Image) (prompt : string) :
  keeps R (Vision.analyze_screenshot image prompt).
Proof.
  unfold Vision.analyze_screenshot.
  apply keeps_bind; [apply keeps_get|intros c].
  destruct (negb c); [repeat keeps_step|].
  apply keeps_try_except; [|intros e; repeat keeps_step].
  apply keeps_bind; [apply keeps_get|intros prov].
  destruct (String.eqb prov "anthropic");
    [apply keeps_bind; [apply keeps_request|intros ?; apply keeps_ret]|].
  destruct (String.eqb prov "openai");
    [apply keeps_bind; [apply keeps_request|intros ?; apply keeps_ret]|].
  repeat keeps_step.
Qed.

Lemma keeps_find_slot (prompt warning : string) (image : ScreenCapture.Image) :
  keeps R (Vision.find_slot prompt warning image).
Proof.
  unfold Vision.find_slot.
  apply keeps_bind; [apply keeps_analyze|intros response].
  repeat keeps_step.
Qed.

Lemma keeps_verify (image : ScreenCapture.Image) :
  keeps R (Vision.verify_fire_made image).
Proof.
  unfold Vision.verify_fire_made.
  apply keeps_bind; [apply keeps_analyze|intros response].
  repeat keeps_step.
Qed.

Lemma keeps_identify (image : ScreenCapture.Image) :
  keeps R (Vision.identify_items image).
Proof.
  unfold Vision.identify_items.
  apply keeps_bind; [apply keeps_analyze|intros response].
  repeat keeps_step.
Qed.

Lemma keeps_find_generic (image : ScreenCapture.Image) (item : string) :
  keeps R (Skills.find_generic image item).
Proof.
  unfold Skills.find_generic.
  apply keeps_bind; [apply keeps_analyze|intros response].
  repeat keeps_step.
Qed.

Lemma keeps_find_item_visual (item : string) :
  keeps R (Skills.find_item_visual item).
Proof.
  unfold Skills.find_item_visual.
  apply keeps_bind; [apply keeps_log|intros _].
  apply keeps_bind; [apply keeps_capture|intros shot].
  destruct shot as [shot|]; [|apply keeps_ret].
  apply keeps_bind.
  - destruct (String.eqb (lower item) "tinderbox"); [apply keeps_find_slot|].
    destruct (contains "log" (lower item)); [apply keeps_find_slot|].
    apply keeps_find_generic.
  - intros slot. repeat keeps_step.
Qed.

Lemma keeps_count_logs : keeps R Skills.count_logs_in_inventory.
Proof.
  unfold Skills.count_logs_in_inventory.
  apply keeps_bind; [apply keeps_capture|intros shot].
  destruct shot as [shot|]; [|apply keeps_ret].
  apply keeps_bind; [apply keeps_analyze|intros response].
  repeat keeps_step.
Qed.

End Keeps.

Lemma untouched_trace (t : list event) (w : World) : untouched w (set_trace t w).
Proof. repeat split. Qed.

Lemma untouched_grabs (n : nat) (w : World) : untouched w (set_grabs n w).
Proof. repeat split. Qed.

Lemma untouched_shots (n : Z) (w : World) : untouched w (set_screenshot_count n w).
Proof. repeat split. Qed.

Lemma untouched_vlm (n : nat) (w : World) : untouched w (set_vlm_calls n w).
Proof. repeat split. Qed.

Ltac untouched_side :=
  first [ exact untouched_refl | exact untouched_trans | exact untouched_trace
        | exact untouched_grabs | exact untouched_shots | exact untouched_vlm ].

Lemma observes_ret {A} (a : A) : observes (ret a).
Proof. apply keeps_ret; untouched_side. Qed.

Lemma observes_bind {A B} (m : M World A) (k : A -> M World B) :
  observes m -> (forall a, observes (k a)) -> observes (bind m k).
Proof. apply keeps_bind; untouched_side. Qed.

Lemma observes_log (lvl : level) (msg : string) : observes (Logger.log lvl msg).
Proof. apply keeps_log; untouched_side. Qed.

Lemma observes_wait (d : option Q) : observes (ActionExecutor.wait d).
Proof. apply keeps_wait; untouched_side. Qed.

Lemma observes_capture (save annotate : bool) (boxes : option (list ScreenCapture.box)) :
  observes (ScreenCapture.capture save annotate boxes).
Proof. apply keeps_capture; untouched_side. Qed.

Lemma observes_analyze (image : ScreenCapture.Image) (prompt : string) :
  observes (Vision.analyze_screenshot image prompt).
Proof. apply keeps_analyze; untouched_side. Qed.

Lemma observes_find_slot (prompt warning : string) (image : ScreenCapture.Image) :
  observes (Vision.find_slot prompt warning image).
Proof. apply keeps_find_slot; untouched_side. Qed.

Lemma observes_verify (image : ScreenCapture.Image) :
  observes (Vision.verify_fire_made image).
Proof. apply keeps_verify; untouched_side. Qed.

Lemma observes_identify (image : ScreenCapture.Image) :
  observes (Vision.identify_items image).
Proof. apply keeps_identify; untouched_side. Qed.

Lemma observes_find_item_visual (item : string) :
  observes (Skills.find_item_visual item).
Proof. apply keeps_find_item_visual; untouched_side. Qed.

Lemma observes_count_logs : observes Skills.count_logs_in_inventory.
Proof. apply keeps_count_logs; untouched_side. Qed.

(** A capture sends no request. *)
Lemma capture_unasked (save annotate : bool) (boxes : option (list ScreenCapture.box)) :
  keeps unasked (ScreenCapture.capture save annotate boxes).
Proof.
  apply keeps_capture; unfold unasked; intros; try reflexivity; congruence.
Qed.

Ltac observes_step :=
  lazymatch goal with
  | |- observes (bind _ _) => apply observes_bind; [|intros ?]
  | |- observes (ret _) => apply observes_ret
  | |- observes (Logger.log _ _) => apply observes_log
  | |- observes (Logger.info _) => apply observes_log
  | |- observes (Logger.debug _) => apply observes_log
  | |- observes (Logger.warning _) => apply observes_log
  | |- observes (Logger.error _) => apply observes_log
  | |- observes (Logger.log_success _) => apply observes_log
  | |- observes (Logger.log_error _ _) => apply observes_log
  | |- observes (Logger.log_action _ _) => apply observes_log
  | |- observes (Logger.log_skill _ _) => apply observes_log
  | |- observes (if ?b then _ else _) => destruct b
  | |- observes (match ?x with _ => _ end) => destruct x
  end.

(** X1. Perception only observes: capturing a frame, asking the provider
    and reading its answer make no input call and leave the stored
    window configuration, its file, the grid origin and the perception
    client as they were, whatever they return or raise. *)
Theorem perception_observes_only :
  (forall save annotate boxes, observes (ScreenCapture.capture save annotate boxes))
  /\ (forall image prompt, observes (Vision.analyze_screenshot image prompt))
  /\ (forall image, observes (Vision.find_tinderbox image))
  /\ (forall image, observes (Vision.find_logs image))
  /\ (forall image, observes (Vision.verify_fire_made image))
  /\ (forall image, observes (Vision.identify_items image))
  /\ (forall item, observes (Skills.find_item_visual item))
  /\ observes Skills.count_logs_in_inventory.
Proof.
  repeat match goal with |- _ /\ _ => split end; intros.
  - apply observes_capture.
  - apply observes_analyze.
  - apply observes_find_slot.
  - apply observes_find_slot.
  - apply observes_verify.
  - apply observes_identify.
  - apply observes_find_item_visual.
  - apply observes_count_logs.
Qed.

Lemma uncalibrated_stable (w w' : World) :
  Skills.uncalibrated w -> untouched w w' -> Skills.uncalibrated w'.
Proof.
  unfold Skills.uncalibrated, untouched. intros H U.
  decompose [and] U. destruct H as [H|H]; [left|right]; congruence.
Qed.

(** The same for the runs that start where [P] holds, when [P] only
    depends on what [untouched] keeps. *)
Section Where.
Variable P : World -> Prop.
Hypothesis P_stable : forall w w', P w -> untouched w w' -> P w'.

Lemma observes_anywhere {A} (m : M World A) : observes m -> observes_where P m.
Proof. intros H w _. apply H. Qed.

Lemma observes_where_bind {A B} (m : M World A) (k : A -> M World B) :
  observes_where P m -> (forall a, observes_where P (k a)) ->
  observes_where P (bind m k).
Proof.
  intros Hm Hk w HP. specialize (Hm w HP). unfold bind.
  destruct (m w) as [[a|e] w1]; cbn [snd] in *.
  - apply untouched_trans with w1; [exact Hm|].
    apply Hk. apply P_stable with w; assumption.
  - exact Hm.
Qed.
End Where.

Lemma click_slot_uncalibrated_observes (slot : Z) (item : option string) :
  observes_where Skills.uncalibrated (Skills.click_inventory_slot slot item).
Proof.
  intros w H.
  rewrite (ActuationFacts.click_inventory_slot_uncalibrated slot item w H).
  repeat split.
Qed.

Lemma use_item_uncalibrated_observes (item1 item2 : string) :
  observes_where Skills.uncalibrated (Skills.use_item_on_item item1 item2).
Proof.
  unfold Skills.use_item_on_item.
  apply observes_where_bind; [exact uncalibrated_stable | |intros _].
  { apply observes_anywhere, observes_log. }
  apply observes_where_bind; [exact uncalibrated_stable | |intros slot1].
  { apply observes_anywhere, observes_find_item_visual. }
  apply observes_where_bind; [exact uncalibrated_stable | |intros slot2].
  { apply observes_anywhere, observes_find_item_visual. }
  destruct slot1 as [s1|]; [destruct slot2 as [s2|]|].
  - apply observes_where_bind; [exact uncalibrated_stable | |intros _].
    { apply click_slot_uncalibrated_observes. }
    apply observes_where_bind; [exact uncalibrated_stable | |intros _].
    { apply observes_anywhere, observes_wait. }
    apply observes_where_bind; [exact uncalibrated_stable | |intros _].
    { apply click_slot_uncalibrated_observes. }
    apply observes_anywhere.
    apply observes_bind; [apply observes_wait|intros _; apply observes_ret].
  - apply observes_anywhere. repeat observes_step.
  - apply observes_anywhere. repeat observes_step.
Qed.

(** X2. The grid origin is never set: [__init__] leaves it unset,
    [calibrate_inventory] only writes a log record, and a slot click
    without it fails before the mouse is touched.  So [make_fire], run
    on a grid that was not calibrated by hand, makes no input call at
    all, also when both items were located. *)
Theorem uncalibrated_make_fire_never_clicks :
  observes Skills.calibrate_inventory
  /\ (forall slot item w,
        Skills.uncalibrated w ->
        fst (Skills.click_inventory_slot slot item w) = Ok false
        /\ gui_calls (snd (Skills.click_inventory_slot slot item w)) = gui_calls w)
  /\ (forall w,
        Skills.uncalibrated w ->
        gui_calls (snd (Skills.make_fire w)) = gui_calls w
        /\ Skills.uncalibrated (snd (Skills.make_fire w))).
Proof.
  split; [apply observes_log|]. split.
  - intros slot item w H.
    rewrite (ActuationFacts.click_inventory_slot_uncalibrated slot item w H).
    split; reflexivity.
  - intros w H.
    assert (U : untouched w (snd (Skills.make_fire w))).
    { revert w H. change (observes_where Skills.uncalibrated Skills.make_fire).
      unfold Skills.make_fire.
      apply observes_where_bind; [exact uncalibrated_stable | |intros _].
      { apply observes_anywhere, observes_log. }
      apply observes_where_bind; [exact uncalibrated_stable | |intros used].
      { apply use_item_uncalibrated_observes. }
      apply observes_anywhere.
      destruct (negb used); [apply observes_ret|].
      apply observes_bind; [apply observes_wait|intros _].
      apply observes_bind; [apply observes_capture|intros shot].
      destruct shot as [shot|]; [|apply observes_ret].
      apply observes_bind; [apply observes_verify|intros fire].
      repeat observes_step. }
    split.
    + unfold untouched in U. decompose [and] U. assumption.
    + apply uncalibrated_stable with w; assumption.
Qed.

Lemma uncalibrated_make_fire_never_clicks_witness :
  gui_calls (snd (Skills.make_fire (Sample.playing "7"))) = 0%nat.
Proof.
  apply (proj2 (proj2 uncalibrated_make_fire_never_clicks) (Sample.playing "7")).
  left. reflexivity.
Defined.

End FrameFacts.

(* ------------------------------------------------------------------ *)
(** ** action_executor.py: where the pointer goes *)
(* ------------------------------------------------------------------ *)

Module PointerFacts.
Import Env Py OutcomeFacts ActionExecutor.
Import ActuationFacts.

Lemma randint_run (lo hi : Z) (w : World) :
  lo <= hi ->
  randint lo hi w
  = (Ok (lo + randint_raw (outside w) (rand_calls w) mod (hi - lo + 1)),
     set_rand_calls (S (rand_calls w)) w).
Proof.
  intros H. unfold randint.
  destruct (hi <? lo) eqn:E; [apply Z.ltb_lt in E; lia|].
  reflexivity.
Qed.

Lemma randint_empty (lo hi : Z) (w : World) :
  hi < lo -> exists msg, randint lo hi w = (Raise (ValueError msg), w).
Proof.
  intros H. unfold randint.
  destruct (hi <? lo) eqn:E; [|apply Z.ltb_ge in E; lia].
  eexists. reflexivity.
Qed.

Lemma randomize_point_run (x y radius : Z) (w : World) :
  0 <= radius ->
  exists ox oy,
    _randomize_point x y radius w
    = (Ok (x + ox, y + oy), set_rand_calls (S (S (rand_calls w))) w)
    /\ - radius <= ox <= radius /\ - radius <= oy <= radius.
Proof.
  intros H. unfold _randomize_point, bind.
  rewrite randint_run by lia. rewrite randint_run by lia.
  cbn [outside rand_calls set_rand_calls ret].
  pose proof (Z.mod_pos_bound (randint_raw (outside w) (rand_calls w))
                              (radius - - radius + 1) ltac:(lia)).
  pose proof (Z.mod_pos_bound (randint_raw (outside w) (S (rand_calls w)))
                              (radius - - radius + 1) ltac:(lia)).
  do 2 eexists. split; [|split; [|]].
  - destruct w; reflexivity.
  - lia.
  - lia.
Qed.

(** X3. The jitter stays within its radius: for a radius that is not
    negative, [_randomize_point] returns a point at most [radius] away
    from the given one on each axis, after two draws of the random
    source; a negative radius makes [random.randint] raise ValueError
    before any draw. *)
Theorem randomize_point_within_radius (x y radius : Z) (w : World) :
  (0 <= radius ->
   exists px py w',
     _randomize_point x y radius w = (Ok (px, py), w')
     /\ x - radius <= px <= x + radius
     /\ y - radius <= py <= y + radius
     /\ rand_calls w' = S (S (rand_calls w))
     /\ gui_calls w' = gui_calls w /\ trace w' = trace w)
  /\ (radius < 0 ->
      exists msg, _randomize_point x y radius w = (Raise (ValueError msg), w)).
Proof.
  split; intros H.
  - destruct (randomize_point_run x y radius w H) as (ox & oy & E & Hx & Hy).
    do 3 eexists. split; [exact E|].
    cbn [gui_calls trace rand_calls set_rand_calls].
    repeat split; lia.
  - unfold _randomize_point, bind.
    destruct (randint_empty (- radius) radius w ltac:(lia)) as [msg E].
    rewrite E. exists msg. reflexivity.
Qed.

Lemma randomize_point_within_radius_witness :
  exists px py w',
    _randomize_point 100 200 3 (Sample.playing "7") = (Ok (px, py), w')
    /\ 100 - 3 <= px <= 100 + 3
    /\ 200 - 3 <= py <= 200 + 3
    /\ rand_calls w' = 2%nat
    /\ gui_calls w' = 0%nat /\ trace w' = [].
Proof.
  apply (proj1 (randomize_point_within_radius 100 200 3 (Sample.playing "7"))).
  lia.
Defined.

Lemma resolve_region (x y : Z) (R : Region.t) (w : World) :
  window_config w = Region.to_py R ->
  exists px py,
    resolve x y true true w = (Ok (px, py), set_rand_calls (S (S (rand_calls w))) w)
    /\ Z.abs (px - (Region.x R + x)) <= 3
    /\ Z.abs (py - (Region.y R + y)) <= 3.
Proof.
  intros H. unfold resolve, bind.
  rewrite (WindowFacts.get_absolute_coords_region w R x y H). cbn [fst snd].
  destruct (randomize_point_run (Region.x R + x) (Region.y R + y) 3 w ltac:(lia))
    as (ox & oy & E & Hx & Hy).
  do 2 eexists. rewrite E. split; [reflexivity|]. split; lia.
Qed.

(** X4. A click on a point given relative to the stored window is aimed
    within three pixels of origin plus offset, and it never raises.  When
    the input library accepts both calls, the click is made of the move
    to the jittered point, a short pause, the button press, the log
    record and the pause after a click, in that order. *)
Theorem click_lands_near_target
        (x y : Z) (item : option string) (button : string) (R : Region.t) (w : World) :
  window_config w = Region.to_py R ->
  exists px py w',
    click x y true true item button w = (Ok tt, w')
    /\ Z.abs (px - (Region.x R + x)) <= 3
    /\ Z.abs (py - (Region.y R + y)) <= 3
    /\ In (Gui (MoveTo px py) (gui_fail (outside w) (gui_calls w))) (trace w')
    /\ (gui_fail (outside w) (gui_calls w) = None ->
        gui_fail (outside w) (S (gui_calls w)) = None ->
        exists record,
          trace w'
          = SleepUniform Config.CLICK_DELAY
              :: Log INFO record
              :: Gui (ClickButton button) None
              :: SleepUniform (5 # 100, 15 # 100)%Q
              :: Gui (MoveTo px py) None
              :: trace w).
Proof.
  intros H.
  destruct (resolve_region x y R w H) as (px & py & E & Hx & Hy).
  exists px, py. unfold click, bind at 1. rewrite E. cbn [fst snd].
  unfold try_except, bind. rewrite pyautogui_run.
  cbn [outside gui_calls set_rand_calls].
  destruct (gui_fail (outside w) (gui_calls w)) as [m|] eqn:F1.
  - cbn [Exception is_Exception]. rewrite error_run.
    eexists. split; [reflexivity|].
    repeat split; try assumption.
    + cbn. right. left. reflexivity.
    + intros Hn. discriminate Hn.
  - rewrite sleep_uniform_run. rewrite pyautogui_run.
    cbn [outside gui_calls set_rand_calls set_trace set_gui_calls events with_events
         World_Traced trace].
    destruct (gui_fail (outside w) (S (gui_calls w))) as [m|] eqn:F2.
    + cbn [Exception is_Exception]. rewrite error_run.
      eexists. split; [reflexivity|].
      repeat split; try assumption.
      * cbn. right. right. right. left. reflexivity.
      * intros _ Hn. discriminate Hn.
    + unfold Logger.log_click. rewrite info_run.
      unfold _human_delay. rewrite sleep_uniform_run.
      eexists. split; [reflexivity|].
      repeat split; try assumption.
      * cbn. do 4 right. left. reflexivity.
      * intros _ _. eexists. reflexivity.
Qed.

Lemma click_lands_near_target_witness :
  exists px py w',
    click 100 200 true true (Some "logs") "left" (Sample.playing "7") = (Ok tt, w')
    /\ Z.abs (px - (0 + 100)) <= 3
    /\ Z.abs (py - (24 + 200)) <= 3
    /\ In (Gui (MoveTo px py) None) (trace w')
    /\ (@None string = None -> @None string = None ->
        exists record,
          trace w'
          = SleepUniform Config.CLICK_DELAY
              :: Log INFO record
              :: Gui (ClickButton "left") None
              :: SleepUniform (5 # 100, 15 # 100)%Q
              :: Gui (MoveTo px py) None
              :: []).
Proof.
  apply (click_lands_near_target 100 200 (Some "logs") "left" Sample.desk
                                 (Sample.playing "7")).
  reflexivity.
Defined.

(** X5. A drag between two points given relative to the stored window: it
    never raises; the pointer is first moved within three pixels of the
    start point, and the drag, when the move was accepted, covers the
    asked displacement to within six pixels on each axis (both end points
    are jittered on their own), whatever the origin of the window. *)
Theorem drag_covers_displacement
        (sx sy ex ey : Z) (R : Region.t) (w : World) :
  window_config w = Region.to_py R ->
  exists px py dx dy w',
    drag sx sy ex ey true true w = (Ok tt, w')
    /\ Z.abs (px - (Region.x R + sx)) <= 3 /\ Z.abs (py - (Region.y R + sy)) <= 3
    /\ Z.abs (dx - (ex - sx)) <= 6 /\ Z.abs (dy - (ey - sy)) <= 6
    /\ In (Gui (MoveTo px py) (gui_fail (outside w) (gui_calls w))) (trace w')
    /\ (gui_fail (outside w) (gui_calls w) = None ->
        In (Gui (DragRel dx dy) (gui_fail (outside w) (S (gui_calls w)))) (trace w')
        /\ gui_calls w' = S (S (gui_calls w))).
Proof.
  intros H. unfold drag. unfold bind at 1. unfold bind at 1.
  rewrite (WindowFacts.get_absolute_coords_region w R sx sy H).
  unfold bind at 1.
  rewrite (WindowFacts.get_absolute_coords_region w R ex ey H).
  unfold ret at 1. unfold bind at 1. unfold bind at 1.
  cbn [fst snd].
  destruct (randomize_point_run (Region.x R + sx) (Region.y R + sy) 3 w ltac:(lia))
    as (ox1 & oy1 & E1 & Hx1 & Hy1).
  rewrite E1. unfold bind at 1.
  destruct (randomize_point_run (Region.x R + ex) (Region.y R + ey) 3
              (set_rand_calls (S (S (rand_calls w))) w) ltac:(lia))
    as (ox2 & oy2 & E2 & Hx2 & Hy2).
  rewrite E2. unfold ret at 1. cbn [fst snd].
  exists (Region.x R + sx + ox1), (Region.y R + sy + oy1),
         (Region.x R + ex + ox2 - (Region.x R + sx + ox1)),
         (Region.y R + ey + oy2 - (Region.y R + sy + oy1)).
  unfold try_except, bind. rewrite pyautogui_run.
  cbn [outside gui_calls set_rand_calls rand_calls].
  destruct (gui_fail (outside w) (gui_calls w)) as [m|] eqn:F1.
  - cbn [Exception is_Exception]. rewrite error_run.
    eexists. split; [reflexivity|].
    repeat split; try lia.
    + cbn. right. left. reflexivity.
    + discriminate.
    + discriminate.
  - unfold emit, modify. rewrite pyautogui_run.
    cbn [outside gui_calls set_rand_calls set_trace set_gui_calls events with_events
         World_Traced trace].
    destruct (gui_fail (outside w) (S (gui_calls w))) as [m|] eqn:F2.
    + cbn [Exception is_Exception]. rewrite error_run.
      eexists. split; [reflexivity|].
      repeat split; try lia.
      * cbn. do 3 right. left. reflexivity.
      * cbn. right. left. reflexivity.
    + unfold Logger.log_action. rewrite info_run.
      unfold _human_delay. rewrite sleep_uniform_run.
      eexists. split; [reflexivity|].
      repeat split; try lia.
      * cbn. do 4 right. left. reflexivity.
      * cbn. do 2 right. left. reflexivity.
Qed.

Lemma drag_covers_displacement_witness :
  exists px py dx dy w',
    drag 10 20 110 220 true true (Sample.playing "7") = (Ok tt, w')
    /\ Z.abs (px - (0 + 10)) <= 3 /\ Z.abs (py - (24 + 20)) <= 3
    /\ Z.abs (dx - (110 - 10)) <= 6 /\ Z.abs (dy - (220 - 20)) <= 6
    /\ In (Gui (MoveTo px py) None) (trace w')
    /\ (@None string = None ->
        In (Gui (DragRel dx dy) None) (trace w')
        /\ gui_calls w' = 2%nat).
Proof.
  apply (drag_covers_displacement 10 20 110 220 Sample.desk (Sample.playing "7")).
  reflexivity.
Defined.

End PointerFacts.

(* ------------------------------------------------------------------ *)
(** ** action_executor.py: which primitives can raise *)
(* ------------------------------------------------------------------ *)

Module ReachFacts.
Import Env Py OutcomeFacts ActionExecutor.
Import ActuationFacts.

Lemma returns_randomize_3 (x y : Z) : returns (_randomize_point x y 3).
Proof.
  intros w.
  destruct (PointerFacts.randomize_point_run x y 3 w ltac:(lia))
    as (ox & oy & E & _).
  do 2 eexists. exact E.
Qed.

Lemma returns_pyautogui_catchable (op : gui_op) : catchable (pyautogui op).
Proof.
  intros w. rewrite pyautogui_run.
  destruct (gui_fail (outside w) (gui_calls w)).
  - right. do 2 eexists. split; reflexivity.
  - left. do 2 eexists. reflexivity.
Qed.

Lemma returns_human_delay (r : option (Q * Q)) : returns (_human_delay r : M World unit).
Proof. destruct r; intros w; do 2 eexists; reflexivity. Qed.

Lemma returns_sleep (r : Q * Q) : returns (sleep_uniform r : M World unit).
Proof. intros w; do 2 eexists; reflexivity. Qed.

Ltac guarded :=
  apply returns_try_Exception;
  [ repeat first
      [ apply returns_pyautogui_catchable
      | apply returns_catchable;
        first [ apply returns_human_delay | apply returns_sleep
              | apply returns_log | apply returns_emit ]
      | apply catchable_bind; [|intros ?] ]
  | intros ?; apply returns_log ].

(** X6. The keyboard primitives and the pointer primitives called with
    absolute coordinates always return, with or without a window and
    whatever Exception the input library raises: only the mapping of
    window-relative coordinates, which stands outside the guarded block,
    can make a primitive raise. *)
Theorem absolute_and_keyboard_always_return :
  (forall text interval, returns (type_text text interval))
  /\ (forall key, returns (press_key key))
  /\ (forall x y randomize, returns (move_mouse x y false randomize))
  /\ (forall x y randomize item button, returns (click x y false randomize item button))
  /\ (forall x y randomize item, returns (right_click x y false randomize item))
  /\ (forall sx sy ex ey randomize, returns (drag sx sy ex ey false randomize)).
Proof.
  assert (Hres : forall x y randomize, returns (resolve x y false randomize)).
  { intros x y randomize. unfold resolve.
    apply returns_bind; [apply returns_ret|intros p].
    destruct randomize; [apply returns_randomize_3|apply returns_ret]. }
  repeat match goal with |- _ /\ _ => split end; intros.
  - unfold type_text. guarded.
  - unfold press_key. guarded.
  - unfold move_mouse. apply returns_bind; [apply Hres|intros p]. guarded.
  - unfold click. apply returns_bind; [apply Hres|intros p]. guarded.
  - unfold right_click, click. apply returns_bind; [apply Hres|intros p]. guarded.
  - unfold drag.
    apply returns_bind; [apply returns_ret|intros ends].
    apply returns_bind.
    + destruct randomize; [|apply returns_ret].
      apply returns_bind; [apply returns_randomize_3|intros a].
      apply returns_bind; [apply returns_randomize_3|intros b].
      apply returns_ret.
    + intros ends'. guarded.
Qed.

End ReachFacts.

(* ------------------------------------------------------------------ *)
(** ** skills.py: the inventory grid *)
(* ------------------------------------------------------------------ *)

Module GridFacts.
Import Env Py.

(** X7. The slot grid: with the origin set, [get_slot_center] puts slot
    [s] in column [s mod 4] and row [s // 4] of a grid of 42 by 36 cells
    and returns the middle of that cell without changing anything; the
    28 slots 0..27 fall in 4 columns and 7 rows, and no two slots share a
    centre.  Without the origin it raises ValueError for every slot. *)
Theorem slot_center_grid (w : World) (sx sy slot : Z) :
  inventory_start_x w = Some sx -> inventory_start_y w = Some sy ->
  exists px py,
    Skills.get_slot_center slot w = (Ok (px, py), w)
    /\ px = sx + 42 * (slot mod 4) + 21
    /\ py = sy + 36 * (slot / 4) + 18
    /\ (0 <= slot <= 27 ->
        sx + 21 <= px <= sx + 3 * 42 + 21 /\ sy + 18 <= py <= sy + 6 * 36 + 18)
    /\ (forall slot', Skills.get_slot_center slot' w = (Ok (px, py), w) ->
                      slot' = slot).
Proof.
  intros Hx Hy.
  assert (Hrun : forall s,
             Skills.get_slot_center s w
             = (Ok (sx + (s mod 4) * 42 + 21, sy + (s / 4) * 36 + 18), w)).
  { intros s. unfold Skills.get_slot_center, bind, get. rewrite Hx, Hy.
    reflexivity. }
  do 2 eexists. split; [apply Hrun|].
  split; [lia|]. split; [lia|]. split.
  - intros Hs.
    pose proof (Z.mod_pos_bound slot 4 ltac:(lia)).
    assert (0 <= slot / 4 < 7).
    { split; [apply Z.div_pos; lia|].
      apply Z.div_lt_upper_bound; lia. }
    lia.
  - intros s' E. rewrite Hrun in E. inversion E.
    pose proof (Z.div_mod slot 4 ltac:(lia)).
    pose proof (Z.div_mod s' 4 ltac:(lia)).
    lia.
Qed.

Lemma slot_center_grid_witness :
  exists px py,
    Skills.get_slot_center 5 (Sample.calibrated "7")
    = (Ok (px, py), Sample.calibrated "7")
    /\ px = 560 + 42 * (5 mod 4) + 21
    /\ py = 210 + 36 * (5 / 4) + 18
    /\ (0 <= 5 <= 27 ->
        560 + 21 <= px <= 560 + 3 * 42 + 21 /\ 210 + 18 <= py <= 210 + 6 * 36 + 18)
    /\ (forall slot', Skills.get_slot_center slot' (Sample.calibrated "7")
                      = (Ok (px, py), Sample.calibrated "7") -> slot' = 5).
Proof.
  apply (slot_center_grid (Sample.calibrated "7") 560 210 5); reflexivity.
Defined.

End GridFacts.

(* ------------------------------------------------------------------ *)
(** ** skills.py: a click on a slot *)
(* ------------------------------------------------------------------ *)

Module SlotFacts.
Import Env Py ActionExecutor.
Import ActuationFacts PointerFacts.

Lemma click_region_moves
      (x y : Z) (item : option string) (button : string) (R : Region.t) (w : World) :
  window_config w = Region.to_py R ->
  exists px py w',
    click x y true true item button w = (Ok tt, w')
    /\ Z.abs (px - (Region.x R + x)) <= 3
    /\ Z.abs (py - (Region.y R + y)) <= 3
    /\ In (Gui (MoveTo px py) (gui_fail (outside w) (gui_calls w))) (trace w')
    /\ (forall msg,
          gui_fail (outside w) (gui_calls w) = Some msg ->
          hd_error (trace w') = Some (Log ERROR ("Failed to click: " ++ msg))
          /\ gui_calls w' = S (gui_calls w)).
Proof.
  intros H.
  destruct (resolve_region x y R w H) as (px & py & E & Hx & Hy).
  exists px, py. unfold click, bind at 1. rewrite E. cbn [fst snd].
  unfold try_except, bind. rewrite pyautogui_run.
  cbn [outside gui_calls set_rand_calls].
  destruct (gui_fail (outside w) (gui_calls w)) as [m|] eqn:F1.
  - cbn [Exception is_Exception]. rewrite error_run.
    eexists. split; [reflexivity|].
    repeat split; try assumption.
    + cbn. right. left. reflexivity.
    + inversion H0. reflexivity.
  - rewrite sleep_uniform_run. rewrite pyautogui_run.
    cbn [outside gui_calls set_rand_calls set_trace set_gui_calls events with_events
         World_Traced trace].
    destruct (gui_fail (outside w) (S (gui_calls w))) as [m|] eqn:F2.
    + cbn [Exception is_Exception]. rewrite error_run.
      eexists. split; [reflexivity|].
      repeat split; try assumption; try discriminate.
      cbn. right. right. right. left. reflexivity.
    + unfold Logger.log_click. rewrite info_run.
      unfold _human_delay. rewrite sleep_uniform_run.
      eexists. split; [reflexivity|].
      repeat split; try assumption; try discriminate.
      cbn. do 4 right. left. reflexivity.
Qed.

(** X29. A slot click on a calibrated grid: with a Region stored and the
    grid origin set, [click_inventory_slot] aims within three pixels of
    the centre of the slot's cell, window origin added, which is inside
    the cell of 42 by 36 pixels.  Its answer tells only that the target
    could be worked out: it is True also when the input library refused
    the move, in which case no button was pressed and the failure is in
    the log alone. *)
Theorem slot_click_reports_resolution_only
        (slot : Z) (item : option string) (R : Region.t) (sx sy : Z) (w : World) :
  window_config w = Region.to_py R ->
  inventory_start_x w = Some sx -> inventory_start_y w = Some sy ->
  exists px py w',
    Skills.click_inventory_slot slot item w = (Ok true, w')
    /\ Z.abs (px - (Region.x R + sx + 42 * (slot mod 4) + 21)) <= 3
    /\ Z.abs (py - (Region.y R + sy + 36 * (slot / 4) + 18)) <= 3
    /\ In (Gui (MoveTo px py) (gui_fail (outside w) (gui_calls w))) (trace w')
    /\ (forall msg,
          gui_fail (outside w) (gui_calls w) = Some msg ->
          hd_error (trace w') = Some (Log ERROR ("Failed to click: " ++ msg))
          /\ gui_calls w' = S (gui_calls w)).
Proof.
  intros H Hx Hy.
  assert (Hcentre :
            Skills.get_slot_center slot w
            = (Ok (sx + (slot mod 4) * 42 + 21, sy + (slot / 4) * 36 + 18), w)).
  { unfold Skills.get_slot_center, bind, get. rewrite Hx, Hy. reflexivity. }
  destruct (click_region_moves (sx + (slot mod 4) * 42 + 21)
                               (sy + (slot / 4) * 36 + 18) item "left" R w H)
    as (px & py & w' & E & Bx & By & Hin & Hfail).
  exists px, py, w'.
  unfold Skills.click_inventory_slot, try_except, bind at 1.
  rewrite Hcentre. cbn [fst snd]. unfold bind. rewrite E.
  split; [reflexivity|]. split; [|split; [|split; assumption]].
  - replace (Region.x R + sx + 42 * (slot mod 4) + 21)
      with (Region.x R + (sx + slot mod 4 * 42 + 21)) by lia.
    exact Bx.
  - replace (Region.y R + sy + 36 * (slot / 4) + 18)
      with (Region.y R + (sy + slot / 4 * 36 + 18)) by lia.
    exact By.
Qed.

Lemma slot_click_reports_resolution_only_witness :
  exists px py w',
    Skills.click_inventory_slot 5 (Some "logs") Sample.stuck = (Ok true, w')
    /\ Z.abs (px - (0 + 560 + 42 * (5 mod 4) + 21)) <= 3
    /\ Z.abs (py - (24 + 210 + 36 * (5 / 4) + 18)) <= 3
    /\ In (Gui (MoveTo px py) (Some "device busy")) (trace w')
    /\ (forall msg,
          Some "device busy" = Some msg ->
          hd_error (trace w') = Some (Log ERROR ("Failed to click: " ++ msg))
          /\ gui_calls w' = 1%nat).
Proof.
  apply (slot_click_reports_resolution_only 5 (Some "logs") Sample.desk 560 210
           Sample.stuck); reflexivity.
Defined.

End SlotFacts.

(* ------------------------------------------------------------------ *)
(** ** window_manager.py: detection *)
(* ------------------------------------------------------------------ *)

Module DetectionFacts.
Import Env Py WindowManager.
Import PersistenceFacts.

Lemma geometry_origin (g : xgeom) (gx gy gw gh : Z) :
  _get_window_geometry (Some g) = Some (gx, gy, gw, gh) ->
  0 <= gx /\ 0 <= gy /\ gw = geo_width g /\ gh = geo_height g
  /\ gx = Z.max 0 (- coords_x g) /\ gy = Z.max 0 (- coords_y g).
Proof.
  cbn [_get_window_geometry]. intros E. inversion E. subst. lia.
Qed.

Lemma search_windows_appends :
  forall (window : xwindow) (name_filter : string) (results : list Region.t),
  exists found,
    _search_windows window name_filter results = (results ++ found)%list
    /\ Forall (detected name_filter) found.
Proof.
  fix IH 1.
  intros [wm_name geometry children] name_filter results.
  cbn [_search_windows].
  match goal with
  | |- context [match children with Some _ => _ | None => ?r end] =>
      assert (H1 : exists found, r = (results ++ found)%list
                                 /\ Forall (detected name_filter) found);
      [|generalize dependent r]
  end.
  - destruct (_get_window_name wm_name) as [name|];
      [|exists []; rewrite List.app_nil_r; split; [reflexivity|constructor]].
    destruct (truthy name && contains (lower name_filter) (lower name)) eqn:Hname;
      [|exists []; rewrite List.app_nil_r; split; [reflexivity|constructor]].
    destruct geometry as [g|];
      [|exists []; rewrite List.app_nil_r; split; [reflexivity|constructor]].
    destruct (_get_window_geometry (Some g)) as [[[[gx gy] gw] gh]|] eqn:Hg;
      [|exists []; rewrite List.app_nil_r; split; [reflexivity|constructor]].
    destruct ((0 <? gw) && (0 <? gh)) eqn:Hpos;
      [|exists []; rewrite List.app_nil_r; split; [reflexivity|constructor]].
    apply andb_prop in Hpos. destruct Hpos as [Hw Hh].
    apply Z.ltb_lt in Hw, Hh.
    apply andb_prop in Hname. destruct Hname as [Ht Hc].
    apply geometry_origin in Hg. destruct Hg as (Hx & Hy & _).
    eexists. split; [reflexivity|].
    constructor; [|constructor].
    unfold detected. cbn. repeat split; assumption.
  - intros results1 (found1 & E1 & F1). subst results1.
    destruct children as [cs|]; [|exists found1; split; [reflexivity|exact F1]].
    revert found1 F1.
    induction cs as [|child rest IHrest]; intros found1 F1.
    + exists found1. split; [reflexivity|exact F1].
    + destruct (IH child name_filter (results ++ found1)%list) as (found2 & E2 & F2).
      rewrite E2. rewrite <- List.app_assoc.
      apply IHrest. apply Forall_app. split; assumption.
Qed.

Lemma max_by_area_first (rest : list Region.t) :
  forall best : Region.t,
  exists pre post,
    (best :: rest = pre ++ max_by_area best rest :: post)%list
    /\ (forall r, In r pre -> Region.area r < Region.area (max_by_area best rest))
    /\ (forall r, In r post -> Region.area r <= Region.area (max_by_area best rest)).
Proof.
  induction rest as [|r rest IH]; intros best.
  - exists [], []. cbn. repeat split; intros r [].
  - cbn [max_by_area].
    destruct (Region.area best <? Region.area r) eqn:E.
    + apply Z.ltb_lt in E.
      destruct (IH r) as (pre & post & Hl & Hpre & Hpost).
      remember (max_by_area r rest) as m.
      exists (best :: pre), post. split; [cbn; rewrite Hl; reflexivity|].
      split; [|exact Hpost].
      intros q [Hq|Hq]; [subst q|apply Hpre; exact Hq].
      destruct pre as [|p pre'].
      * cbn in Hl. inversion Hl as [[H0 H1]]. rewrite <- H0. exact E.
      * cbn in Hl. inversion Hl as [[H0 H1]].
        specialize (Hpre p (or_introl eq_refl)). subst p. lia.
    + apply Z.ltb_ge in E.
      destruct (IH best) as (pre & post & Hl & Hpre & Hpost).
      remember (max_by_area best rest) as m.
      destruct pre as [|p pre'].
      * cbn in Hl. inversion Hl as [[H0 H1]].
        exists [], (r :: post). cbn.
        split; [congruence|].
        split; [intros q []|].
        intros q [Hq|Hq]; [subst q; rewrite <- H0; exact E|].
        apply Hpost. exact Hq.
      * cbn in Hl. inversion Hl as [[H0 H1]].
        pose proof (Hpre p (or_introl eq_refl)) as Hb. rewrite <- H0 in Hb.
        exists (best :: r :: pre'), post.
        split; [cbn; congruence|].
        split; [|exact Hpost].
        intros q [Hq|[Hq|Hq]].
        -- subst q. exact Hb.
        -- subst q. lia.
        -- apply Hpre. right. exact Hq.
Qed.

Lemma debug_each_run (results : list Region.t) :
  forall (i : Z) (w : World), debug_each i results w = (Ok tt, w).
Proof.
  induction results as [|r rest IH]; intros i w; [reflexivity|].
  cbn [debug_each]. unfold bind. rewrite debug_run. apply IH.
Qed.

Lemma find_runelite_window_run (w : World) :
  exists evs,
    find_runelite_window w
    = (Ok match _search_windows (xroot (outside w)) Config.GAME_NAME [] with
          | [] => PNone
          | first :: others => Region.to_py (max_by_area first others)
          end,
       set_trace (evs ++ trace w)%list w).
Proof.
  unfold find_runelite_window, bind at 1, get.
  destruct (_search_windows (xroot (outside w)) Config.GAME_NAME []) as [|first others].
  - unfold bind. rewrite !warning_run. eexists [_; _]. reflexivity.
  - unfold bind. rewrite debug_run, debug_each_run, info_run.
    destruct (1 <? Z.of_nat (List.length (first :: others))).
    + rewrite debug_run. eexists [_]. reflexivity.
    + eexists [_]. reflexivity.
Qed.

(** X8. Window detection: every window the search keeps has an origin that
    is not negative, a positive size and a title that holds the filter in
    any letter case; [find_runelite_window] returns [None] when there is
    none and otherwise the first window of the largest area, as a dict of
    x, y, width, height and title; it stores and writes nothing. *)
Theorem find_runelite_window_largest (w : World) :
  exists v w',
    find_runelite_window w = (Ok v, w')
    /\ window_config w' = window_config w /\ config_file w' = config_file w
    /\ Forall (detected Config.GAME_NAME)
              (_search_windows (xroot (outside w)) Config.GAME_NAME [])
    /\ match _search_windows (xroot (outside w)) Config.GAME_NAME [] with
       | [] => v = PNone
       | first :: others =>
           exists R pre post,
             v = Region.to_py R
             /\ (first :: others = pre ++ R :: post)%list
             /\ (forall r, In r pre -> Region.area r < Region.area R)
             /\ (forall r, In r post -> Region.area r <= Region.area R)
       end.
Proof.
  destruct (find_runelite_window_run w) as (evs & E).
  do 2 eexists. split; [exact E|].
  split; [reflexivity|]. split; [reflexivity|].
  destruct (search_windows_appends (xroot (outside w)) Config.GAME_NAME [])
    as (found & Ef & Hf).
  cbn [app] in Ef. rewrite Ef. split; [exact Hf|].
  destruct found as [|first others]; [reflexivity|].
  destruct (max_by_area_first others first) as (pre & post & Hl & Hpre & Hpost).
  exists (max_by_area first others), pre, post.
  repeat split; assumption.
Qed.

End DetectionFacts.

(* ------------------------------------------------------------------ *)
(** ** window_manager.py: start-up and refresh *)
(* ------------------------------------------------------------------ *)

Module StartupFacts.
Import Env Py WindowManager.
Import PersistenceFacts DetectionFacts.

Lemma bool_of_region (R : Region.t) : bool_of (Region.to_py R) = true.
Proof. reflexivity. Qed.

Lemma detect_and_save_run (w : World) :
  exists w',
    match _search_windows (xroot (outside w)) Config.GAME_NAME [] with
    | [] =>
        detect_and_save w = (Ok false, w')
        /\ window_config w' = PNone /\ config_file w' = config_file w
    | first :: others =>
        detect_and_save w = (Ok true, w')
        /\ window_config w' = Region.to_py (max_by_area first others)
        /\ config_file w' = Some (Json.dumps (Region.to_py (max_by_area first others)))
    end
    /\ outside w' = outside w.
Proof.
  destruct (find_runelite_window_run w) as (evs & E).
  unfold detect_and_save. file_simpl. rewrite E.
  destruct (_search_windows (xroot (outside w)) Config.GAME_NAME []) as [|first others].
  - file_simpl.
    eexists. split; [split; [reflexivity|split; reflexivity]|reflexivity].
  - file_simpl. rewrite bool_of_region.
    unfold save_config. file_simpl. rewrite bool_of_region. file_simpl.
    rewrite debug_run.
    eexists. split; [split; [reflexivity|split; reflexivity]|reflexivity].
Qed.



(** X10. [refresh] follows the display and nothing else: whatever was stored
    or saved before, it stores the largest matching window and rewrites
    the file, or, when no window matches, stores [None] (so the manager
    stops being ready) while the file keeps the old region. *)
Theorem refresh_follows_the_display (w : World) :
  exists w',
    match _search_windows (xroot (outside w)) Config.GAME_NAME [] with
    | [] =>
        refresh w = (Ok false, w')
        /\ window_config w' = PNone /\ config_file w' = config_file w
        /\ fst (is_ready w') = Ok false
    | first :: others =>
        refresh w = (Ok true, w')
        /\ window_config w' = Region.to_py (max_by_area first others)
        /\ config_file w' = Some (Json.dumps (Region.to_py (max_by_area first others)))
        /\ fst (is_ready w') = Ok true
    end.
Proof.
  unfold refresh, bind. rewrite info_run.
  match goal with
  | |- context [detect_and_save ?w0] =>
      destruct (detect_and_save_run w0) as (w' & Hd & _)
  end.
  cbn [outside set_trace config_file events with_events World_Traced] in *.
  exists w'.
  destruct (_search_windows (xroot (outside w)) Config.GAME_NAME []) as [|first others].
  - destruct Hd as (H1 & H2 & H3). repeat split; try assumption.
    rewrite WindowFacts.is_ready_run, H2. reflexivity.
  - destruct Hd as (H1 & H2 & H3). repeat split; try assumption.
    rewrite WindowFacts.is_ready_run, H2. reflexivity.
Qed.



End StartupFacts.

(* ------------------------------------------------------------------ *)
(** ** screen_capture.py: the outcome of a capture *)
(* ------------------------------------------------------------------ *)

Module CaptureFacts.
Import Env Py ScreenCapture.
Import ActuationFacts.




Lemma get_region_malformed (cfg : pyval) :
  bool_of cfg = true ->
  WindowManager.geometry_keys cfg = false ->
  exists e,
    is_Exception e = true
    /\ forall w, window_config w = cfg -> WindowManager.get_region w = (Raise e, w).
Proof.
  intros Ht Hk.
  unfold WindowManager.geometry_keys in Hk. rewrite Ht in Hk. cbn [negb orb] in Hk.
  assert (Hrun : forall w, window_config w = cfg ->
            WindowManager.get_region w
            = ((left <- lift (subscript cfg "x") ;;
                top <- lift (subscript cfg "y") ;;
                w1 <- lift (subscript cfg "width") ;;
                h <- lift (subscript cfg "height") ;;
                ret (PDict [("left", left); ("top", top); ("width", w1); ("height", h)])) w)).
  { intros w Hw. unfold WindowManager.get_region, bind at 1, get.
    rewrite Hw, Ht. reflexivity. }
  destruct cfg as [| b | n | s | l | d]; [discriminate Ht|..];
    try (eexists; split; [|intros w Hw; rewrite (Hrun w Hw); reflexivity]; reflexivity).
  destruct (dict_get d "x") eqn:Dx;
    [|eexists; split; [|intros w Hw; rewrite (Hrun w Hw);
                        unfold bind, lift, subscript; rewrite Dx; reflexivity]; reflexivity].
  destruct (dict_get d "y") eqn:Dy;
    [|eexists; split; [|intros w Hw; rewrite (Hrun w Hw);
                        unfold bind, lift, subscript; rewrite Dx, Dy; reflexivity]; reflexivity].
  destruct (dict_get d "width") eqn:Dw;
    [|eexists; split; [|intros w Hw; rewrite (Hrun w Hw);
                        unfold bind, lift, subscript; rewrite Dx, Dy, Dw; reflexivity]; reflexivity].
  destruct (dict_get d "height") eqn:Dh; [discriminate Hk|].
  eexists; split; [|intros w Hw; rewrite (Hrun w Hw);
                    unfold bind, lift, subscript; rewrite Dx, Dy, Dw, Dh; reflexivity]; reflexivity.
Qed.

(** X13. A stored configuration that is true in a condition but lacks one of
    the keys x, y, width, height (a hand-edited region file, say) is not
    guarded against: [get_region] raises on the missing key from outside
    the [try] of [capture], so the capture raises instead of returning
    [None], no frame is grabbed, and the skills that start with a
    capture, [count_logs_in_inventory] and [find_item_visual], raise the
    same exception to their caller. *)
Theorem malformed_config_escapes_capture (w : World) :
  bool_of (window_config w) = true ->
  WindowManager.geometry_keys (window_config w) = false ->
  exists e,
    is_Exception e = true
    /\ (forall save annotate boxes, capture save annotate boxes w = (Raise e, w))
    /\ Skills.count_logs_in_inventory w = (Raise e, w)
    /\ (forall item, fst (Skills.find_item_visual item w) = Raise e
                     /\ grabs (snd (Skills.find_item_visual item w)) = grabs w).
Proof.
  intros Ht Hk.
  destruct (get_region_malformed (window_config w) Ht Hk) as (e & He & E).
  assert (Hcap : forall save annotate boxes w0,
             window_config w0 = window_config w ->
             capture save annotate boxes w0 = (Raise e, w0)).
  { intros save annotate boxes w0 Hw0. unfold capture, bind at 1.
    rewrite WindowFacts.is_ready_run, Hw0.
    destruct (window_config w) eqn:C; [discriminate Ht|..];
      cbn [negb]; unfold bind at 1; rewrite (E w0 Hw0); reflexivity. }
  exists e. split; [exact He|].
  split; [intros; apply Hcap; reflexivity|]. split.
  - unfold Skills.count_logs_in_inventory, bind at 1.
    rewrite Hcap by reflexivity. reflexivity.
  - intros item.
    destruct (PerceptionFacts.log_action_run "FIND_ITEM" item w) as (msg & L).
    assert (Hfind : Skills.find_item_visual item w
                    = (Raise e, set_trace (Log INFO msg :: trace w) w)).
    { unfold Skills.find_item_visual, bind at 1. rewrite L. unfold bind at 1.
      rewrite Hcap by reflexivity. reflexivity. }
    rewrite Hfind. split; reflexivity.
Qed.

Lemma malformed_config_escapes_capture_witness :
  exists e,
    is_Exception e = true
    /\ (forall save annotate boxes,
          capture save annotate boxes
                  (Sample.world Sample.quiet None (PDict [("x", PInt 0)]))
          = (Raise e, Sample.world Sample.quiet None (PDict [("x", PInt 0)])))
    /\ Skills.count_logs_in_inventory
         (Sample.world Sample.quiet None (PDict [("x", PInt 0)]))
       = (Raise e, Sample.world Sample.quiet None (PDict [("x", PInt 0)]))
    /\ (forall item,
          fst (Skills.find_item_visual item
                 (Sample.world Sample.quiet None (PDict [("x", PInt 0)])))
          = Raise e
          /\ grabs (snd (Skills.find_item_visual item
                 (Sample.world Sample.quiet None (PDict [("x", PInt 0)]))))
             = grabs (Sample.world Sample.quiet None (PDict [("x", PInt 0)]))).
Proof.
  apply (malformed_config_escapes_capture
           (Sample.world Sample.quiet None (PDict [("x", PInt 0)])));
    reflexivity.
Defined.

End CaptureFacts.

(* ------------------------------------------------------------------ *)
(** ** vision.py: one look at a frame *)
(* ------------------------------------------------------------------ *)

Module VisionFacts.
Import Env Py Vision.
Import ActuationFacts.

Lemma substring_length (m : nat) :
  forall s : string, (String.length (substring 0 m s) <= m)%nat.
Proof.
  induction m as [|m IH]; intros s.
  - destruct s; cbn; lia.
  - destruct s as [|c s]; cbn; [lia|]. specialize (IH s). lia.
Qed.

Lemma request_run (image : ScreenCapture.Image) (prompt : string) (w : World) :
  request image prompt w
  = match vlm_reply (outside w) (vlm_calls w) with
    | Reply text =>
        (Ok text,
         set_trace
           (Log INFO ("VISION: "
                      ++ (if (100 <? String.length text)%nat
                          then substring 0 100 text ++ "..." else text))
              :: trace w)
           (set_vlm_calls (S (vlm_calls w)) w))
    | Failure msg => (Raise (External msg), set_vlm_calls (S (vlm_calls w)) w)
    end.
Proof.
  unfold request. world_simpl.
  destruct (vlm_reply (outside w) (vlm_calls w)); [|reflexivity].
  rewrite info_run. reflexivity.
Qed.

(** With a client and a provider it knows, [analyze_screenshot] is one
    request. *)
Lemma analyze_asks (image : ScreenCapture.Image) (prompt : string) (w : World) :
  client w = true -> supported (provider w) = true ->
  analyze_screenshot image prompt w
  = match vlm_reply (outside w) (vlm_calls w) with
    | Reply text =>
        (Ok (Some text),
         set_trace
           (Log INFO ("VISION: "
                      ++ (if (100 <? String.length text)%nat
                          then substring 0 100 text ++ "..." else text))
              :: trace w)
           (set_vlm_calls (S (vlm_calls w)) w))
    | Failure msg =>
        (Ok None,
         set_trace (Log ERROR ("VLM analysis failed: " ++ msg) :: trace w)
                   (set_vlm_calls (S (vlm_calls w)) w))
    end.
Proof.
  intros C Hs.
  assert (Hblock :
    try_except (r <- request image prompt ;; ret (Some r)) Exception
      (fun e => Logger.error ("VLM analysis failed: " ++ str_exn e) ;; ret None) w
    = match vlm_reply (outside w) (vlm_calls w) with
      | Reply text =>
          (Ok (Some text),
           set_trace
             (Log INFO ("VISION: "
                        ++ (if (100 <? String.length text)%nat
                            then substring 0 100 text ++ "..." else text))
                :: trace w)
             (set_vlm_calls (S (vlm_calls w)) w))
      | Failure msg =>
          (Ok None,
           set_trace (Log ERROR ("VLM analysis failed: " ++ msg) :: trace w)
                     (set_vlm_calls (S (vlm_calls w)) w))
      end).
  { unfold try_except, bind. rewrite request_run.
    destruct (vlm_reply (outside w) (vlm_calls w)) as [text|msg]; [reflexivity|].
    cbn [Exception is_Exception]. rewrite error_run. reflexivity. }
  unfold analyze_screenshot, bind at 1, get. rewrite C. cbn [negb].
  unfold supported in Hs. unfold try_except at 1, bind at 1, get.
  unfold try_except in Hblock.
  destruct (String.eqb (provider w) "anthropic"); [exact Hblock|].
  destruct (String.eqb (provider w) "openai"); [exact Hblock|discriminate Hs].
Qed.

(** Without a client, or with another provider, it asks nothing. *)
Lemma analyze_declines (image : ScreenCapture.Image) (prompt : string) (w : World) :
  client w && supported (provider w) = false ->
  exists msg,
    analyze_screenshot image prompt w
    = (Ok None, set_trace (Log ERROR msg :: trace w) w).
Proof.
  intros H. unfold analyze_screenshot, bind at 1, get.
  destruct (client w); cbn [negb andb] in *.
  - unfold supported in H. apply orb_false_elim in H. destruct H as [S1 S2].
    unfold try_except, bind at 1, get. rewrite S1, S2.
    unfold bind. rewrite error_run. eexists. reflexivity.
  - unfold bind. rewrite error_run. eexists. reflexivity.
Qed.

(** X14. What one look at a frame costs and gives: [analyze_screenshot]
    never raises.  With a client and one of the two supported providers
    it sends exactly one request; the answer comes back whole, while the
    log record keeps its first 100 characters and an ellipsis, and a
    failed request gives [None] and an error record.  Without a client,
    or with another provider, no request is sent and [None] is returned
    with an error record. *)
Theorem analyze_screenshot_contract
        (image : ScreenCapture.Image) (prompt : string) (w : World) :
  exists r w',
    analyze_screenshot image prompt w = (Ok r, w')
    /\ if client w && supported (provider w) then
         vlm_calls w' = S (vlm_calls w)
         /\ match vlm_reply (outside w) (vlm_calls w) with
            | Reply text =>
                r = Some text
                /\ exists logged,
                     hd_error (trace w') = Some (Log INFO ("VISION: " ++ logged))
                     /\ (String.length logged <= 103)%nat
                     /\ ((String.length text <= 100)%nat -> logged = text)
            | Failure msg =>
                r = None
                /\ hd_error (trace w')
                   = Some (Log ERROR ("VLM analysis failed: " ++ msg))
            end
       else
         vlm_calls w' = vlm_calls w /\ r = None
         /\ exists msg, hd_error (trace w') = Some (Log ERROR msg).
Proof.
  destruct (client w && supported (provider w)) eqn:Hcs.
  - apply andb_prop in Hcs. destruct Hcs as [C Hs].
    rewrite (analyze_asks image prompt w C Hs).
    destruct (vlm_reply (outside w) (vlm_calls w)) as [text|msg].
    + do 2 eexists. split; [reflexivity|]. split; [reflexivity|].
      split; [reflexivity|]. eexists. split; [reflexivity|]. split.
      * destruct (100 <? String.length text)%nat eqn:L.
        -- rewrite JsonFacts.length_append. cbn [String.length].
           pose proof (substring_length 100 text). lia.
        -- apply Nat.ltb_ge in L. lia.
      * intros Hl. destruct (100 <? String.length text)%nat eqn:L; [|reflexivity].
        apply Nat.ltb_lt in L. lia.
    + do 2 eexists. split; [reflexivity|]. split; [reflexivity|].
      split; reflexivity.
  - destruct (analyze_declines image prompt w Hcs) as (msg & E). rewrite E.
    do 2 eexists. split; [reflexivity|]. split; [reflexivity|].
    split; [reflexivity|]. exists msg. reflexivity.
Qed.

(** X15. [verify_fire_made] never raises, and says True exactly when the
    provider answered and the answer holds the letters y, e, s in a row,
    in any letter case and anywhere in the text, also inside a longer
    word. *)
Theorem verify_fire_made_contract (image : ScreenCapture.Image) (w : World) :
  exists response w1 made,
    analyze_screenshot image fire_prompt w = (Ok response, w1)
    /\ verify_fire_made image w = (Ok made, w1)
    /\ (made = true <->
        exists r, response = Some r /\ contains "yes" (lower r) = true).
Proof.
  destruct (PerceptionFacts.analyze_returns image fire_prompt w) as (response & w1 & E).
  unfold verify_fire_made, bind. rewrite E.
  destruct response as [r|].
  - destruct (truthy r) eqn:T.
    + do 3 eexists. split; [reflexivity|]. split; [reflexivity|]. split.
      * intros H. exists r. split; [reflexivity|exact H].
      * intros (r' & Hr & Hc). inversion Hr. subst. exact Hc.
    + do 3 eexists. split; [reflexivity|]. split; [reflexivity|]. split.
      * intros H. discriminate H.
      * intros (r' & Hr & Hc). inversion Hr. subst r'.
        apply PerceptionFacts.truthy_false_empty in T. subst r. discriminate Hc.
  - do 3 eexists. split; [reflexivity|]. split; [reflexivity|]. split.
    + intros H. discriminate H.
    + intros (r' & Hr & _). discriminate Hr.
Qed.

Example verify_fire_made_examples :
  fst (verify_fire_made Sample.frame0 (Sample.playing "Yes.")) = Ok true
  /\ fst (verify_fire_made Sample.frame0 (Sample.playing "no")) = Ok false
  /\ fst (verify_fire_made Sample.frame0 (Sample.playing "No, only eyes")) = Ok true
  /\ fst (verify_fire_made Sample.frame0 (Sample.playing "")) = Ok false.
Proof. repeat split; reflexivity. Qed.


Example identify_items_examples :
  fst (identify_items Sample.frame0 (Sample.playing "7")) = Ok (PInt 7)
  /\ fst (identify_items Sample.frame0 (Sample.playing "seven")) = Ok no_items
  /\ fst (identify_items Sample.frame0
            (Sample.playing ("{" ++ quoted "items" ++ ": [{" ++ quoted "name" ++ ": "
                             ++ quoted "logs" ++ ", " ++ quoted "slot" ++ ": 3}]}")))
     = Ok (PDict [("items", PList [PDict [("name", PStr "logs"); ("slot", PInt 3)]])]).
Proof. repeat split; reflexivity. Qed.

End VisionFacts.

(* ------------------------------------------------------------------ *)
(** ** vision.py: the perception client *)
(* ------------------------------------------------------------------ *)

Module ClientFacts.
Import Env Py Vision.
Import ActuationFacts.

(** X17. Setting up the perception client: [_setup_client] never raises and
    leaves a client exactly when the provider is "anthropic" or "openai"
    and that provider's package could be imported and its client built;
    every other case is logged and leaves no client.  So a client is
    never paired with a provider [analyze_screenshot] cannot ask, and
    right after the set-up a look at a frame sends a request exactly when
    there is a client.  As shipped ([VLM_PROVIDER] is "anthropic") the
    OpenAI package is never consulted. *)
Theorem client_implies_supported_provider (anthropic openai : sdk) (w : World) :
  exists w',
    _setup_client anthropic openai w = (Ok tt, w')
    /\ provider w' = provider w /\ vlm_calls w' = vlm_calls w
    /\ (client w' = true <->
        (provider w = "anthropic" /\ anthropic = Installed)
        \/ (provider w = "openai" /\ openai = Installed))
    /\ (client w' = true -> supported (provider w') = true)
    /\ (forall image prompt,
          vlm_calls (snd (analyze_screenshot image prompt w'))
          = if client w' then S (vlm_calls w') else vlm_calls w')
    /\ (client (snd (init anthropic openai w)) = true <-> anthropic = Installed).
Proof.
  assert (Hsetup : forall w0, exists w',
    _setup_client anthropic openai w0 = (Ok tt, w')
    /\ provider w' = provider w0 /\ vlm_calls w' = vlm_calls w0
    /\ (client w' = true <->
        (provider w0 = "anthropic" /\ anthropic = Installed)
        \/ (provider w0 = "openai" /\ openai = Installed))).
  { intros w0. unfold _setup_client, bind at 1, get.
    destruct (String.eqb (provider w0) "anthropic") eqn:S1.
    - apply String.eqb_eq in S1.
      destruct anthropic; unfold bind, modify; rewrite ?info_run, ?error_run;
        (eexists; split; [reflexivity|]; split; [reflexivity|];
         split; [reflexivity|]); cbn [client set_client set_trace events with_events
                                     World_Traced]; split;
        try (intros _; left; split; [exact S1|reflexivity]);
        try (intros H; discriminate H);
        try reflexivity;
        intros [[_ H]|[H _]]; try discriminate H; rewrite S1 in H; discriminate H.
    - destruct (String.eqb (provider w0) "openai") eqn:S2.
      + apply String.eqb_eq in S2.
        destruct openai; unfold bind, modify; rewrite ?info_run, ?error_run;
          (eexists; split; [reflexivity|]; split; [reflexivity|];
           split; [reflexivity|]); cbn [client set_client set_trace events with_events
                                       World_Traced]; split;
          try (intros _; right; split; [exact S2|reflexivity]);
          try (intros H; discriminate H);
          try reflexivity;
          intros [[H _]|[_ H]]; try discriminate H; rewrite S2 in H; discriminate H.
      + apply String.eqb_neq in S1, S2.
        destruct (String.eqb (provider w0) "local");
          unfold bind, modify; rewrite ?warning_run, ?error_run;
          (eexists; split; [reflexivity|]; split; [reflexivity|];
           split; [reflexivity|]); cbn [client set_client set_trace events with_events
                                       World_Traced]; split;
          try (intros H; discriminate H);
          intros [[H _]|[H _]]; contradiction. }
  destruct (Hsetup w) as (w' & E & Hp & Hv & Hc).
  exists w'. split; [exact E|]. split; [exact Hp|]. split; [exact Hv|].
  split; [exact Hc|].
  assert (Hsup : client w' = true -> supported (provider w') = true).
  { intros H. apply Hc in H. rewrite Hp. unfold supported.
    destruct H as [[H _]|[H _]]; rewrite H; reflexivity. }
  split; [exact Hsup|]. split.
  - intros image prompt.
    destruct (client w') eqn:C.
    + rewrite (VisionFacts.analyze_asks image prompt w' C (Hsup eq_refl)).
      destruct (vlm_reply (outside w') (vlm_calls w')); reflexivity.
    + destruct (VisionFacts.analyze_declines image prompt w') as (msg & Ea);
        [rewrite C; reflexivity|].
      rewrite Ea. reflexivity.
  - unfold init, bind, modify.
    destruct (Hsetup (set_provider Config.VLM_PROVIDER w)) as (w3 & E3 & _ & _ & Hc3).
    rewrite E3. cbn [snd]. rewrite Hc3. cbn [provider set_provider].
    split.
    + intros [[_ H]|[H _]]; [exact H|discriminate H].
    + intros H. left. split; [reflexivity|exact H].
Qed.

(** X18. Without a perception client everything that looks at the game
    falls back to its default, and no request is sent: the locate
    helpers find nothing, no fire is seen, no item is identified, the log
    count is 0 and [make_fire] fails, all without raising. *)
Theorem no_client_defaults (image : ScreenCapture.Image) (w : World) :
  client w = false ->
  (fst (find_tinderbox image w) = Ok None
   /\ vlm_calls (snd (find_tinderbox image w)) = vlm_calls w)
  /\ (fst (find_logs image w) = Ok None
      /\ vlm_calls (snd (find_logs image w)) = vlm_calls w)
  /\ (fst (verify_fire_made image w) = Ok false
      /\ vlm_calls (snd (verify_fire_made image w)) = vlm_calls w)
  /\ (fst (identify_items image w) = Ok no_items
      /\ vlm_calls (snd (identify_items image w)) = vlm_calls w)
  /\ (WindowManager.geometry_keys (window_config w) = true ->
      (fst (Skills.count_logs_in_inventory w) = Ok 0
       /\ vlm_calls (snd (Skills.count_logs_in_inventory w)) = vlm_calls w)
      /\ (forall item,
            fst (Skills.find_item_visual item w) = Ok None
            /\ vlm_calls (snd (Skills.find_item_visual item w)) = vlm_calls w)
      /\ (fst (Skills.make_fire w) = Ok false
          /\ vlm_calls (snd (Skills.make_fire w)) = vlm_calls w)).
Proof.
  intros C.
  assert (Ha : forall image prompt w0, client w0 = false ->
            analyze_screenshot image prompt w0
            = (Ok None, set_trace (Log ERROR "VLM client not initialized" :: trace w0) w0)).
  { intros i p w0 C0. unfold analyze_screenshot, bind at 1, get. rewrite C0.
    cbn [negb]. unfold bind. rewrite error_run. reflexivity. }
  split; [unfold find_tinderbox, find_slot, bind; rewrite Ha by exact C;
          split; reflexivity|].
  split; [unfold find_logs, find_slot, bind; rewrite Ha by exact C;
          split; reflexivity|].
  split; [unfold verify_fire_made, bind; rewrite Ha by exact C; split; reflexivity|].
  split; [unfold identify_items, bind; rewrite Ha by exact C; split; reflexivity|].
  intros Hk.
  assert (Hcap : forall w0,
            client w0 = false -> window_config w0 = window_config w ->
            exists shot w1,
              ScreenCapture.capture false false None w0 = (Ok shot, w1)
              /\ client w1 = false /\ window_config w1 = window_config w
              /\ vlm_calls w1 = vlm_calls w0).
  { intros w0 C0 W0.
    destruct (PerceptionFacts.capture_returns false false None w0) as (shot & w1 & Ec);
      [rewrite W0; exact Hk|].
    pose proof (FrameFacts.observes_capture false false None w0) as U.
    pose proof (FrameFacts.capture_unasked false false None w0) as V.
    rewrite Ec in U, V. cbn [snd] in U, V.
    unfold untouched in U. destruct U as (_ & Uw & _ & _ & Uc & _).
    exists shot, w1. split; [exact Ec|].
    split; [congruence|]. split; [congruence|exact V]. }
  assert (Hfind : forall item w0,
            client w0 = false -> window_config w0 = window_config w ->
            exists w1, Skills.find_item_visual item w0 = (Ok None, w1)
                       /\ client w1 = false /\ window_config w1 = window_config w
                       /\ vlm_calls w1 = vlm_calls w0).
  { intros item w0 C0 W0.
    unfold Skills.find_item_visual, bind at 1.
    destruct (PerceptionFacts.log_action_run "FIND_ITEM" item w0) as (msg & L).
    rewrite L. unfold bind at 1.
    destruct (Hcap (set_trace (Log INFO msg :: trace w0) w0) C0 W0)
      as (shot & w1 & Ec & C1 & W1 & V1).
    rewrite Ec. destruct shot as [shot|].
    - assert (Hslot :
        (if String.eqb (lower item) "tinderbox" then find_tinderbox shot
         else if contains "log" (lower item) then find_logs shot
              else Skills.find_generic shot item) w1
        = (Ok None, set_trace (Log ERROR "VLM client not initialized" :: trace w1) w1)).
      { destruct (String.eqb (lower item) "tinderbox");
          [unfold find_tinderbox, find_slot, bind; rewrite Ha by exact C1; reflexivity|].
        destruct (contains "log" (lower item));
          [unfold find_logs, find_slot, bind; rewrite Ha by exact C1; reflexivity|].
        unfold Skills.find_generic, bind at 1. rewrite Ha by exact C1. reflexivity. }
      unfold bind at 1. rewrite Hslot. unfold bind, Logger.log_error. rewrite error_run.
      eexists. split; [reflexivity|].
      cbn [client window_config vlm_calls set_trace with_events events World_Traced].
      repeat split; assumption.
    - eexists. split; [reflexivity|]. repeat split; assumption. }
  split; [|split].
  - assert (Hcount : exists w', Skills.count_logs_in_inventory w = (Ok 0, w')
                                /\ vlm_calls w' = vlm_calls w).
    { destruct (Hcap w C eq_refl) as (shot & w1 & Ec & C1 & W1 & V1).
      unfold Skills.count_logs_in_inventory, bind at 1. rewrite Ec.
      destruct shot as [shot|]; [|exists w1; split; [reflexivity|exact V1]].
      unfold bind at 1. rewrite Ha by exact C1.
      unfold try_except, bind, ret. rewrite debug_run.
      eexists. split; [reflexivity|exact V1]. }
    destruct Hcount as (w' & E & V). rewrite E. split; [reflexivity|exact V].
  - intros item. destruct (Hfind item w C eq_refl) as (w1 & E & _ & _ & V).
    rewrite E. split; [reflexivity|exact V].
  - assert (Hfire : exists w', Skills.make_fire w = (Ok false, w')
                               /\ vlm_calls w' = vlm_calls w).
    { unfold Skills.make_fire, bind at 1, Logger.log_skill. rewrite info_run.
      unfold bind at 1, Skills.use_item_on_item, bind at 1, Logger.log_skill.
      rewrite info_run. unfold bind at 1.
      match goal with
      | |- context [Skills.find_item_visual "tinderbox" ?w0] =>
          destruct (Hfind "tinderbox" w0 C eq_refl) as (w1 & E1 & C1 & W1 & V1)
      end.
      rewrite E1. unfold bind at 1.
      destruct (Hfind "logs" w1 C1 W1) as (w2 & E2 & C2 & W2 & V2).
      rewrite E2. unfold bind, Logger.log_error. rewrite error_run.
      cbn [negb ret].
      eexists. split; [reflexivity|].
      cbn [vlm_calls set_trace with_events events World_Traced] in *.
      congruence. }
    destruct Hfire as (w' & E & V). rewrite E. split; [reflexivity|exact V].
Qed.

Lemma no_client_defaults_witness :
  fst (Skills.make_fire (set_client false (Sample.playing "7"))) = Ok false
  /\ vlm_calls (snd (Skills.make_fire (set_client false (Sample.playing "7")))) = 0%nat.
Proof.
  apply (no_client_defaults Sample.frame0 (set_client false (Sample.playing "7")));
    reflexivity.
Defined.

End ClientFacts.

(* ------------------------------------------------------------------ *)
(** ** firemaking_agent.py: a run from start to stop *)
(* ------------------------------------------------------------------ *)

Module RunFacts.
Import Env Py Agent.
Import AgentFacts.

Lemma logged_refl (a : State) : logged a a.
Proof. repeat split. Qed.

Lemma initialize_run (a : State) :
  exists evs,
    initialize a
    = (Ok (ready (script a) && test_shot (script a)),
       mkState (script a) (running a) (fires_made a) (failures a)
               (count_calls a) (fire_calls a) (evs ++ trace a)%list).
Proof.
  unfold initialize. agent_run.
  destruct (ready (script a)); agent_run; [|eexists [_; _; _; _]; reflexivity].
  destruct (test_shot (script a)); agent_run; [|eexists [_; _; _; _; _]; reflexivity].
  destruct (has_client (script a)); agent_run.
  - eexists [_; _; _; _; _; _; _; _]. reflexivity.
  - eexists [_; _; _; _; _; _; _; _; _; _]. reflexivity.
Qed.

Lemma make_one_fire_interrupted (a : State) :
  fire_answer (script a) (fire_calls a) = Raise KeyboardInterrupt ->
  exists evs,
    make_one_fire a
    = (Raise KeyboardInterrupt,
       mkState (script a) (running a) (fires_made a) (failures a)
               (count_calls a) (S (fire_calls a)) (evs ++ trace a)%list).
Proof.
  intros Hf. unfold make_one_fire. agent_run. rewrite Hf. agent_run.
  eexists [_]. reflexivity.
Qed.

(** One settled attempt: the call counter advances, and the attempt is
    counted once, as a fire or as a failure. *)
Lemma make_one_fire_settled (a : State) :
  settles (fire_answer (script a) (fire_calls a)) = true ->
  exists b a',
    make_one_fire a = (Ok b, a')
    /\ script a' = script a /\ running a' = running a
    /\ count_calls a' = count_calls a /\ fire_calls a' = S (fire_calls a)
    /\ fires_made a' = fires_made a + (if b then 1 else 0)
    /\ failures a' = failures a + (if b then 0 else 1)
    /\ (b = true <-> fire_answer (script a) (fire_calls a) = Ok true).
Proof.
  intros Hs.
  destruct (fire_answer (script a) (fire_calls a)) as [[|]|e] eqn:Hf.
  - destruct (make_one_fire_success a Hf) as (evs & E). rewrite E.
    do 2 eexists. split; [reflexivity|]. cbn. repeat split; lia.
  - destruct (make_one_fire_failure a) as (evs & E); [rewrite Hf; reflexivity|].
    rewrite E. do 2 eexists. split; [reflexivity|]. cbn.
    repeat split; try lia; intros H; discriminate H.
  - destruct (make_one_fire_failure a) as (evs & E); [rewrite Hf; exact Hs|].
    rewrite E. do 2 eexists. split; [reflexivity|]. cbn.
    repeat split; try lia; intros H; discriminate H.
Qed.

Lemma fixed_loop_settled (num_fires : Z) (left : nat) :
  forall (i : Z) (a : State),
    running a = true ->
    (forall j, (j < left)%nat ->
       settles (fire_answer (script a) (fire_calls a + j)) = true) ->
    exists a',
      fixed_loop left i num_fires a = (Ok tt, a')
      /\ script a' = script a /\ running a' = true
      /\ count_calls a' = count_calls a
      /\ fire_calls a' = (fire_calls a + left)%nat
      /\ fires_made a <= fires_made a' /\ failures a <= failures a'
      /\ (fires_made a' - fires_made a) + (failures a' - failures a) = Z.of_nat left.
Proof.
  induction left as [|left IH]; intros i a Hrun Hs.
  - exists a. cbn [fixed_loop]. unfold ret.
    repeat split; try lia. exact Hrun.
  - cbn [fixed_loop]. agent_run. rewrite Hrun. agent_run.
    destruct (make_one_fire_settled
                (mkState (script a) (running a) (fires_made a) (failures a)
                   (count_calls a) (fire_calls a)
                   (Log INFO ("Making fire " ++ str_int (i + 1) ++ "/"
                              ++ str_int num_fires ++ "...") :: trace a)))
      as (b & a1 & E1 & H1s & H1r & H1c & H1f & H1m & H1x & _).
    { cbn. rewrite <- (Nat.add_0_r (fire_calls a)). apply Hs. lia. }
    cbn [script running fires_made failures count_calls fire_calls] in *.
    rewrite E1.
    destruct (IH (i + 1) a1) as (a' & E' & H2s & H2r & H2c & H2f & H2m & H2x & H2t).
    { congruence. }
    { intros j Hj. rewrite H1s, H1f.
      replace (S (fire_calls a) + j)%nat with (fire_calls a + S j)%nat by lia.
      apply Hs. lia. }
    rewrite E'. exists a'. split; [reflexivity|].
    repeat split; try congruence; try lia.
    all: destruct b; lia.
Qed.

Lemma fixed_loop_interrupted (num_fires : Z) (k : nat) :
  forall (left : nat) (i : Z) (a : State),
    running a = true -> (k < left)%nat ->
    (forall j, (j < k)%nat ->
       settles (fire_answer (script a) (fire_calls a + j)) = true) ->
    fire_answer (script a) (fire_calls a + k) = Raise KeyboardInterrupt ->
    exists a',
      fixed_loop left i num_fires a = (Raise KeyboardInterrupt, a')
      /\ script a' = script a /\ running a' = true
      /\ count_calls a' = count_calls a
      /\ fire_calls a' = S (fire_calls a + k).
Proof.
  induction k as [|k IH]; intros left i a Hrun Hlt Hs Hk;
    (destruct left as [|left]; [lia|]); cbn [fixed_loop]; agent_run;
    rewrite Hrun; agent_run.
  - destruct (make_one_fire_interrupted
                (mkState (script a) (running a) (fires_made a) (failures a)
                   (count_calls a) (fire_calls a)
                   (Log INFO ("Making fire " ++ str_int (i + 1) ++ "/"
                              ++ str_int num_fires ++ "...") :: trace a)))
      as (evs & E).
    { cbn. rewrite <- (Nat.add_0_r (fire_calls a)). exact Hk. }
    rewrite E. eexists. split; [reflexivity|]. cbn.
    repeat split; try assumption; lia.
  - destruct (make_one_fire_settled
                (mkState (script a) (running a) (fires_made a) (failures a)
                   (count_calls a) (fire_calls a)
                   (Log INFO ("Making fire " ++ str_int (i + 1) ++ "/"
                              ++ str_int num_fires ++ "...") :: trace a)))
      as (b & a1 & E1 & H1s & H1r & H1c & H1f & _).
    { cbn. rewrite <- (Nat.add_0_r (fire_calls a)). apply Hs. lia. }
    cbn [script running fires_made failures count_calls fire_calls] in *.
    rewrite E1.
    destruct (IH left (i + 1) a1) as (a' & E' & H2s & H2r & H2c & H2f).
    { congruence. }
    { lia. }
    { intros j Hj. rewrite H1s, H1f.
      replace (S (fire_calls a) + j)%nat with (fire_calls a + S j)%nat by lia.
      apply Hs. lia. }
    { rewrite H1s, H1f.
      replace (S (fire_calls a) + k)%nat with (fire_calls a + S k)%nat by lia.
      exact Hk. }
    rewrite E'. exists a'. split; [reflexivity|].
    repeat split; try congruence. rewrite H2f, H1f. lia.
Qed.

(** [run] after a successful [initialize]: the guarded body is entered
    with the running flag set. *)
Lemma run_started (fuel : nat) (num : option Z) (a : State) :
  ready (script a) = true -> test_shot (script a) = true ->
  exists evs,
    run fuel num a
    = try_finally
        (try_except
           match num with
           | None =>
               r <- burn_inventory fuel ;;
               ret (match r with Some _ => Some tt | None => None end)
           | Some n => fixed_loop (Z.to_nat n) 0 n ;; ret (Some tt)
           end
           anything
           (fun e =>
              match e with
              | KeyboardInterrupt => Logger.warning "Interrupted by user"
              | _ => Logger.error ("Fatal error: " ++ str_exn e)
              end ;;
              ret (Some tt)))
        (modify (set_running false) ;; Logger.info "Agent stopped")
        (mkState (script a) true (fires_made a) (failures a)
                 (count_calls a) (fire_calls a) (evs ++ trace a)%list).
Proof.
  intros Hr Ht. destruct (initialize_run a) as (evs & E).
  rewrite Hr, Ht in E. exists evs.
  unfold run, bind at 1. rewrite E. cbn [andb negb].
  unfold bind at 1, modify at 1. reflexivity.
Qed.



(** A fixed-count run after a successful [initialize], from the way its
    loop ends. *)
Lemma run_fixed (fuel : nat) (n : Z) (a : State) :
  ready (script a) = true -> test_shot (script a) = true ->
  exists evs,
    forall a1,
      (fixed_loop (Z.to_nat n) 0 n
         (mkState (script a) true (fires_made a) (failures a)
                  (count_calls a) (fire_calls a) (evs ++ trace a)%list)
       = (Ok tt, a1) ->
       run fuel (Some n) a
       = (Ok (Some tt),
          mkState (script a1) false (fires_made a1) (failures a1)
                  (count_calls a1) (fire_calls a1)
                  (Log INFO "Agent stopped" :: trace a1)))
      /\ (fixed_loop (Z.to_nat n) 0 n
            (mkState (script a) true (fires_made a) (failures a)
                     (count_calls a) (fire_calls a) (evs ++ trace a)%list)
          = (Raise KeyboardInterrupt, a1) ->
          run fuel (Some n) a
          = (Ok (Some tt),
             mkState (script a1) false (fires_made a1) (failures a1)
                     (count_calls a1) (fire_calls a1)
                     (Log INFO "Agent stopped"
                        :: Log WARNING "Interrupted by user" :: trace a1))).
Proof.
  intros Hr Ht.
  destruct (run_started fuel (Some n) a Hr Ht) as (evs & E).
  exists evs. intros a1. rewrite E. agent_simpl.
  split; intros H; rewrite H; agent_run; reflexivity.
Qed.

(** X20. Fixed-count mode, [run(num_fires=n)]: as long as no attempt is
    interrupted the agent makes exactly [n] attempts (none when [n] is
    zero or negative), whatever they give: it never asks how many logs
    are left, does not stop after repeated failures and does not reset
    the failure count; every attempt is counted once, as a fire or as a
    failure. *)
Theorem fixed_run_accounting (fuel : nat) (n : Z) (a : State) :
  ready (script a) = true -> test_shot (script a) = true ->
  (forall j, (j < Z.to_nat n)%nat ->
     settles (fire_answer (script a) (fire_calls a + j)) = true) ->
  exists a',
    run fuel (Some n) a = (Ok (Some tt), a')
    /\ running a' = false
    /\ fire_calls a' = (fire_calls a + Z.to_nat n)%nat
    /\ count_calls a' = count_calls a
    /\ fires_made a <= fires_made a' /\ failures a <= failures a'
    /\ (fires_made a' - fires_made a) + (failures a' - failures a) = Z.max 0 n
    /\ hd_error (trace a') = Some (Log INFO "Agent stopped").
Proof.
  intros Hr Ht Hs.
  destruct (run_fixed fuel n a Hr Ht) as (evs & Hrun).
  destruct (fixed_loop_settled n (Z.to_nat n) 0
              (mkState (script a) true (fires_made a) (failures a)
                       (count_calls a) (fire_calls a) (evs ++ trace a)%list))
    as (a1 & E1 & H1s & H1r & H1c & H1f & H1m & H1x & H1t).
  { reflexivity. }
  { exact Hs. }
  cbn [script running fires_made failures count_calls fire_calls] in *.
  rewrite (proj1 (Hrun a1) E1).
  eexists. split; [reflexivity|]. cbn.
  repeat split; try assumption. lia.
Qed.

Lemma fixed_run_accounting_witness :
  exists a',
    run 0 (Some 4) (init Sample.fail_pass_fail_fail) = (Ok (Some tt), a')
    /\ running a' = false
    /\ fire_calls a' = 4%nat
    /\ count_calls a' = 0%nat
    /\ 0 <= fires_made a' /\ 0 <= failures a'
    /\ (fires_made a' - 0) + (failures a' - 0) = Z.max 0 4
    /\ hd_error (trace a') = Some (Log INFO "Agent stopped").
Proof.
  apply (fixed_run_accounting 0 4 (init Sample.fail_pass_fail_fail));
    try reflexivity.
  intros j _. cbn. destruct j as [|[|j]]; reflexivity.
Defined.

(** X21. An interrupt ends a fixed-count run at once: when an attempt raises
    KeyboardInterrupt, [make_one_fire] lets it through, the loop is left,
    [run] records "Interrupted by user" and then "Agent stopped", clears
    the running flag and returns; the attempts still to come are not
    made. *)
Theorem interrupt_ends_fixed_run (fuel : nat) (n : Z) (k : nat) (a : State) :
  ready (script a) = true -> test_shot (script a) = true ->
  (k < Z.to_nat n)%nat ->
  (forall j, (j < k)%nat ->
     settles (fire_answer (script a) (fire_calls a + j)) = true) ->
  fire_answer (script a) (fire_calls a + k) = Raise KeyboardInterrupt ->
  exists a' earlier,
    run fuel (Some n) a = (Ok (Some tt), a')
    /\ running a' = false
    /\ fire_calls a' = S (fire_calls a + k)
    /\ count_calls a' = count_calls a
    /\ trace a'
       = Log INFO "Agent stopped" :: Log WARNING "Interrupted by user" :: earlier.
Proof.
  intros Hr Ht Hk Hs Hi.
  destruct (run_fixed fuel n a Hr Ht) as (evs & Hrun).
  destruct (fixed_loop_interrupted n k (Z.to_nat n) 0
              (mkState (script a) true (fires_made a) (failures a)
                       (count_calls a) (fire_calls a) (evs ++ trace a)%list))
    as (a1 & E1 & H1s & H1r & H1c & H1f).
  { reflexivity. }
  { exact Hk. }
  { exact Hs. }
  { exact Hi. }
  cbn [script running fires_made failures count_calls fire_calls] in *.
  rewrite (proj2 (Hrun a1) E1).
  do 2 eexists. split; [reflexivity|]. cbn.
  repeat split; assumption.
Qed.

Lemma interrupt_ends_fixed_run_witness :
  exists a' earlier,
    run 0 (Some 5) (init Sample.ctrl_c) = (Ok (Some tt), a')
    /\ running a' = false
    /\ fire_calls a' = 2%nat
    /\ count_calls a' = 0%nat
    /\ trace a'
       = Log INFO "Agent stopped" :: Log WARNING "Interrupted by user" :: earlier.
Proof.
  apply (interrupt_ends_fixed_run 0 5 1 (init Sample.ctrl_c)); try reflexivity.
  - cbn. lia.
  - intros j Hj. assert (j = 0%nat) by lia. subst j. reflexivity.
Defined.

End RunFacts.

(* ------------------------------------------------------------------ *)
(** ** firemaking_agent.py: the drain-all loop, whenever it ends *)
(* ------------------------------------------------------------------ *)

Module DrainFacts.
Import Env Py Agent.
Import AgentFacts RunFacts.

Ltac agent_run_in H :=
  repeat (cbv beta iota zeta delta
              [bind ret get modify lift raise try_except try_finally Exception anything
               negb fst snd
               set_running set_fires_made set_failures set_count_calls set_fire_calls
               set_trace events with_events State_Traced
               Logger.log_action Logger.log_success Logger.log_error Logger.log_skill
               move_away_from_fire count_logs_in_inventory make_fire] in H;
          cbn [script running fires_made failures count_calls fire_calls trace] in H;
          rewrite ?info_run, ?warning_run, ?error_run, ?debug_run, ?wait_run in H).

Lemma burn_loop_not_running (fuel : nat) (a : State) :
  running a = false -> burn_loop (S fuel) a = (Ok (Some NotRunning), a).
Proof. intros H. cbn [burn_loop]. agent_run. rewrite H. reflexivity. Qed.

Lemma burn_loop_count_raises (fuel : nat) (a : State) (e : exn) :
  running a = true ->
  count_answer (script a) (count_calls a) = Raise e ->
  burn_loop (S fuel) a
  = (Raise e,
     mkState (script a) true (fires_made a) (failures a)
             (S (count_calls a)) (fire_calls a) (trace a)).
Proof.
  intros Hr Hc. cbn [burn_loop]. agent_run. rewrite Hr. agent_run. rewrite Hc.
  agent_run. rewrite Hr. reflexivity.
Qed.

Lemma burn_loop_interrupted (fuel : nat) (a : State) (c : Z) :
  running a = true ->
  count_answer (script a) (count_calls a) = Ok c -> c <> 0 ->
  fire_answer (script a) (fire_calls a) = Raise KeyboardInterrupt ->
  exists a',
    burn_loop (S fuel) a = (Raise KeyboardInterrupt, a')
    /\ fire_calls a' = S (fire_calls a).
Proof.
  intros Hr Hc Hne Hf. cbn [burn_loop]. agent_run. rewrite Hr. agent_run.
  rewrite Hc. agent_run.
  destruct (c =? 0) eqn:E; [apply Z.eqb_eq in E; contradiction|]. agent_run.
  match goal with
  | |- context [make_one_fire ?st] =>
      destruct (make_one_fire_interrupted st) as (evs & E1); [exact Hf|]
  end.
  rewrite E1. eexists. split; reflexivity.
Qed.

(** What is known of the drain-all loop whenever it ends. *)
Lemma burn_loop_ends (fuel : nat) :
  forall (a : State) (s : stop) (a' : State),
    burn_loop fuel a = (Ok (Some s), a') ->
    exists attempts : nat,
      script a' = script a /\ running a' = running a
      /\ fire_calls a' = (fire_calls a + attempts)%nat
      /\ fires_made a <= fires_made a' <= fires_made a + Z.of_nat attempts
      /\ match s with
         | NotRunning => running a = false /\ a' = a
         | NoMoreLogs =>
             running a = true
             /\ count_calls a' = S (count_calls a + attempts)
             /\ count_answer (script a) (count_calls a + attempts) = Ok 0
         | TooManyFailures =>
             running a = true
             /\ count_calls a' = (count_calls a + attempts)%nat
             /\ Config.MAX_RETRIES <= failures a'
             /\ exists before,
                  attempts = S before
                  /\ fails (fire_answer (script a) (fire_calls a + before)) = true
         end.
Proof.
  induction fuel as [|fuel IH]; intros a s a' H.
  - cbn in H. discriminate H.
  - destruct (running a) eqn:Hr.
    2:{ rewrite (burn_loop_not_running fuel a Hr) in H. inversion H. subst.
        exists 0%nat. rewrite Nat.add_0_r. repeat split; try lia. exact Hr. }
    destruct (count_answer (script a) (count_calls a)) as [c|e] eqn:Hc.
    2:{ rewrite (burn_loop_count_raises fuel a e Hr Hc) in H. discriminate H. }
    destruct (Z.eq_dec c 0) as [Hz|Hnz].
    { subst c. rewrite (burn_pass_no_logs fuel a Hr Hc) in H. inversion H. subst.
      exists 0%nat. cbn. rewrite !Nat.add_0_r. repeat split; try lia; assumption. }
    assert (Hstep : forall a1 made failed,
              burn_loop (S fuel) a = burn_loop fuel a1 ->
              advanced a made failed a1 ->
              fires_made a <= made <= fires_made a + 1 ->
              exists attempts : nat,
                script a' = script a /\ running a' = running a
                /\ fire_calls a' = (fire_calls a + attempts)%nat
                /\ fires_made a <= fires_made a' <= fires_made a + Z.of_nat attempts
                /\ match s with
                   | NotRunning => running a = false /\ a' = a
                   | NoMoreLogs =>
                       running a = true
                       /\ count_calls a' = S (count_calls a + attempts)
                       /\ count_answer (script a) (count_calls a + attempts) = Ok 0
                   | TooManyFailures =>
                       running a = true
                       /\ count_calls a' = (count_calls a + attempts)%nat
                       /\ Config.MAX_RETRIES <= failures a'
                       /\ exists before,
                            attempts = S before
                            /\ fails (fire_answer (script a) (fire_calls a + before))
                               = true
                   end).
    { intros a1 made failed E1 (A1 & A2 & A3 & A4 & A5 & A6) Hmade.
      rewrite E1 in H. destruct (IH a1 s a' H) as (m & I1 & I2 & I3 & I4 & I5).
      exists (S m). rewrite I1, I2, A1, A2, I3, A6.
      split; [reflexivity|]. split; [reflexivity|]. split; [lia|].
      split; [lia|].
      destruct s.
      - destruct I5 as [I5 _]. congruence.
      - destruct I5 as (_ & I5 & I6). split; [exact Hr|].
        rewrite I5, A5. split; [lia|].
        rewrite A1, A5 in I6.
        replace (count_calls a + S m)%nat with (S (count_calls a) + m)%nat by lia.
        exact I6.
      - destruct I5 as (_ & I5 & I6 & before & I7 & I8). split; [exact Hr|].
        rewrite I5, A5. split; [lia|]. split; [exact I6|].
        exists (S before). split; [lia|].
        rewrite A1, A6 in I8.
        replace (fire_calls a + S before)%nat with (S (fire_calls a) + before)%nat
          by lia.
        exact I8. }
    rewrite Hr in Hstep.
    destruct (fire_answer (script a) (fire_calls a)) as [[|]|e] eqn:Hf.
    + destruct (burn_pass_success fuel a c Hr Hc Hnz Hf) as (a1 & E1 & Ha1 & _).
      apply (Hstep a1 _ _ E1 Ha1). lia.
    + assert (Hfail : fails (fire_answer (script a) (fire_calls a)) = true)
        by (rewrite Hf; reflexivity).
      destruct (Z_lt_le_dec (failures a + 1) Config.MAX_RETRIES) as [Hlt|Hge].
      * destruct (burn_pass_retry fuel a c Hr Hc Hnz Hfail Hlt) as (a1 & E1 & Ha1 & _).
        apply (Hstep a1 _ _ E1 Ha1). lia.
      * destruct (burn_pass_exhausted fuel a c Hr Hc Hnz Hfail Hge)
          as (a1 & E1 & (A1 & A2 & A3 & A4 & A5 & A6) & _).
        rewrite E1 in H. inversion H. subst.
        exists 1%nat. rewrite A1, A2, A3, A4, A5, A6.
        repeat split; try lia; try assumption.
        exists 0%nat. rewrite Nat.add_0_r. split; [reflexivity|exact Hfail].
    + destruct (is_Exception e) eqn:He.
      * assert (Hfail : fails (fire_answer (script a) (fire_calls a)) = true)
          by (rewrite Hf; exact He).
        destruct (Z_lt_le_dec (failures a + 1) Config.MAX_RETRIES) as [Hlt|Hge].
        -- destruct (burn_pass_retry fuel a c Hr Hc Hnz Hfail Hlt) as (a1 & E1 & Ha1 & _).
           apply (Hstep a1 _ _ E1 Ha1). lia.
        -- destruct (burn_pass_exhausted fuel a c Hr Hc Hnz Hfail Hge)
             as (a1 & E1 & (A1 & A2 & A3 & A4 & A5 & A6) & _).
           rewrite E1 in H. inversion H. subst.
           exists 1%nat. rewrite A1, A2, A3, A4, A5, A6.
           repeat split; try lia; try assumption.
           exists 0%nat. rewrite Nat.add_0_r. split; [reflexivity|exact Hfail].
      * destruct e; try discriminate He.
        destruct (burn_loop_interrupted fuel a c Hr Hc Hnz Hf) as (a1 & E1 & _).
        rewrite E1 in H. discriminate H.
Qed.

(** X22. Whenever [burn_inventory] returns, its count of fires is the
    growth of [fires_made], it is not negative and it does not exceed
    the number of attempts made; one count of the logs was asked before
    each attempt; and the loop was left for one of three reasons only:
    the running flag was not set (nothing was asked or attempted), the
    count of the logs was exactly 0 (a negative count keeps the loop
    going), or an attempt failed with the failure count at
    [MAX_RETRIES] or above.  The closing records are the last ones. *)
Theorem burn_inventory_accounting (fuel : nat) (a : State) (made : Z) (a' : State) :
  burn_inventory fuel a = (Ok (Some made), a') ->
  exists (s : stop) (attempts : nat),
    made = fires_made a' - fires_made a
    /\ 0 <= made <= Z.of_nat attempts
    /\ fire_calls a' = (fire_calls a + attempts)%nat
    /\ running a' = running a
    /\ match s with
       | NotRunning =>
           running a = false /\ attempts = 0%nat /\ count_calls a' = count_calls a
       | NoMoreLogs =>
           running a = true
           /\ count_calls a' = S (count_calls a + attempts)
           /\ count_answer (script a) (count_calls a + attempts) = Ok 0
       | TooManyFailures =>
           running a = true
           /\ count_calls a' = (count_calls a + attempts)%nat
           /\ Config.MAX_RETRIES <= failures a'
           /\ exists before,
                attempts = S before
                /\ fails (fire_answer (script a) (fire_calls a + before)) = true
       end
    /\ hd_error (trace a')
       = Some (Log INFO ("Total fires: " ++ str_int (fires_made a'))).
Proof.
  intros H. unfold burn_inventory in H. agent_run_in H.
  match type of H with
  | context [burn_loop fuel ?st] =>
      destruct (burn_loop fuel st) as [[[s|]|e] a1] eqn:E
  end; agent_run_in H; try discriminate H.
  inversion H. subst made a'. clear H.
  destruct (burn_loop_ends fuel _ s a1 E) as (m & I1 & I2 & I3 & I4 & I5).
  cbn [script running fires_made failures count_calls fire_calls] in *.
  exists s, m. cbn [fires_made fire_calls running count_calls failures trace hd_error].
  split; [reflexivity|]. split; [lia|]. split; [exact I3|]. split; [exact I2|].
  split; [|reflexivity].
  destruct s.
  - destruct I5 as [I5 I6]. subst a1. cbn in I3.
    repeat split; try assumption; lia.
  - exact I5.
  - exact I5.
Qed.

Lemma burn_inventory_accounting_witness :
  exists (s : stop) (attempts : nat),
    5 = fires_made (snd (burn_inventory 6 (Sample.started Sample.five_logs))) - 0
    /\ 0 <= 5 <= Z.of_nat attempts
    /\ fire_calls (snd (burn_inventory 6 (Sample.started Sample.five_logs)))
       = (0 + attempts)%nat
    /\ running (snd (burn_inventory 6 (Sample.started Sample.five_logs))) = true
    /\ match s with
       | NotRunning =>
           true = false /\ attempts = 0%nat
           /\ count_calls (snd (burn_inventory 6 (Sample.started Sample.five_logs)))
              = 0%nat
       | NoMoreLogs =>
           true = true
           /\ count_calls (snd (burn_inventory 6 (Sample.started Sample.five_logs)))
              = S (0 + attempts)
           /\ count_answer Sample.five_logs (0 + attempts) = Ok 0
       | TooManyFailures =>
           true = true
           /\ count_calls (snd (burn_inventory 6 (Sample.started Sample.five_logs)))
              = (0 + attempts)%nat
           /\ Config.MAX_RETRIES
              <= failures (snd (burn_inventory 6 (Sample.started Sample.five_logs)))
           /\ exists before,
                attempts = S before
                /\ fails (fire_answer Sample.five_logs (0 + before)) = true
       end
    /\ hd_error (trace (snd (burn_inventory 6 (Sample.started Sample.five_logs))))
       = Some (Log INFO ("Total fires: "
                         ++ str_int (fires_made (snd (burn_inventory 6
                                       (Sample.started Sample.five_logs)))))).
Proof.
  apply (burn_inventory_accounting 6 (Sample.started Sample.five_logs) 5
           (snd (burn_inventory 6 (Sample.started Sample.five_logs)))).
  vm_compute. reflexivity.
Defined.

End DrainFacts.

(* ------------------------------------------------------------------ *)
(** ** firemaking_agent.py: the retry budget, from any failure count *)
(* ------------------------------------------------------------------ *)

Module BudgetFacts.
Import Env Py Agent.
Import AgentFacts.

(** X30. The retry budget counts failures carried over: the drain-all loop
    does not reset the failure count when it starts, so what an earlier
    fixed-count run left in it is kept.  Entered with [failures = f], the
    loop ends after exactly [max(1, MAX_RETRIES - f)] failed attempts in a
    row: three from a fresh count, one when two or more failures were
    left behind. *)
Theorem carried_failures_shorten_budget (m : nat) :
  forall (fuel : nat) (a : State),
    running a = true -> 0 <= failures a ->
    Z.of_nat (S m) = Z.max 1 (Config.MAX_RETRIES - failures a) ->
    (forall i, (i <= m)%nat ->
       exists c, count_answer (script a) (count_calls a + i) = Ok c /\ c <> 0) ->
    (forall i, (i <= m)%nat ->
       fails (fire_answer (script a) (fire_calls a + i)) = true) ->
    exists a',
      burn_loop (S m + fuel) a = (Ok (Some TooManyFailures), a')
      /\ failures a' = failures a + Z.of_nat (S m)
      /\ fire_calls a' = (fire_calls a + S m)%nat
      /\ fires_made a' = fires_made a.
Proof.
  induction m as [|m IH]; intros fuel a Hrun Hf Hm Hcount Hfire.
  - destruct (Hcount 0%nat (Nat.le_refl 0)) as (c & Hc & Hne).
    pose proof (Hfire 0%nat (Nat.le_refl 0)) as Hfail.
    rewrite Nat.add_0_r in Hc, Hfail.
    destruct (burn_pass_exhausted fuel a c Hrun Hc Hne Hfail)
      as (a' & E & (_ & _ & A3 & A4 & _ & A6) & _).
    { unfold Config.MAX_RETRIES in *. lia. }
    exists a'. cbn [Nat.add]. split; [exact E|].
    repeat split; try assumption; lia.
  - destruct (Hcount 0%nat (Nat.le_0_l _)) as (c & Hc & Hne).
    pose proof (Hfire 0%nat (Nat.le_0_l _)) as Hfail.
    rewrite Nat.add_0_r in Hc, Hfail.
    destruct (burn_pass_retry (S m + fuel) a c Hrun Hc Hne Hfail)
      as (a1 & E1 & (A1 & A2 & A3 & A4 & A5 & A6) & _).
    { unfold Config.MAX_RETRIES in *. lia. }
    destruct (IH fuel a1) as (a' & E' & F1 & F2 & F3).
    + congruence.
    + lia.
    + rewrite A4. unfold Config.MAX_RETRIES in *. lia.
    + intros i Hi. rewrite A1, A5.
      replace (S (count_calls a) + i)%nat with (count_calls a + S i)%nat by lia.
      apply Hcount. lia.
    + intros i Hi. rewrite A1, A6.
      replace (S (fire_calls a) + i)%nat with (fire_calls a + S i)%nat by lia.
      apply Hfire. lia.
    + exists a'. split.
      * change (S (S m) + fuel)%nat with (S (S m + fuel)). rewrite E1. exact E'.
      * rewrite F1, F2, F3, A3, A4, A6. repeat split; lia.
Qed.

Lemma carried_failures_shorten_budget_witness :
  exists a',
    burn_loop 1 (set_failures 2 (Sample.started Sample.never_lit))
    = (Ok (Some TooManyFailures), a')
    /\ failures a' = 2 + Z.of_nat 1
    /\ fire_calls a' = 1%nat
    /\ fires_made a' = 0.
Proof.
  apply (carried_failures_shorten_budget 0 0
           (set_failures 2 (Sample.started Sample.never_lit))).
  - reflexivity.
  - cbn. lia.
  - reflexivity.
  - intros i _. exists 5. split; [reflexivity|lia].
  - intros i _. reflexivity.
Defined.

End BudgetFacts.

(* ------------------------------------------------------------------ *)
(** ** firemaking_agent.py: fatal errors, the command line, stop *)
(* ------------------------------------------------------------------ *)

Module EntryFacts.
Import Env Py Agent.
Import AgentFacts RunFacts DrainFacts.

(** X23. An exception out of the count of the logs ends a drain-all run at
    once: [burn_inventory] has no handler, so its closing summary is
    never written; [run] records a fatal error (or the interrupt), then
    "Agent stopped", clears the running flag and returns, with no
    attempt made in that pass. *)
Theorem failing_count_ends_run (fuel : nat) (a : State) (e : exn) :
  ready (script a) = true -> test_shot (script a) = true ->
  count_answer (script a) (count_calls a) = Raise e ->
  exists a' earlier,
    run (S fuel) None a = (Ok (Some tt), a')
    /\ running a' = false
    /\ fire_calls a' = fire_calls a /\ fires_made a' = fires_made a
    /\ trace a'
       = Log INFO "Agent stopped"
           :: (if is_Exception e
               then Log ERROR ("Fatal error: " ++ str_exn e)
               else Log WARNING "Interrupted by user")
           :: Log INFO "Starting full inventory firemaking..."
           :: earlier.
Proof.
  intros Hr Ht Hc.
  destruct (run_started (S fuel) None a Hr Ht) as (evs & E). rewrite E.
  unfold burn_inventory. agent_run.
  match goal with
  | |- context [burn_loop (S fuel) ?st] =>
      rewrite (burn_loop_count_raises fuel st e eq_refl Hc)
  end.
  agent_run.
  destruct e; agent_run; (do 2 eexists; split; [reflexivity|]; repeat split).
Qed.

Lemma failing_count_ends_run_witness :
  exists a' earlier,
    run 1 None (init Sample.no_width) = (Ok (Some tt), a')
    /\ running a' = false
    /\ fire_calls a' = 0%nat /\ fires_made a' = 0
    /\ trace a'
       = Log INFO "Agent stopped"
           :: Log ERROR ("Fatal error: " ++ str_exn (KeyError "width"))
           :: Log INFO "Starting full inventory firemaking..."
           :: earlier.
Proof.
  apply (failing_count_ends_run 0 (init Sample.no_width) (KeyError "width"));
    reflexivity.
Defined.



(** X25. [stop()] before [run()] is forgotten: [run] sets the running flag
    again once [initialize] has succeeded, so the run makes all its
    attempts as if [stop] had not been called; only the warning record
    remains of the call. *)
Theorem stop_before_run_is_forgotten (fuel : nat) (n : Z) (a : State) :
  ready (script a) = true -> test_shot (script a) = true ->
  (forall j, (j < Z.to_nat n)%nat ->
     settles (fire_answer (script a) (fire_calls a + j)) = true) ->
  exists stopped a',
    stop_agent a = (Ok tt, stopped)
    /\ running stopped = false
    /\ hd_error (trace stopped) = Some (Log WARNING "Stopping agent...")
    /\ run fuel (Some n) stopped = (Ok (Some tt), a')
    /\ fire_calls a' = (fire_calls a + Z.to_nat n)%nat.
Proof.
  intros Hr Ht Hs.
  set (stopped := mkState (script a) false (fires_made a) (failures a)
                          (count_calls a) (fire_calls a)
                          (Log WARNING "Stopping agent..." :: trace a)).
  assert (Hstop : stop_agent a = (Ok tt, stopped)).
  { unfold stop_agent. agent_run. reflexivity. }
  destruct (run_fixed fuel n stopped Hr Ht) as (evs & Hfixed).
  destruct (fixed_loop_settled n (Z.to_nat n) 0
              (mkState (script stopped) true (fires_made stopped) (failures stopped)
                       (count_calls stopped) (fire_calls stopped)
                       (evs ++ trace stopped)%list))
    as (a1 & E1 & _ & _ & _ & H1f & _).
  { reflexivity. }
  { exact Hs. }
  exists stopped. eexists. split; [exact Hstop|]. split; [reflexivity|].
  split; [reflexivity|]. split; [exact (proj1 (Hfixed a1) E1)|exact H1f].
Qed.

Lemma stop_before_run_is_forgotten_witness :
  exists stopped a',
    stop_agent (init Sample.never_lit) = (Ok tt, stopped)
    /\ running stopped = false
    /\ hd_error (trace stopped) = Some (Log WARNING "Stopping agent...")
    /\ run 0 (Some 2) stopped = (Ok (Some tt), a')
    /\ fire_calls a' = 2%nat.
Proof.
  apply (stop_before_run_is_forgotten 0 2 (init Sample.never_lit)); reflexivity.
Defined.

End EntryFacts.

(* ------------------------------------------------------------------ *)
(** ** int() and str(): numerals *)
(* ------------------------------------------------------------------ *)

Module NumeralFacts.
Import Env Py.
Import JsonFacts.

Lemma every_app (p : ascii -> bool) (a b : string) :
  every p (a ++ b) = every p a && every p b.
Proof.
  induction a as [|c a IH]; [reflexivity|].
  cbn [append every]. rewrite IH. apply andb_assoc.
Qed.




Lemma uint_solid (d : uint) :
  every (fun c => negb (isspace c)) (NilEmpty.string_of_uint d) = true
  /\ every Json.plain_char (NilEmpty.string_of_uint d) = true.
Proof.
  induction d; cbn [NilEmpty.string_of_uint every]; try (split; reflexivity);
    destruct IHd as [H1 H2]; rewrite H1, H2; split; reflexivity.
Qed.

Lemma str_int_shape (n : Z) :
  match n with
  | Z0 => str_int n = "0"
  | Zpos p => str_int n = NilEmpty.string_of_uint (Pos.to_uint p)
  | Zneg p => str_int n = String "-" (NilEmpty.string_of_uint (Pos.to_uint p))
  end.
Proof.
  destruct n as [|p|p]; [reflexivity| |];
    unfold str_int; cbn [Z.to_int NilZero.string_of_int];
    pose proof (DecimalPos.Unsigned.to_uint_nonnil p) as Hnil;
    replace (NilZero.string_of_uint (Pos.to_uint p))
      with (NilEmpty.string_of_uint (Pos.to_uint p))
      by (unfold NilZero.string_of_uint; destruct (Pos.to_uint p); congruence);
    reflexivity.
Qed.

Lemma str_int_solid (n : Z) :
  every (fun c => negb (isspace c)) (str_int n) = true
  /\ every Json.plain_char (str_int n) = true.
Proof.
  pose proof (str_int_shape n) as H. destruct n as [|p|p]; rewrite H.
  - split; reflexivity.
  - apply uint_solid.
  - cbn [every]. destruct (uint_solid (Pos.to_uint p)) as [H1 H2].
    rewrite H1, H2. split; reflexivity.
Qed.





End NumeralFacts.

(* ------------------------------------------------------------------ *)
(** ** window_manager.py: the text of the region file *)
(* ------------------------------------------------------------------ *)

Module FileFacts.
Import Env Py Json.
Import JsonFacts NumeralFacts PersistenceFacts.

Lemma plain_app (a b : string) : plain (a ++ b) = plain a && plain b.
Proof. apply every_app. Qed.

Lemma plain_escape_char (c : ascii) : plain (escape_char c) = true.
Proof. destruct c as [[] [] [] [] [] [] [] []]; reflexivity. Qed.

Lemma plain_escape (s : string) : plain (escape s) = true.
Proof.
  induction s as [|c s IH]; [reflexivity|].
  cbn [escape]. rewrite plain_app, plain_escape_char, IH. reflexivity.
Qed.

Lemma plain_encode_str (s : string) : plain (encode_str s) = true.
Proof.
  unfold encode_str.
  change (String dquote (escape s ++ String dquote ""))
    with (String dquote "" ++ (escape s ++ String dquote "")).
  rewrite !plain_app, plain_escape. reflexivity.
Qed.

Lemma plain_spaces (n : nat) : plain (spaces n) = true.
Proof. induction n as [|n IH]; [reflexivity|]. cbn [spaces]. exact IH. Qed.

Lemma plain_newline_indent (lvl : nat) : plain (newline_indent lvl) = true.
Proof. unfold newline_indent. rewrite plain_app, plain_spaces. reflexivity. Qed.

Lemma plain_list_items (enc : pyval -> string) (sep : string) (l : list pyval) :
  plain sep = true ->
  Forall (fun x => plain (enc x) = true) l ->
  plain (list_items enc sep l) = true.
Proof.
  intros Hsep H. induction H as [|x l Hx Hl IH]; [reflexivity|].
  destruct l as [|y l]; [exact Hx|].
  change (list_items enc sep (x :: y :: l))
    with (enc x ++ sep ++ list_items enc sep (y :: l)).
  rewrite !plain_app, Hx, Hsep, IH. reflexivity.
Qed.

Lemma plain_dict_items (enc : pyval -> string) (sep : string)
      (d : list (string * pyval)) :
  plain sep = true ->
  Forall (fun kx => plain (enc (snd kx)) = true) d ->
  plain (dict_items enc sep d) = true.
Proof.
  intros Hsep H. induction H as [|[k x] d Hx Hd IH]; [reflexivity|].
  cbn [snd] in Hx.
  destruct d as [|[k' y] d].
  - cbn [dict_items]. rewrite !plain_app, plain_encode_str, Hx. reflexivity.
  - change (dict_items enc sep ((k, x) :: (k', y) :: d))
      with (encode_str k ++ ": " ++ enc x ++ sep ++ dict_items enc sep ((k', y) :: d)).
    rewrite !plain_app, plain_encode_str, Hx, Hsep, IH. reflexivity.
Qed.

Lemma plain_encode : forall (v : pyval) (lvl : nat), plain (encode lvl v) = true.
Proof.
  fix IH 1. intros v lvl. destruct v as [| b | n | s | l | d].
  - reflexivity.
  - destruct b; reflexivity.
  - apply str_int_solid.
  - apply plain_encode_str.
  - assert (H : Forall (fun x => plain (encode (S lvl) x) = true) l).
    { induction l as [|x l IHl]; constructor; [apply IH|exact IHl]. }
    destruct l as [|x l]; [reflexivity|].
    change (encode lvl (PList (x :: l)))
      with ("[" ++ newline_indent (S lvl)
            ++ list_items (encode (S lvl)) ("," ++ newline_indent (S lvl)) (x :: l)
            ++ newline_indent lvl ++ "]").
    rewrite !plain_app, !plain_newline_indent.
    rewrite plain_list_items;
      [reflexivity|rewrite plain_app, plain_newline_indent; reflexivity|exact H].
  - assert (H : Forall (fun kx => plain (encode (S lvl) (snd kx)) = true) d).
    { induction d as [|[k x] d IHd]; constructor; [apply IH|exact IHd]. }
    destruct d as [|kx d]; [reflexivity|].
    rewrite encode_dict.
    rewrite !plain_app, !plain_newline_indent.
    rewrite plain_dict_items;
      [reflexivity|rewrite plain_app, plain_newline_indent; reflexivity|exact H].
Qed.

Lemma save_config_run (w : World) :
  WindowManager.save_config w
  = (Ok tt, if bool_of (window_config w)
            then set_config_file (Some (dumps (window_config w))) w
            else w).
Proof.
  unfold WindowManager.save_config. file_simpl.
  destruct (bool_of (window_config w)); [|reflexivity].
  file_simpl. rewrite debug_run. reflexivity.
Qed.

(** X27. The region file is plain ASCII: whatever value is dumped, and
    whatever characters a window title holds, [json.dump] writes only
    printable ASCII characters and line breaks, the rest being escaped.
    [save_config] writes the dump of the stored configuration, and
    writes nothing at all when the configuration is [None] or empty. *)
Theorem region_file_is_plain_ascii (w : World) :
  (forall v, plain (dumps v) = true)
  /\ fst (WindowManager.save_config w) = Ok tt
  /\ (if bool_of (window_config w)
      then exists text,
             config_file (snd (WindowManager.save_config w)) = Some text
             /\ text = dumps (window_config w) /\ plain text = true
      else snd (WindowManager.save_config w) = w).
Proof.
  split; [intros v; apply plain_encode|].
  rewrite save_config_run. split; [reflexivity|].
  destruct (bool_of (window_config w)); [|reflexivity].
  eexists. split; [reflexivity|]. split; [reflexivity|apply plain_encode].
Qed.

(** X28. Any flat configuration survives a restart: a stored dict with
    distinct keys whose values are ints and strings, not only the five
    fields detection writes, is saved by [save_config] to a file from
    which a later start restores the same dict, whatever the display
    shows then. *)
Theorem flat_config_survives_restart
        (a : string * pyval) (d : list (string * pyval)) (w later : World) :
  window_config w = PDict (a :: d) ->
  forallb flat (map snd (a :: d)) = true ->
  NoDup (map fst (a :: d)) ->
  config_file later = config_file (snd (WindowManager.save_config w)) ->
  fst (WindowManager.init later) = Ok true
  /\ window_config (snd (WindowManager.init later)) = PDict (a :: d).
Proof.
  intros Hcfg Hflat Hnodup Hfile.
  rewrite save_config_run, Hcfg in Hfile.
  cbn [bool_of snd config_file set_config_file] in Hfile.
  assert (Hrun : exists w',
             WindowManager.init later = (Ok true, w')
             /\ window_config w' = PDict (a :: d)).
  { unfold WindowManager.init, WindowManager.load_or_detect, WindowManager.read_config.
    file_simpl. rewrite Hfile, (loads_dumps_flat a d Hflat Hnodup).
    file_simpl. rewrite info_run. eexists. split; reflexivity. }
  destruct Hrun as (w' & E & Hw). rewrite E. split; [reflexivity|exact Hw].
Qed.

Lemma flat_config_survives_restart_witness :
  fst (WindowManager.init
         (Sample.world Sample.quiet
            (config_file
               (snd (WindowManager.save_config
                       (Sample.world Sample.quiet None
                          (PDict [("x", PInt 3); ("note", PStr "second screen")])))))
            PNone))
  = Ok true
  /\ window_config
       (snd (WindowManager.init
               (Sample.world Sample.quiet
                  (config_file
                     (snd (WindowManager.save_config
                             (Sample.world Sample.quiet None
                                (PDict [("x", PInt 3);
                                        ("note", PStr "second screen")])))))
                  PNone)))
     = PDict [("x", PInt 3); ("note", PStr "second screen")].
Proof.
  apply (flat_config_survives_restart ("x", PInt 3) [("note", PStr "second screen")]
           (Sample.world Sample.quiet None
              (PDict [("x", PInt 3); ("note", PStr "second screen")])));
    try reflexivity.
  repeat constructor; cbn; intuition discriminate.
Defined.

End FileFacts.

(* ------------------------------------------------------------------ *)
(** ** vision.py and skills.py: numbers read back *)
(* ------------------------------------------------------------------ *)

Module ReadbackFacts.
Import Env Py Vision.
Import NumeralFacts.





End ReadbackFacts.
